(** * TechNova: the campus event-registration portal

    A shallow embedding of the request handlers of [routes.py] (served by
    [app.py] over [models.py]) and of the stand-alone [run_local.py], and
    the properties of the registration ledger proved about them.

    - A table is the list of its rows in insertion order; a row is a record
      with the columns of the model class.
    - A [DateTime] is an integer instant; [datetime.utcnow()] is the instant
      [now] at which the request is served.
    - The Flask [session] and [request.form] are dictionaries with string
      keys, modelled as [gmap string _].
    - [flash] is an output of the handler: the list of (category, message)
      pairs it flashed. (Flask keeps them under a session key of its own,
      which no handler reads; the sessions here hold the keys the handlers
      write.)
    - A handler maps the database and the session to a [result]: the new
      database, the new session, the flashed messages and the response. *)

From stdpp Require Import gmap strings list pretty sorting.
From Stdlib Require Import ZArith Ascii.

Local Open Scope Z_scope.
Local Open Scope string_scope.
Local Open Scope list_scope.

(** ** models.py (the same classes are repeated in run_local.py) *)

Module Student.
Record t := mk {
  student_id : Z;
  name : string;
  email : string;
  roll_number : string;
  department : string;
  password_hash : string;
  created_at : Z
}.
End Student.

Module Admin.
Record t := mk {
  admin_id : Z;
  username : string;
  password_hash : string;
  created_at : Z
}.
End Admin.

Module Event.
Record t := mk {
  event_id : Z;
  title : string;
  description : string;
  date : Z;
  venue : string;
  department : string;
  max_participants : Z;
  created_at : Z
}.
End Event.

Module Registration.
Record t := mk {
  reg_id : Z;
  event_id : Z;
  student_id : Z;
  timestamp : Z
}.
End Registration.

(** The four tables behind [db]. *)
Record database := mkdb {
  students : list Student.t;
  admins : list Admin.t;
  events : list Event.t;
  registrations : list Registration.t
}.

Definition empty_db : database := mkdb [] [] [] [].

(** ** Queries *)

(** [Query.first()]: the first row of a result, if any. *)
Definition first {A} (rows : list A) : option A := head rows.

(** [Model.query.get(id)] and the lookup half of [get_or_404]. *)
Definition query_get {A} (pk : A -> Z) (tbl : list A) (id : Z) : option A :=
  first (filter (fun row => pk row = id) tbl).

(** [Registration.query.filter_by(event_id=..., student_id=...)]. *)
Definition registrations_by (event_id student_id : Z)
    (tbl : list Registration.t) : list Registration.t :=
  filter (fun r => Registration.event_id r = event_id
                   /\ Registration.student_id r = student_id) tbl.

(** The relationship [Event.registrations]: the rows whose foreign key
    [event_id] is the event's key. *)
Definition event_registrations (d : database) (e : Event.t)
    : list Registration.t :=
  filter (fun r => Registration.event_id r = Event.event_id e)
         (registrations d).

(** The relationship [Student.registrations]. *)
Definition student_registrations (d : database) (s : Student.t)
    : list Registration.t :=
  filter (fun r => Registration.student_id r = Student.student_id s)
         (registrations d).

(** ** Properties of [Event] *)

Definition current_participants (d : database) (e : Event.t) : Z :=
  Z.of_nat (length (event_registrations d e)).

Definition is_full (d : database) (e : Event.t) : bool :=
  bool_decide (current_participants d e >= Event.max_participants e).

Definition is_past (now : Z) (e : Event.t) : bool :=
  bool_decide (Event.date e < now).

(** ** The unit of work: [db.session.add / delete / commit] *)

(** An integer primary key left unset is assigned on insert: one more than
    the largest key of the table. *)
Definition next_id (keys : list Z) : Z := foldr Z.max 0 keys + 1.

(** [db.session.add(Registration(event_id=..., student_id=...))] followed
    by [commit()]. The [timestamp] column defaults to [datetime.utcnow].
    [UniqueConstraint('event_id', 'student_id')] makes the commit raise
    when the pair is already present: that is [None]. *)
Definition add_registration (now event_id student_id : Z) (d : database)
    : option database :=
  match registrations_by event_id student_id (registrations d) with
  | _ :: _ => None
  | [] =>
      let r := Registration.mk
                 (next_id (Registration.reg_id <$> registrations d))
                 event_id student_id now in
      Some (mkdb (students d) (admins d) (events d) (registrations d ++ [r]))
  end.

(** [db.session.delete(registration)] followed by [commit()]: the row is
    deleted by its primary key. *)
Definition delete_registration (r : Registration.t) (d : database)
    : database :=
  mkdb (students d) (admins d) (events d)
       (filter (fun x => Registration.reg_id x <> Registration.reg_id r)
               (registrations d)).

(** [db.session.delete(event)] followed by [commit()]. The relationship
    [Event.registrations] is declared with [cascade='all, delete-orphan']:
    the rows of [event.registrations] are deleted with the event. *)
Definition delete_event_row (e : Event.t) (d : database) : database :=
  mkdb (students d) (admins d)
       (filter (fun x => Event.event_id x <> Event.event_id e) (events d))
       (filter (fun r => Registration.event_id r <> Event.event_id e)
               (registrations d)).

(** [db.session.delete(student)] followed by [commit()], with the same
    cascade on [Student.registrations]. *)
Definition delete_student_row (s : Student.t) (d : database) : database :=
  mkdb (filter (fun x => Student.student_id x <> Student.student_id s)
               (students d))
       (admins d) (events d)
       (filter (fun r => Registration.student_id r <> Student.student_id s)
               (registrations d)).

(** The database after [db.session.add(Event(...))] and a [commit()] that
    went through. *)
Definition event_added (now : Z) (title description : string) (date : Z)
    (venue department : string) (max_participants : Z) (d : database)
    : database :=
  let e := Event.mk (next_id (Event.event_id <$> events d))
                    title description date venue department
                    max_participants now in
  mkdb (students d) (admins d) (events d ++ [e]) (registrations d).

(** The database after the attributes of a loaded event were assigned and
    the [commit()] went through: the row with the event's key is
    rewritten. *)
Definition event_updated (e : Event.t) (d : database) : database :=
  mkdb (students d) (admins d)
       ((fun x => if decide (Event.event_id x = Event.event_id e)
                  then e else x) <$> events d)
       (registrations d).

(** The integers an [Integer] column holds. Both applications run on
    SQLite (run_local.py by its configuration, app.py unless
    [DATABASE_URL] says otherwise), whose INTEGER is a signed 64-bit
    number: binding any other Python [int] raises, and the commit with
    it. *)
Definition fits_integer (n : Z) : bool :=
  bool_decide (- 2 ^ 63 <= n <= 2 ^ 63 - 1).

(** [db.session.add(Event(...))] followed by [commit()]. The commit raises
    when [max_participants] does not fit the column: that is [None], and
    the handlers' [except Exception] branch rolls back. *)
Definition add_event_row (now : Z) (title description : string) (date : Z)
    (venue department : string) (max_participants : Z) (d : database)
    : option database :=
  if fits_integer max_participants then
    Some (event_added now title description date venue department
            max_participants d)
  else None.

(** Assigning the attributes of a loaded event, followed by [commit()],
    which raises on a [max_participants] that does not fit the column. *)
Definition update_event_row (e : Event.t) (d : database) : option database :=
  if fits_integer (Event.max_participants e) then Some (event_updated e d)
  else None.

(** [db.session.add(Student(...))] followed by [commit()]. [email] and
    [roll_number] are [unique=True]: the commit raises on a duplicate. *)
Definition add_student (now : Z) (name email roll_number department
    password_hash : string) (d : database) : option database :=
  if decide (email ∈ Student.email <$> students d) then None
  else if decide (roll_number ∈ Student.roll_number <$> students d) then None
  else
    let s := Student.mk (next_id (Student.student_id <$> students d))
                        name email roll_number department password_hash now in
    Some (mkdb (students d ++ [s]) (admins d) (events d) (registrations d)).

(** ** Sessions, forms, responses *)

(** A value held by the session: an id or a name. *)
Inductive sval :=
| VInt (z : Z)
| VStr (s : string).

Abbreviation session_t := (gmap string sval).
Abbreviation form_t := (gmap string string).

Inductive http_method := GET | POST.

Inductive response :=
| redirect (endpoint : string)
| render_template (template : string)
| abort (status : Z)
| unhandled (exception : string).

Record result := mkres {
  res_db : database;
  res_session : session_t;
  res_flashes : list (string * string);
  res_response : response
}.

(** ** Library functions used by the handlers *)

(** [int(s)], [datetime.strptime(s, fmt)], [datetime.fromisoformat(s)]
    ([None] stands for [ValueError]) and werkzeug's password hashing. *)
Class Runtime := {
  int : string -> option Z;
  strptime : string -> string -> option Z;
  fromisoformat : string -> option Z;
  generate_password_hash : string -> string;
  check_password_hash : string -> string -> bool
}.

(** Truth value of [request.form.get(k)]: a missing field is [None], an
    empty string is falsy. *)
Definition truthy (v : option string) : bool :=
  match v with
  | Some s => negb (bool_decide (s = EmptyString))
  | None => false
  end.

(** [all([...])] over form fields. *)
Definition all (vs : list (option string)) : bool := forallb truthy vs.

(** ** Helper functions (the same in routes.py and run_local.py) *)

Definition is_student_logged_in (session : session_t) : bool :=
  bool_decide (is_Some (session !! "student_id")).

Definition is_admin_logged_in (session : session_t) : bool :=
  bool_decide (is_Some (session !! "admin_id")).

Definition get_current_student (session : session_t) (d : database)
    : option Student.t :=
  if is_student_logged_in session then
    match session !! "student_id" with
    | Some (VInt id) => query_get Student.student_id (students d) id
    | _ => None
    end
  else None.

Definition get_current_admin (session : session_t) (d : database)
    : option Admin.t :=
  if is_admin_logged_in session then
    match session !! "admin_id" with
    | Some (VInt id) => query_get Admin.admin_id (admins d) id
    | _ => None
    end
  else None.

(** Truth value of a query result: a row is truthy, [None] is not. *)
Definition found {A} (row : option A) : bool :=
  match row with Some _ => true | None => false end.

(** [session.clear()]. *)
Definition session_clear (session : session_t) : session_t := ∅.

(** The string held by a form field that passed the [all] check. *)
Definition str (v : option string) : string := default EmptyString v.

(** [s.replace(a, b)] for one-character [a] and [b]. *)
Fixpoint replace (a b : Ascii.ascii) (s : string) : string :=
  match s with
  | EmptyString => EmptyString
  | String c s' => String (if decide (c = a) then b else c) (replace a b s')
  end.

(** The double quote inside the f-strings of the event messages. *)
Definition dq : string := String "034"%char EmptyString.

(** A handler that flashes one message and returns. *)
Definition reply (d : database) (session : session_t)
    (category message : string) (r : response) : result :=
  mkres d session [(category, message)] r.

(** What a client can ask of the application. *)
Inductive request :=
| Signup (method : http_method) (form : form_t)
| Login (method : http_method) (form : form_t)
| RegisterEvent (event_id : Z)
| UnregisterEvent (event_id : Z)
| Logout
| AdminLogin (method : http_method) (form : form_t)
| AddEvent (method : http_method) (form : form_t)
| EditEvent (event_id : Z) (method : http_method) (form : form_t)
| DeleteEvent (event_id : Z)
| AdminLogout.

(** ** run_local.py *)

Module RunLocal.

Definition signup `{Runtime} (now : Z) (method : http_method)
    (form : form_t) (session : session_t) (d : database) : result :=
  match method with
  | POST =>
      let name := form !! "name" in
      let email := form !! "email" in
      let roll_number := form !! "roll_number" in
      let department := form !! "department" in
      let password := form !! "password" in
      let confirm_password := form !! "confirm_password" in
      if negb (all [name; email; roll_number; department; password;
                    confirm_password]) then
        reply d session "error" "All fields are required."
              (render_template "signup.html")
      else if bool_decide (password <> confirm_password) then
        reply d session "error" "Passwords do not match."
              (render_template "signup.html")
      else if found (first (filter (fun s => Student.email s = str email)
                                   (students d))) then
        reply d session "error" "Email already registered."
              (render_template "signup.html")
      else if found (first (filter
                              (fun s => Student.roll_number s = str roll_number)
                              (students d))) then
        reply d session "error" "Roll number already registered."
              (render_template "signup.html")
      else
        match add_student now (str name) (str email) (str roll_number)
                (str department) (generate_password_hash (str password)) d with
        | Some d' =>
            reply d' session "success" "Registration successful! Please login."
                  (redirect "login")
        | None =>
            reply d session "error" "Registration failed. Please try again."
                  (render_template "signup.html")
        end
  | GET => mkres d session [] (render_template "signup.html")
  end.

Definition login `{Runtime} (method : http_method) (form : form_t)
    (session : session_t) (d : database) : result :=
  match method with
  | POST =>
      let email := form !! "email" in
      let password := form !! "password" in
      if negb (truthy email) || negb (truthy password) then
        reply d session "error" "Email and password are required."
              (render_template "login.html")
      else
        match first (filter (fun s => Student.email s = str email)
                            (students d)) with
        | Some student =>
            if check_password_hash (Student.password_hash student)
                                   (str password) then
              reply d
                (<["student_name" := VStr (Student.name student)]>
                   (<["student_id" := VInt (Student.student_id student)]>
                      session))
                "success" ("Welcome back, " +:+ Student.name student +:+ "!")
                (redirect "student_dashboard")
            else
              reply d session "error" "Invalid email or password."
                    (render_template "login.html")
        | None =>
            reply d session "error" "Invalid email or password."
                  (render_template "login.html")
        end
  | GET => mkres d session [] (render_template "login.html")
  end.

Definition register_event (now : Z) (event_id : Z) (session : session_t)
    (d : database) : result :=
  if negb (is_student_logged_in session) then
    reply d session "error" "Please login to register for events."
          (redirect "login")
  else
    let student := get_current_student session d in
    match query_get Event.event_id (events d) event_id with
    | None => mkres d session [] (abort 404)
    | Some event =>
        (* Check if event is full *)
        if is_full d event then
          reply d session "error" "Sorry, this event is full."
                (redirect "student_dashboard")
        (* Check if event is in the past *)
        else if is_past now event then
          reply d session "error" "Cannot register for past events."
                (redirect "student_dashboard")
        else
          match student with
          | None => mkres d session [] (unhandled "AttributeError")
          | Some student =>
              (* Check if already registered *)
              match first (registrations_by event_id
                             (Student.student_id student)
                             (registrations d)) with
              | Some _ =>
                  reply d session "warning"
                        "You are already registered for this event."
                        (redirect "student_dashboard")
              | None =>
                  (* Create registration *)
                  match add_registration now event_id
                          (Student.student_id student) d with
                  | Some d' =>
                      reply d' session "success"
                        ("Successfully registered for "
                           +:+ Event.title event +:+ "!")
                        (redirect "student_dashboard")
                  | None =>
                      reply d session "error"
                            "Registration failed. Please try again."
                            (redirect "student_dashboard")
                  end
              end
          end
    end.

Definition unregister_event (event_id : Z) (session : session_t)
    (d : database) : result :=
  if negb (is_student_logged_in session) then
    reply d session "error" "Please login to manage your registrations."
          (redirect "login")
  else
    match get_current_student session d with
    | None => mkres d session [] (unhandled "AttributeError")
    | Some student =>
        match first (registrations_by event_id (Student.student_id student)
                       (registrations d)) with
        | None =>
            reply d session "error" "You are not registered for this event."
                  (redirect "my_registrations")
        | Some registration =>
            let event := query_get Event.event_id (events d) event_id in
            let d' := delete_registration registration d in
            match event with
            | Some event =>
                reply d' session "success"
                  ("Successfully unregistered from "
                     +:+ Event.title event +:+ ".")
                  (redirect "my_registrations")
            | None =>
                (* [event.title] raises after the commit; the rollback
                   has nothing left to undo *)
                reply d' session "error"
                      "Unregistration failed. Please try again."
                      (redirect "my_registrations")
            end
        end
    end.

Definition admin_login `{Runtime} (method : http_method) (form : form_t)
    (session : session_t) (d : database) : result :=
  match method with
  | POST =>
      let username := form !! "username" in
      let password := form !! "password" in
      if negb (truthy username) || negb (truthy password) then
        reply d session "error" "Username and password are required."
              (render_template "admin_login.html")
      else
        match first (filter (fun a => Admin.username a = str username)
                            (admins d)) with
        | Some admin =>
            if check_password_hash (Admin.password_hash admin)
                                   (str password) then
              reply d
                (<["admin_username" := VStr (Admin.username admin)]>
                   (<["admin_id" := VInt (Admin.admin_id admin)]> session))
                "success" ("Welcome, " +:+ Admin.username admin +:+ "!")
                (redirect "admin_dashboard")
            else
              reply d session "error" "Invalid username or password."
                    (render_template "admin_login.html")
        | None =>
            reply d session "error" "Invalid username or password."
                  (render_template "admin_login.html")
        end
  | GET => mkres d session [] (render_template "admin_login.html")
  end.

Definition add_event `{Runtime} (now : Z) (method : http_method)
    (form : form_t) (session : session_t) (d : database) : result :=
  if negb (is_admin_logged_in session) then
    reply d session "error" "Please login to access admin features."
          (redirect "admin_login")
  else
    match method with
    | POST =>
        let title := form !! "title" in
        let description := form !! "description" in
        let date_str := form !! "date" in
        let venue := form !! "venue" in
        let department := form !! "department" in
        let max_participants := form !! "max_participants" in
        (* Validation *)
        if negb (all [title; description; date_str; venue; department;
                      max_participants]) then
          reply d session "error" "All fields are required."
                (render_template "add_event.html")
        else
          match strptime (str date_str) "%Y-%m-%dT%H:%M" with
          | None =>
              reply d session "error"
                    "Invalid date format or participant count."
                    (render_template "add_event.html")
          | Some event_date =>
              match int (str max_participants) with
              | None =>
                  reply d session "error"
                        "Invalid date format or participant count."
                        (render_template "add_event.html")
              | Some max_participants =>
                  if bool_decide (max_participants < 1) then
                    reply d session "error"
                          "Maximum participants must be at least 1."
                          (render_template "add_event.html")
                  else if bool_decide (event_date <= now) then
                    reply d session "error"
                          "Event date must be in the future."
                          (render_template "add_event.html")
                  else
                    (* Create new event *)
                    match add_event_row now (str title) (str description)
                            event_date (str venue) (str department)
                            max_participants d with
                    | Some d' =>
                        reply d' session "success"
                              ("Event " +:+ dq +:+ str title +:+ dq
                                 +:+ " created successfully!")
                              (redirect "admin_dashboard")
                    | None =>
                        reply d session "error"
                              "Failed to create event. Please try again."
                              (render_template "add_event.html")
                    end
              end
          end
    | GET => mkres d session [] (render_template "add_event.html")
    end.

Definition edit_event `{Runtime} (event_id : Z) (method : http_method)
    (form : form_t) (session : session_t) (d : database) : result :=
  if negb (is_admin_logged_in session) then
    reply d session "error" "Please login to access admin features."
          (redirect "admin_login")
  else
    match query_get Event.event_id (events d) event_id with
    | None => mkres d session [] (abort 404)
    | Some event =>
        match method with
        | POST =>
            let title := form !! "title" in
            let description := form !! "description" in
            let date_str := form !! "date" in
            let venue := form !! "venue" in
            let department := form !! "department" in
            let max_participants := form !! "max_participants" in
            (* Validation *)
            if negb (all [title; description; date_str; venue; department;
                          max_participants]) then
              reply d session "error" "All fields are required."
                    (render_template "edit_event.html")
            else
              match strptime (str date_str) "%Y-%m-%dT%H:%M" with
              | None =>
                  reply d session "error"
                        "Invalid date format or participant count."
                        (render_template "edit_event.html")
              | Some event_date =>
                  match int (str max_participants) with
                  | None =>
                      reply d session "error"
                            "Invalid date format or participant count."
                            (render_template "edit_event.html")
                  | Some max_participants =>
                      if bool_decide (max_participants < 1) then
                        reply d session "error"
                              "Maximum participants must be at least 1."
                              (render_template "edit_event.html")
                      (* Check if reducing max participants below current
                         registrations *)
                      else if bool_decide
                                (max_participants
                                 < current_participants d event) then
                        reply d session "error"
                              ("Cannot reduce max participants to "
                                 +:+ pretty max_participants
                                 +:+ ". Current registrations: "
                                 +:+ pretty (current_participants d event))
                              (render_template "edit_event.html")
                      else
                        (* Update event *)
                        match update_event_row
                                (Event.mk (Event.event_id event)
                                   (str title) (str description) event_date
                                   (str venue) (str department)
                                   max_participants
                                   (Event.created_at event)) d with
                        | Some d' =>
                            reply d' session "success"
                                  ("Event " +:+ dq +:+ str title +:+ dq
                                     +:+ " updated successfully!")
                                  (redirect "admin_dashboard")
                        | None =>
                            reply d session "error"
                                  "Failed to update event. Please try again."
                                  (render_template "edit_event.html")
                        end
                  end
              end
        | GET => mkres d session [] (render_template "edit_event.html")
        end
    end.

Definition delete_event (event_id : Z) (session : session_t)
    (d : database) : result :=
  if negb (is_admin_logged_in session) then
    reply d session "error" "Please login to access admin features."
          (redirect "admin_login")
  else
    match query_get Event.event_id (events d) event_id with
    | None => mkres d session [] (abort 404)
    | Some event =>
        (* Delete all registrations for this event (cascade should handle
           this) *)
        reply (delete_event_row event d) session "success"
              ("Event " +:+ dq +:+ Event.title event +:+ dq
                 +:+ " deleted successfully!")
              (redirect "admin_dashboard")
    end.

(* Logout routes *)
Definition logout (session : session_t) (d : database) : result :=
  reply d (session_clear session) "success"
        "You have been logged out successfully." (redirect "index").

Definition admin_logout (session : session_t) (d : database) : result :=
  reply d (session_clear session) "success"
        "Admin logged out successfully." (redirect "index").

(** The routes of the application that write to the database or to the
    session; the remaining routes only read. *)
Definition serve `{Runtime} (now : Z) (session : session_t)
    (req : request) (d : database) : result :=
  match req with
  | Signup method form => signup now method form session d
  | Login method form => login method form session d
  | RegisterEvent event_id => register_event now event_id session d
  | UnregisterEvent event_id => unregister_event event_id session d
  | Logout => logout session d
  | AdminLogin method form => admin_login method form session d
  | AddEvent method form => add_event now method form session d
  | EditEvent event_id method form =>
      edit_event event_id method form session d
  | DeleteEvent event_id => delete_event event_id session d
  | AdminLogout => admin_logout session d
  end.

End RunLocal.

(** ** routes.py *)

Module Routes.

Definition signup `{Runtime} (now : Z) (method : http_method)
    (form : form_t) (session : session_t) (d : database) : result :=
  match method with
  | POST =>
      let name := form !! "name" in
      let email := form !! "email" in
      let roll_number := form !! "roll_number" in
      let department := form !! "department" in
      let password := form !! "password" in
      let confirm_password := form !! "confirm_password" in
      (* Validation *)
      if negb (all [name; email; roll_number; department; password;
                    confirm_password]) then
        reply d session "danger" "All fields are required."
              (render_template "signup.html")
      else if bool_decide (password <> confirm_password) then
        reply d session "danger" "Passwords do not match."
              (render_template "signup.html")
      (* Check if email or roll number already exists *)
      else if found (first (filter (fun s => Student.email s = str email)
                                   (students d))) then
        reply d session "danger" "Email already registered."
              (render_template "signup.html")
      else if found (first (filter
                              (fun s => Student.roll_number s = str roll_number)
                              (students d))) then
        reply d session "danger" "Roll number already registered."
              (render_template "signup.html")
      else
        (* Create new student *)
        match add_student now (str name) (str email) (str roll_number)
                (str department) (generate_password_hash (str password)) d with
        | Some d' =>
            reply d' session "success"
                  "Registration successful! Please log in." (redirect "login")
        | None =>
            reply d session "danger" "Registration failed. Please try again."
                  (render_template "signup.html")
        end
  | GET => mkres d session [] (render_template "signup.html")
  end.

Definition login `{Runtime} (method : http_method) (form : form_t)
    (session : session_t) (d : database) : result :=
  match method with
  | POST =>
      let email := form !! "email" in
      let password := form !! "password" in
      if negb (truthy email) || negb (truthy password) then
        reply d session "danger" "Email and password are required."
              (render_template "login.html")
      else
        match first (filter (fun s => Student.email s = str email)
                            (students d)) with
        | Some student =>
            if check_password_hash (Student.password_hash student)
                                   (str password) then
              reply d
                (<["student_name" := VStr (Student.name student)]>
                   (<["student_id" := VInt (Student.student_id student)]>
                      session))
                "success" ("Welcome back, " +:+ Student.name student +:+ "!")
                (redirect "student_dashboard")
            else
              reply d session "danger" "Invalid email or password."
                    (render_template "login.html")
        | None =>
            reply d session "danger" "Invalid email or password."
                  (render_template "login.html")
        end
  | GET => mkres d session [] (render_template "login.html")
  end.

Definition register_event (now : Z) (event_id : Z) (session : session_t)
    (d : database) : result :=
  if negb (is_student_logged_in session) then
    reply d session "warning" "Please log in to register for events."
          (redirect "login")
  else
    let student := get_current_student session d in
    match query_get Event.event_id (events d) event_id with
    | None => mkres d session [] (abort 404)
    | Some event =>
        (* Check if event is full *)
        if is_full d event then
          reply d session "warning" "Sorry, this event is full."
                (redirect "student_dashboard")
        (* Check if event is past *)
        else if is_past now event then
          reply d session "warning" "Cannot register for past events."
                (redirect "student_dashboard")
        else
          match student with
          | None => mkres d session [] (unhandled "AttributeError")
          | Some student =>
              (* Check if already registered *)
              match first (registrations_by event_id
                             (Student.student_id student)
                             (registrations d)) with
              | Some _ =>
                  reply d session "info"
                        "You are already registered for this event."
                        (redirect "student_dashboard")
              | None =>
                  match add_registration now event_id
                          (Student.student_id student) d with
                  | Some d' =>
                      reply d' session "success"
                        ("Successfully registered for "
                           +:+ Event.title event +:+ "!")
                        (redirect "student_dashboard")
                  | None =>
                      reply d session "danger"
                            "Registration failed. Please try again."
                            (redirect "student_dashboard")
                  end
              end
          end
    end.

Definition logout (session : session_t) (d : database) : result :=
  reply d (session_clear session) "info"
        "You have been logged out successfully." (redirect "index").

(* Admin routes *)
Definition admin_login `{Runtime} (method : http_method) (form : form_t)
    (session : session_t) (d : database) : result :=
  match method with
  | POST =>
      let username := form !! "username" in
      let password := form !! "password" in
      if negb (truthy username) || negb (truthy password) then
        reply d session "danger" "Username and password are required."
              (render_template "admin_login.html")
      else
        match first (filter (fun a => Admin.username a = str username)
                            (admins d)) with
        | Some admin =>
            if check_password_hash (Admin.password_hash admin)
                                   (str password) then
              reply d
                (<["admin_username" := VStr (Admin.username admin)]>
                   (<["admin_id" := VInt (Admin.admin_id admin)]> session))
                "success" ("Welcome back, " +:+ Admin.username admin +:+ "!")
                (redirect "admin_dashboard")
            else
              reply d session "danger" "Invalid username or password."
                    (render_template "admin_login.html")
        | None =>
            reply d session "danger" "Invalid username or password."
                  (render_template "admin_login.html")
        end
  | GET => mkres d session [] (render_template "admin_login.html")
  end.

Definition add_event `{Runtime} (now : Z) (method : http_method)
    (form : form_t) (session : session_t) (d : database) : result :=
  if negb (is_admin_logged_in session) then
    reply d session "warning" "Please log in as admin to add events."
          (redirect "admin_login")
  else
    match method with
    | POST =>
        let title := form !! "title" in
        let description := form !! "description" in
        let date_str := form !! "date" in
        let venue := form !! "venue" in
        let department := form !! "department" in
        let max_participants := form !! "max_participants" in
        if negb (all [title; description; date_str; venue; department;
                      max_participants]) then
          reply d session "danger" "All fields are required."
                (render_template "add_event.html")
        else
          (* Parse the datetime *)
          match fromisoformat (replace "T" " " (str date_str)) with
          | None =>
              reply d session "danger"
                    "Invalid date format or participant count."
                    (render_template "add_event.html")
          | Some event_date =>
              match int (str max_participants) with
              | None =>
                  reply d session "danger"
                        "Invalid date format or participant count."
                        (render_template "add_event.html")
              | Some max_participants =>
                  match add_event_row now (str title) (str description)
                          event_date (str venue) (str department)
                          max_participants d with
                  | Some d' =>
                      reply d' session "success" "Event added successfully!"
                            (redirect "admin_dashboard")
                  | None =>
                      reply d session "danger"
                            "Failed to add event. Please try again."
                            (render_template "add_event.html")
                  end
              end
          end
    | GET => mkres d session [] (render_template "add_event.html")
    end.

Definition edit_event `{Runtime} (event_id : Z) (method : http_method)
    (form : form_t) (session : session_t) (d : database) : result :=
  if negb (is_admin_logged_in session) then
    reply d session "warning" "Please log in as admin to edit events."
          (redirect "admin_login")
  else
    match query_get Event.event_id (events d) event_id with
    | None => mkres d session [] (abort 404)
    | Some event =>
        match method with
        | POST =>
            let title := form !! "title" in
            let description := form !! "description" in
            let date_str := form !! "date" in
            let venue := form !! "venue" in
            let department := form !! "department" in
            let max_participants := form !! "max_participants" in
            if negb (all [title; description; date_str; venue; department;
                          max_participants]) then
              reply d session "danger" "All fields are required."
                    (render_template "edit_event.html")
            else
              (* Parse the datetime *)
              match fromisoformat (replace "T" " " (str date_str)) with
              | None =>
                  reply d session "danger"
                        "Invalid date format or participant count."
                        (render_template "edit_event.html")
              | Some event_date =>
                  match int (str max_participants) with
                  | None =>
                      reply d session "danger"
                            "Invalid date format or participant count."
                            (render_template "edit_event.html")
                  | Some max_participants =>
                      match update_event_row
                              (Event.mk (Event.event_id event)
                                 (str title) (str description) event_date
                                 (str venue) (str department)
                                 max_participants
                                 (Event.created_at event)) d with
                      | Some d' =>
                          reply d' session "success"
                                "Event updated successfully!"
                                (redirect "admin_dashboard")
                      | None =>
                          reply d session "danger"
                                "Failed to update event. Please try again."
                                (render_template "edit_event.html")
                      end
                  end
              end
        | GET => mkres d session [] (render_template "edit_event.html")
        end
    end.

Definition delete_event (event_id : Z) (session : session_t)
    (d : database) : result :=
  if negb (is_admin_logged_in session) then
    reply d session "warning" "Please log in as admin to delete events."
          (redirect "admin_login")
  else
    match query_get Event.event_id (events d) event_id with
    | None => mkres d session [] (abort 404)
    | Some event =>
        reply (delete_event_row event d) session "success"
              ("Event " +:+ dq +:+ Event.title event +:+ dq
                 +:+ " deleted successfully!")
              (redirect "admin_dashboard")
    end.

Definition admin_logout (session : session_t) (d : database) : result :=
  reply d (session_clear session) "info"
        "You have been logged out successfully." (redirect "admin_login").

(** The routes of the application that write to the database or to the
    session; the remaining routes only read. routes.py has no route for
    unregistering: the URL map answers 404. *)
Definition serve `{Runtime} (now : Z) (session : session_t)
    (req : request) (d : database) : result :=
  match req with
  | Signup method form => signup now method form session d
  | Login method form => login method form session d
  | RegisterEvent event_id => register_event now event_id session d
  | UnregisterEvent event_id => mkres d session [] (abort 404)
  | Logout => logout session d
  | AdminLogin method form => admin_login method form session d
  | AddEvent method form => add_event now method form session d
  | EditEvent event_id method form =>
      edit_event event_id method form session d
  | DeleteEvent event_id => delete_event event_id session d
  | AdminLogout => admin_logout session d
  end.

End Routes.

(** ** Sequences of requests *)

(** A request as it reaches the server: the instant it is served at, the
    session cookie it carries, and what it asks. Any cookie is allowed, so
    a sequence of calls covers every interleaving of clients. *)
Record call := mkcall {
  call_now : Z;
  call_session : session_t;
  call_request : request
}.

(** The database after serving the calls in order. *)
Definition run (serve : Z -> session_t -> request -> database -> result)
    (calls : list call) (d : database) : database :=
  foldl (fun d c => res_db (serve (call_now c) (call_session c)
                                  (call_request c) d))
        d calls.

Definition is_register (c : call) : bool :=
  match call_request c with
  | RegisterEvent _ => true
  | _ => false
  end.

(** ** The outcomes named by the specification *)

(** The handler flashed exactly this message (under any category). *)
Definition flashed (message : string) (r : result) : bool :=
  match res_flashes r with
  | [(_, m)] => bool_decide (m = message)
  | _ => false
  end.

(** The handler reported success: one message of category 'success'. *)
Definition succeeded (r : result) : bool :=
  match res_flashes r with
  | [(category, _)] => bool_decide (category = "success")
  | _ => false
  end.


Definition EventFull (r : result) : bool :=
  flashed "Sorry, this event is full." r && negb (succeeded r).

Definition EventExpired (r : result) : bool :=
  flashed "Cannot register for past events." r && negb (succeeded r).

Definition AlreadyRegistered (r : result) : bool :=
  flashed "You are already registered for this event." r
  && negb (succeeded r).

Definition Registered (e : Event.t) (r : result) : bool :=
  flashed ("Successfully registered for " +:+ Event.title e +:+ "!") r
  && succeeded r.


Definition Unregistered (e : Event.t) (r : result) : bool :=
  flashed ("Successfully unregistered from " +:+ Event.title e +:+ ".") r
  && succeeded r.

(** ** Invariants of the ledger *)

(** No event holds more registrations than its capacity. *)
Definition within_capacity (d : database) (e : Event.t) : Prop :=
  current_participants d e <= Event.max_participants e.

(** At most one registration for each (event, student) pair. *)
Definition unique_registration (tbl : list Registration.t) : Prop :=
  forall event_id student_id : Z,
    (length (registrations_by event_id student_id tbl) <= 1)%nat.

(** [reg_id] is a primary key. *)
Definition reg_id_key (tbl : list Registration.t) : Prop :=
  NoDup (Registration.reg_id <$> tbl).

(** Every registration refers to an event of the events table. *)
Definition referential (d : database) : Prop :=
  forall r, r ∈ registrations d ->
    Registration.event_id r ∈ Event.event_id <$> events d.

(** The integrity the relational store maintains. *)
Definition well_formed (d : database) : Prop :=
  reg_id_key (registrations d) /\ referential d.

(** ** A small runtime for the examples

    [int] reads a decimal integer, the two date parsers read
    [YYYY-MM-DD?HH:MM] (with [T] or a space in the middle) as a count of
    minutes, and a password hash is the password itself. *)

Definition digit (c : ascii) : option Z :=
  let n := Z.of_nat (nat_of_ascii c) in
  if bool_decide (48 <= n <= 57) then Some (n - 48) else None.

Fixpoint digits (acc : Z) (s : string) : option Z :=
  match s with
  | EmptyString => Some acc
  | String c s' =>
      match digit c with
      | Some v => digits (10 * acc + v) s'
      | None => None
      end
  end.

Definition decimal (s : string) : option Z :=
  match s with
  | EmptyString => None
  | String "-" s' =>
      match s' with
      | EmptyString => None
      | _ => Z.opp <$> digits 0 s'
      end
  | _ => digits 0 s
  end.

Definition in_range (lo hi : Z) (v : option Z) : option Z :=
  match v with
  | Some n => if bool_decide (lo <= n <= hi) then Some n else None
  | None => None
  end.

Definition minutes (sep : ascii) (s : string) : option Z :=
  match s with
  | String y1 (String y2 (String y3 (String y4 (String "-"
      (String m1 (String m2 (String "-" (String d1 (String d2 (String c
        (String h1 (String h2 (String ":" (String n1 (String n2
          EmptyString))))))))))))))) =>
      if bool_decide (c = sep) then
        match digits 0 (String y1 (String y2 (String y3 (String y4 EmptyString)))),
              in_range 1 12 (digits 0 (String m1 (String m2 EmptyString))),
              in_range 1 31 (digits 0 (String d1 (String d2 EmptyString))),
              in_range 0 23 (digits 0 (String h1 (String h2 EmptyString))),
              in_range 0 59 (digits 0 (String n1 (String n2 EmptyString))) with
        | Some y, Some m, Some d, Some h, Some n =>
            Some ((((y * 12 + m) * 31 + d) * 24 + h) * 60 + n)
        | _, _, _, _, _ => None
        end
      else None
  | _ => None
  end.

Definition demo_runtime : Runtime := {|
  int := decimal;
  strptime := fun s _ => minutes "T" s;
  fromisoformat := minutes " ";
  generate_password_hash := fun password => password;
  check_password_hash := fun pwhash password => bool_decide (pwhash = password)
|}.

(** Sample rows for the examples. *)
Definition alice : Student.t :=
  Student.mk 1 "Alice" "alice@college.edu" "R001" "Computer Science" "pw" 0.
Definition bob : Student.t :=
  Student.mk 2 "Bob" "bob@college.edu" "R002" "Electronics" "pw" 0.
Definition root : Admin.t := Admin.mk 1 "admin" "admin123" 0.
Definition quiz : Event.t :=
  Event.mk 1 "Tech Quiz" "MCQs" 1000 "Main Auditorium" "General" 1 0.
Definition talk : Event.t :=
  Event.mk 2 "Paper Presentation" "Research" 1000 "Conference Hall"
           "General" 2 0.

Definition as_student (s : Student.t) : session_t :=
  {[ "student_id" := VInt (Student.student_id s);
     "student_name" := VStr (Student.name s) ]}.
Definition as_admin (a : Admin.t) : session_t :=
  {[ "admin_id" := VInt (Admin.admin_id a);
     "admin_username" := VStr (Admin.username a) ]}.

(** Both students and both events, nobody registered. *)
Definition campus : database := mkdb [alice; bob] [root] [quiz; talk] [].

(** The same, with Alice holding the only seat of the quiz. *)
Definition campus_quiz_full : database :=
  mkdb [alice; bob] [root] [quiz; talk] [Registration.mk 1 1 1 500].

(** Alice and Bob hold the two seats of the talk. *)
Definition campus_talk_full : database :=
  mkdb [alice; bob] [root] [quiz; talk]
       [Registration.mk 1 2 1 500; Registration.mk 2 2 2 501].

(** A browser logged in both as a student and as the admin. *)
Definition as_both : session_t := as_student alice ∪ as_admin root.

(** The form an admin submits for an event. *)
Definition event_form (title date max_participants : string) : form_t :=
  {[ "title" := title; "description" := "MCQs"; "date" := date;
     "venue" := "Main Auditorium"; "department" := "General";
     "max_participants" := max_participants ]}.

(** Alice, then Bob, ask for the quiz; Bob then asks for the talk. *)
Definition rush : list call :=
  [ mkcall 100 (as_student alice) (RegisterEvent 1);
    mkcall 101 (as_student bob) (RegisterEvent 1);
    mkcall 102 (as_student bob) (RegisterEvent 2) ].

(** ** The pages that only read

    The remaining routes render a page from what they query. A [view] is
    the session they leave, the messages they flash and the page with the
    keyword arguments of [render_template]. *)

(** The counters of the admin dashboard of run_local.py. *)
Record stats_t := mkstats {
  total_events : Z;
  total_students : Z;
  total_registrations : Z;
  upcoming_events : Z
}.

Inductive page :=
| page_redirect (endpoint : string)
| page_abort (status : Z)
| page_unhandled (exception : string)
| index_html (events : list Event.t)
| student_dashboard_html (student : Student.t) (events : list Event.t)
    (registered_event_ids : list Z)
| my_registrations_html (registrations : list Registration.t)
    (student : Student.t)
| admin_dashboard_html (events : list Event.t) (admin : option Admin.t)
    (stats : option stats_t)
| participants_html (event : Event.t) (registrations : list Registration.t).

Record view := mkview {
  view_session : session_t;
  view_flashes : list (string * string);
  view_page : page
}.

(** [Query.order_by(column)]: the rows in ascending order of the column
    (rows with equal values in some order; here the order they had). *)
Definition order_by {A} (column : A -> Z) (rows : list A) : list A :=
  @merge_sort A (fun x y => column x <= column y)
              (fun x y => decide (column x <= column y)) rows.

(** [Query.order_by(column.desc())]. *)
Definition order_by_desc {A} (column : A -> Z) (rows : list A) : list A :=
  @merge_sort A (fun x y => column y <= column x)
              (fun x y => decide (column y <= column x)) rows.

(** [Event.query.filter(Event.date > datetime.utcnow())
    .order_by(Event.date).all()]. *)
Definition upcoming (now : Z) (d : database) : list Event.t :=
  order_by Event.date (filter (fun e => Event.date e > now) (events d)).

Module RoutesPages.

Definition index (now : Z) (session : session_t) (d : database) : view :=
  if is_student_logged_in session then
    mkview session [] (page_redirect "student_dashboard")
  else
    (* Show public events list *)
    mkview session [] (index_html (upcoming now d)).

Definition student_dashboard (now : Z) (session : session_t) (d : database)
    : view :=
  if negb (is_student_logged_in session) then
    mkview session [("warning", "Please log in to access the dashboard.")]
           (page_redirect "login")
  else
    match get_current_student session d with
    | None => mkview session [] (page_unhandled "AttributeError")
    | Some student =>
        (* Get student's registered event IDs *)
        mkview session []
          (student_dashboard_html student (upcoming now d)
             (Registration.event_id <$> student_registrations d student))
    end.

Definition my_registrations (session : session_t) (d : database) : view :=
  if negb (is_student_logged_in session) then
    mkview session [("warning", "Please log in to view your registrations.")]
           (page_redirect "login")
  else
    match get_current_student session d with
    | None => mkview session [] (page_unhandled "AttributeError")
    | Some student =>
        mkview session []
          (my_registrations_html
             (order_by_desc Registration.timestamp
                (filter (fun r => Registration.student_id r
                                  = Student.student_id student)
                        (registrations d)))
             student)
    end.

Definition admin_dashboard (session : session_t) (d : database) : view :=
  if negb (is_admin_logged_in session) then
    mkview session
           [("warning", "Please log in as admin to access the dashboard.")]
           (page_redirect "admin_login")
  else
    mkview session []
      (admin_dashboard_html (order_by_desc Event.date (events d)) None None).

Definition view_participants (event_id : Z) (session : session_t)
    (d : database) : view :=
  if negb (is_admin_logged_in session) then
    mkview session
           [("warning", "Please log in as admin to view participants.")]
           (page_redirect "admin_login")
  else
    match query_get Event.event_id (events d) event_id with
    | None => mkview session [] (page_abort 404)
    | Some event =>
        mkview session []
          (participants_html event
             (order_by Registration.timestamp
                (filter (fun r => Registration.event_id r = event_id)
                        (registrations d))))
    end.

End RoutesPages.

Module RunLocalPages.

Definition index (now : Z) (session : session_t) (d : database) : view :=
  if is_student_logged_in session then
    mkview session [] (page_redirect "student_dashboard")
  else
    (* Show public events list *)
    mkview session [] (index_html (upcoming now d)).

Definition student_dashboard (now : Z) (session : session_t) (d : database)
    : view :=
  if negb (is_student_logged_in session) then
    mkview session [("error", "Please login to access your dashboard.")]
           (page_redirect "login")
  else
    match get_current_student session d with
    | None =>
        mkview (session_clear session)
               [("error", "Session expired. Please login again.")]
               (page_redirect "login")
    | Some student =>
        mkview session []
          (student_dashboard_html student
             (* Get upcoming events *)
             (upcoming now d)
             (* Get student's registrations *)
             (Registration.event_id <$> student_registrations d student))
    end.

Definition my_registrations (session : session_t) (d : database) : view :=
  if negb (is_student_logged_in session) then
    mkview session [("error", "Please login to view your registrations.")]
           (page_redirect "login")
  else
    match get_current_student session d with
    | None =>
        mkview (session_clear session)
               [("error", "Session expired. Please login again.")]
               (page_redirect "login")
    | Some student =>
        mkview session []
          (my_registrations_html
             (order_by_desc Registration.timestamp
                (filter (fun r => Registration.student_id r
                                  = Student.student_id student)
                        (registrations d)))
             student)
    end.

Definition admin_dashboard (now : Z) (session : session_t) (d : database)
    : view :=
  if negb (is_admin_logged_in session) then
    mkview session [("error", "Please login to access admin dashboard.")]
           (page_redirect "admin_login")
  else
    match get_current_admin session d with
    | None =>
        mkview (session_clear session)
               [("error", "Session expired. Please login again.")]
               (page_redirect "admin_login")
    | Some admin =>
        (* Get all events with registration counts *)
        let events := order_by Event.date (events d) in
        (* Get statistics *)
        let stats :=
          mkstats (Z.of_nat (length events))
                  (Z.of_nat (length (students d)))
                  (Z.of_nat (length (registrations d)))
                  (Z.of_nat (length (filter (fun e => Event.date e > now)
                                            events))) in
        mkview session [] (admin_dashboard_html events (Some admin)
                                                (Some stats))
    end.

Definition view_participants (event_id : Z) (session : session_t)
    (d : database) : view :=
  if negb (is_admin_logged_in session) then
    mkview session [("error", "Please login to access admin features.")]
           (page_redirect "admin_login")
  else
    match query_get Event.event_id (events d) event_id with
    | None => mkview session [] (page_abort 404)
    | Some event =>
        mkview session []
          (participants_html event
             (order_by Registration.timestamp
                (filter (fun r => Registration.event_id r = event_id)
                        (registrations d))))
    end.

End RunLocalPages.

(** ** Start-up *)

(** [db.session.add(Admin(username=..., password_hash=...))] followed by
    [commit()]. [username] is [unique=True]: the commit raises on a
    duplicate. *)
Definition add_admin (now : Z) (username password_hash : string)
    (d : database) : option database :=
  if decide (username ∈ Admin.username <$> admins d) then None
  else
    let a := Admin.mk (next_id (Admin.admin_id <$> admins d))
                      username password_hash now in
    Some (mkdb (students d) (admins d ++ [a]) (events d) (registrations d)).

(** app.py, on import: create the default admin if there is none. [None]
    is an exception escaping the module, which has no handler for it. *)
Definition create_default_admin `{Runtime} (now : Z) (d : database)
    : option database :=
  if negb (found (first (filter (fun a => Admin.username a = "admin")
                                (admins d)))) then
    add_admin now "admin" (generate_password_hash "admin123") d
  else Some d.

(** One entry of [events_data]. *)
Record event_data := mkdata {
  data_title : string;
  data_description : string;
  data_date : Z;
  data_venue : string;
  data_department : string;
  data_max_participants : Z
}.

(** An [Event] built from an entry and added to the session. *)
Definition add_event_data (now : Z) (d : database) (e : event_data)
    : database :=
  event_added now (data_title e) (data_description e) (data_date e)
                (data_venue e) (data_department e) (data_max_participants e) d.

(** The TechNova competition events of run_local.py; [datetime] is the
    constructor of instants from year, month, day, hour and minute. *)
Definition events_data (datetime : Z -> Z -> Z -> Z -> Z -> Z)
    : list event_data :=
  [ mkdata "Debugging Contest"
      "Find and fix bugs in given code snippets within time limits. Test your debugging skills across multiple programming languages."
      (datetime 2025 9 15 10 0) "Computer Lab A" "Computer Science" 50;
    mkdata "UI/UX Design Challenge"
      "Design user-friendly interfaces for given problem statements. Create wireframes, prototypes, and present your design solutions."
      (datetime 2025 9 16 14 30) "Design Studio" "Computer Science" 50;
    mkdata "Circuit Debugging"
      "Identify and fix issues in electronic circuits. Test your knowledge of circuit analysis and troubleshooting techniques."
      (datetime 2025 9 17 9 0) "Electronics Lab" "Electronics" 50;
    mkdata "PCB Design Contest"
      "Design printed circuit boards for given specifications using industry-standard tools. Focus on layout optimization and design rules."
      (datetime 2025 9 18 11 0) "PCB Lab" "Electronics" 50;
    mkdata "CAD Modelling"
      "Create 3D models and technical drawings using CAD software. Demonstrate precision in mechanical design and engineering drawings."
      (datetime 2025 9 19 13 0) "CAD Lab" "Mechanical" 50;
    mkdata "Surveying Challenge"
      "Perform land surveying tasks and create accurate topographic maps. Use traditional and modern surveying instruments."
      (datetime 2025 9 20 8 30) "Survey Field" "Civil" 50;
    mkdata "Poster Design (Technical Theme)"
      "Create informative technical posters on engineering topics. Focus on visual communication and technical accuracy."
      (datetime 2025 9 21 15 0) "Exhibition Hall" "General" 50;
    mkdata "Case Study Analysis"
      "Analyze real-world engineering problems and present solutions. Demonstrate analytical thinking and problem-solving skills."
      (datetime 2025 9 22 10 30) "Seminar Hall" "General" 50;
    mkdata "Tech Quiz"
      "MCQs from multiple engineering fields. Test your knowledge across Computer Science, Electronics, Mechanical, Civil, and emerging technologies."
      (datetime 2025 9 23 14 0) "Main Auditorium" "General" 50;
    mkdata "Paper Presentation"
      "Individual research/innovation presentation. Present your original research, innovative ideas, or technical solutions to a panel of expert judges."
      (datetime 2025 9 24 10 30) "Conference Hall" "General" 50 ].

(** run_local.py, on import: [initialize_sample_data]. Everything is one
    transaction inside [try]: an exception rolls it back and leaves the
    database as it was. *)
Definition initialize_sample_data `{Runtime}
    (datetime : Z -> Z -> Z -> Z -> Z -> Z) (now : Z) (d : database)
    : database :=
  (* Check if data already exists *)
  if bool_decide (Z.of_nat (length (events d)) > 0) then d
  else
    (* Create default admin *)
    let with_admin :=
      if negb (found (first (filter (fun a => Admin.username a = "admin")
                                    (admins d)))) then
        add_admin now "admin" (generate_password_hash "admin123") d
      else Some d in
    match with_admin with
    | Some d1 =>
        (* Add events to database *)
        let d2 := foldl (add_event_data now) d1 (events_data datetime) in
        (* Commit changes *)
        if forallb (fun e => fits_integer (data_max_participants e))
                   (events_data datetime)
        then d2 else d
    | None => d
    end.

(** ** More invariants *)

(** [student_id], [email] and [roll_number] each identify a student. *)
Definition students_unique (tbl : list Student.t) : Prop :=
  NoDup (Student.student_id <$> tbl)
  /\ NoDup (Student.email <$> tbl)
  /\ NoDup (Student.roll_number <$> tbl).

(** [event_id] is a primary key. *)
Definition event_id_key (tbl : list Event.t) : Prop :=
  NoDup (Event.event_id <$> tbl).

(** Every event the application can look up is within its capacity. *)
Definition all_within_capacity (d : database) : Prop :=
  forall k e,
    query_get Event.event_id (events d) k = Some e -> within_capacity d e.

(** Every event offers at least one seat. *)
Definition capacities_positive (tbl : list Event.t) : Prop :=
  forall e, e ∈ tbl -> 1 <= Event.max_participants e.

(** The instants of the small runtime, from their parts. *)
Definition demo_datetime (y m d h n : Z) : Z :=
  (((y * 12 + m) * 31 + d) * 24 + h) * 60 + n.

(** The form a student submits to sign up. *)
Definition signup_form (name email roll_number password confirm : string)
    : form_t :=
  {[ "name" := name; "email" := email; "roll_number" := roll_number;
     "department" := "Civil"; "password" := password;
     "confirm_password" := confirm ]}.

(** The form a student or an admin submits to log in. *)
Definition login_form (key identity password : string) : form_t :=
  {[ key := identity; "password" := password ]}.

(** The conditions under which a sign-up goes through. *)
Definition signup_accepts (form : form_t) (d : database) : Prop :=
  all [form !! "name"; form !! "email"; form !! "roll_number";
       form !! "department"; form !! "password"; form !! "confirm_password"]
  = true
  /\ form !! "password" = form !! "confirm_password"
  /\ (str (form !! "email") ∉ Student.email <$> students d)
  /\ (str (form !! "roll_number") ∉ Student.roll_number <$> students d).

(** The database a sign-up leaves when it goes through. *)
Definition signup_adds `{Runtime} (now : Z) (form : form_t) (d : database)
    : database :=
  mkdb (students d
          ++ [Student.mk (next_id (Student.student_id <$> students d))
                (str (form !! "name")) (str (form !! "email"))
                (str (form !! "roll_number")) (str (form !! "department"))
                (generate_password_hash (str (form !! "password"))) now])
       (admins d) (events d) (registrations d).

(** The student a log-in form identifies: the first student with the
    email of the form, when both fields are filled in and the password
    matches the stored hash. *)
Definition login_identifies `{Runtime} (form : form_t) (d : database)
    : option Student.t :=
  if truthy (form !! "email") && truthy (form !! "password") then
    match first (filter (fun s => Student.email s = str (form !! "email"))
                        (students d)) with
    | Some student =>
        if check_password_hash (Student.password_hash student)
                               (str (form !! "password"))
        then Some student else None
    | None => None
    end
  else None.

(** The session of a logged-in student. *)
Definition student_session (student : Student.t) (session : session_t)
    : session_t :=
  <["student_name" := VStr (Student.name student)]>
    (<["student_id" := VInt (Student.student_id student)]> session).

(** The admin a log-in form identifies: the first admin with the user name
    of the form, when both fields are filled in and the password matches
    the stored hash. *)
Definition admin_login_identifies `{Runtime} (form : form_t) (d : database)
    : option Admin.t :=
  if truthy (form !! "username") && truthy (form !! "password") then
    match first (filter (fun a => Admin.username a
                                  = str (form !! "username"))
                        (admins d)) with
    | Some admin =>
        if check_password_hash (Admin.password_hash admin)
                               (str (form !! "password"))
        then Some admin else None
    | None => None
    end
  else None.

(** The session of a logged-in admin. *)
Definition admin_session (admin : Admin.t) (session : session_t)
    : session_t :=
  <["admin_username" := VStr (Admin.username admin)]>
    (<["admin_id" := VInt (Admin.admin_id admin)]> session).

(** Every field of the event form is filled in. *)
Definition complete (form : form_t) : bool :=
  all [form !! "title"; form !! "description"; form !! "date";
       form !! "venue"; form !! "department"; form !! "max_participants"].

(** The event a form describes, with the key, date, capacity and creation
    time given. *)
Definition event_of_form (form : form_t) (event_id date max_participants
    created_at : Z) : Event.t :=
  Event.mk event_id (str (form !! "title")) (str (form !! "description"))
           date (str (form !! "venue")) (str (form !! "department"))
           max_participants created_at.

(** How a handler may change the registrations table: not at all, by one
    row for a pair that was absent, or by deleting the rows that fail a
    test. *)
Inductive ledger_step (tbl : list Registration.t)
    : list Registration.t -> Prop :=
| ledger_same : ledger_step tbl tbl
| ledger_add r :
    registrations_by (Registration.event_id r) (Registration.student_id r)
                     tbl = [] ->
    ledger_step tbl (tbl ++ [r])
| ledger_delete (P : Registration.t -> Prop) `{!forall x, Decision (P x)} :
    ledger_step tbl (filter P tbl).

(** How a request may change the database, with the checks that were passed
    on the way. [checked] tells whether the capacity and the date of an
    event are validated before they are stored (run_local.py) or not
    (routes.py). *)
Inductive transition (checked : bool) (now : Z) (session : session_t)
    (d : database) : database -> Prop :=
| transition_same : transition checked now session d d
| transition_signup name email roll_number department password_hash d' :
    add_student now name email roll_number department password_hash d
    = Some d' ->
    transition checked now session d d'
| transition_register event_id event student d' :
    query_get Event.event_id (events d) event_id = Some event ->
    is_full d event = false ->
    is_past now event = false ->
    get_current_student session d = Some student ->
    add_registration now event_id (Student.student_id student) d = Some d' ->
    transition checked now session d d'
| transition_unregister event_id student registration :
    get_current_student session d = Some student ->
    first (registrations_by event_id (Student.student_id student)
             (registrations d)) = Some registration ->
    transition checked now session d (delete_registration registration d)
| transition_add_event title description date venue department
    max_participants :
    is_admin_logged_in session = true ->
    (checked = true -> 1 <= max_participants /\ now < date) ->
    transition checked now session d
      (event_added now title description date venue department
         max_participants d)
| transition_edit_event event_id event title description date venue
    department max_participants :
    is_admin_logged_in session = true ->
    query_get Event.event_id (events d) event_id = Some event ->
    (checked = true ->
     1 <= max_participants
     /\ current_participants d event <= max_participants) ->
    transition checked now session d
      (event_updated
         (Event.mk (Event.event_id event) title description date venue
            department max_participants (Event.created_at event)) d)
| transition_delete_event event_id event :
    is_admin_logged_in session = true ->
    query_get Event.event_id (events d) event_id = Some event ->
    transition checked now session d (delete_event_row event d).

(** * Properties *)

(** ** Queries and the unit of work *)

Section Queries.
Context {A : Type}.
Implicit Types (l : list A) (x : A).

Lemma first_filter_Some (P : A -> Prop) `{!forall x, Decision (P x)} l x :
  first (filter P l) = Some x -> P x /\ x ∈ l.
Proof.
  unfold first. intros Hhead.
  apply head_Some_elem_of in Hhead.
  apply list_elem_of_filter in Hhead. exact Hhead.
Qed.

Lemma query_get_Some (pk : A -> Z) l id x :
  query_get pk l id = Some x -> pk x = id /\ x ∈ l.
Proof. apply first_filter_Some. Qed.

Lemma filter_all (P : A -> Prop) `{!forall x, Decision (P x)} l :
  Forall P l -> filter P l = l.
Proof.
  induction 1 as [|x l Hx _ IH]; [done|].
  by rewrite filter_cons_True, IH.
Qed.

Lemma length_filter_filter (P Q : A -> Prop)
    `{!forall x, Decision (P x), !forall x, Decision (Q x)} l :
  (length (filter P (filter Q l)) <= length (filter P l))%nat.
Proof.
  induction l as [|x l IH]; [done|].
  rewrite (filter_cons Q). destruct (decide (Q x)).
  - rewrite !(filter_cons P). destruct (decide (P x)); simpl; lia.
  - rewrite (filter_cons P). destruct (decide (P x)); simpl; lia.
Qed.
End Queries.

Lemma add_registration_Some now event_id student_id d d' :
  add_registration now event_id student_id d = Some d' ->
  registrations_by event_id student_id (registrations d) = []
  /\ d' = mkdb (students d) (admins d) (events d)
            (registrations d
               ++ [Registration.mk
                     (next_id (Registration.reg_id <$> registrations d))
                     event_id student_id now]).
Proof.
  unfold add_registration. intros Hadd.
  destruct (registrations_by event_id student_id (registrations d));
    by simplify_eq.
Qed.

Lemma add_registration_fresh now event_id student_id d :
  registrations_by event_id student_id (registrations d) = [] ->
  add_registration now event_id student_id d
  = Some (mkdb (students d) (admins d) (events d)
            (registrations d
               ++ [Registration.mk
                     (next_id (Registration.reg_id <$> registrations d))
                     event_id student_id now])).
Proof. unfold add_registration. by intros ->. Qed.

Lemma add_registration_duplicate now event_id student_id d :
  registrations_by event_id student_id (registrations d) <> [] ->
  add_registration now event_id student_id d = None.
Proof.
  unfold add_registration.
  by destruct (registrations_by event_id student_id (registrations d)).
Qed.

Lemma add_student_Some now name email roll dept pw d d' :
  add_student now name email roll dept pw d = Some d' ->
  admins d' = admins d /\ events d' = events d
  /\ registrations d' = registrations d.
Proof.
  unfold add_student. intros Hadd.
  repeat case_decide; by simplify_eq.
Qed.

(** The key assigned on insert is larger than every key in use. *)
Lemma next_id_fresh (keys : list Z) (k : Z) : k ∈ keys -> k < next_id keys.
Proof.
  unfold next_id. induction keys as [|k' keys IH]; intros Hin.
  - by apply elem_of_nil in Hin.
  - apply elem_of_cons in Hin as [->|Hin]; simpl.
    + lia.
    + specialize (IH Hin). lia.
Qed.

Lemma current_participants_add d e r :
  current_participants
    (mkdb (students d) (admins d) (events d) (registrations d ++ [r])) e
  = current_participants d e
    + (if decide (Registration.event_id r = Event.event_id e) then 1 else 0).
Proof.
  unfold current_participants, event_registrations. simpl.
  rewrite filter_app, length_app, filter_cons, filter_nil.
  case_decide; simpl; lia.
Qed.

(** ** Registering *)

(** The case analysis shared by the proofs about a handler: unfold it and
    split on every test it makes. *)
Tactic Notation "handler_cases" reference(h) :=
  unfold h, reply; try unfold add_event_row, update_event_row;
  repeat case_match; simpl in *; simplify_eq; try done.

(** The answers of [register_event], check by check. *)
Section RegisterAnswers.
Variables (now event_id : Z) (session : session_t) (d : database).

Lemma register_event_anonymous :
  is_student_logged_in session = false ->
  RunLocal.register_event now event_id session d
  = reply d session "error" "Please login to register for events."
          (redirect "login")
  /\ Routes.register_event now event_id session d
     = reply d session "warning" "Please log in to register for events."
             (redirect "login").
Proof.
  intros Hin. unfold RunLocal.register_event, Routes.register_event.
  by rewrite Hin.
Qed.

Hypothesis Hin : is_student_logged_in session = true.

Lemma register_event_not_found :
  query_get Event.event_id (events d) event_id = None ->
  RunLocal.register_event now event_id session d
  = mkres d session [] (abort 404)
  /\ Routes.register_event now event_id session d
     = mkres d session [] (abort 404).
Proof.
  intros Hget. unfold RunLocal.register_event, Routes.register_event.
  by rewrite Hin, Hget.
Qed.

Variable e : Event.t.
Hypothesis Hget : query_get Event.event_id (events d) event_id = Some e.

Lemma register_event_full :
  is_full d e = true ->
  RunLocal.register_event now event_id session d
  = reply d session "error" "Sorry, this event is full."
          (redirect "student_dashboard")
  /\ Routes.register_event now event_id session d
     = reply d session "warning" "Sorry, this event is full."
             (redirect "student_dashboard").
Proof.
  intros Hfull. unfold RunLocal.register_event, Routes.register_event.
  by rewrite Hin, Hget, Hfull.
Qed.

Hypothesis Hfull : is_full d e = false.

Lemma register_event_past :
  is_past now e = true ->
  RunLocal.register_event now event_id session d
  = reply d session "error" "Cannot register for past events."
          (redirect "student_dashboard")
  /\ Routes.register_event now event_id session d
     = reply d session "warning" "Cannot register for past events."
             (redirect "student_dashboard").
Proof.
  intros Hpast. unfold RunLocal.register_event, Routes.register_event.
  by rewrite Hin, Hget, Hfull, Hpast.
Qed.

Hypothesis Hpast : is_past now e = false.
Variable student : Student.t.
Hypothesis Hstudent : get_current_student session d = Some student.

Lemma register_event_duplicate :
  registrations_by event_id (Student.student_id student) (registrations d)
  <> [] ->
  RunLocal.register_event now event_id session d
  = reply d session "warning" "You are already registered for this event."
          (redirect "student_dashboard")
  /\ Routes.register_event now event_id session d
     = reply d session "info" "You are already registered for this event."
             (redirect "student_dashboard").
Proof.
  intros Hdup. unfold RunLocal.register_event, Routes.register_event.
  rewrite Hin, Hget, Hfull, Hpast, Hstudent.
  by destruct (registrations_by event_id (Student.student_id student)
                 (registrations d)).
Qed.

Lemma register_event_fresh :
  registrations_by event_id (Student.student_id student) (registrations d)
  = [] ->
  let d' :=
    mkdb (students d) (admins d) (events d)
         (registrations d
            ++ [Registration.mk
                  (next_id (Registration.reg_id <$> registrations d))
                  event_id (Student.student_id student) now]) in
  RunLocal.register_event now event_id session d
  = reply d' session "success"
          ("Successfully registered for " +:+ Event.title e +:+ "!")
          (redirect "student_dashboard")
  /\ Routes.register_event now event_id session d
     = reply d' session "success"
             ("Successfully registered for " +:+ Event.title e +:+ "!")
             (redirect "student_dashboard").
Proof.
  intros Hnew. unfold RunLocal.register_event, Routes.register_event.
  by rewrite Hin, Hget, Hfull, Hpast, Hstudent,
    (add_registration_fresh _ _ _ _ Hnew), Hnew.
Qed.
End RegisterAnswers.

Lemma get_current_student_logged_in session d student :
  get_current_student session d = Some student ->
  is_student_logged_in session = true.
Proof.
  unfold get_current_student. by destruct (is_student_logged_in session).
Qed.

(** A refused registration writes nothing. *)
Lemma register_event_refused now event_id session d r :
  r = RunLocal.register_event now event_id session d
  \/ r = Routes.register_event now event_id session d ->
  query_get Event.event_id (events d) event_id = None
  \/ (exists e,
        query_get Event.event_id (events d) event_id = Some e
        /\ (is_full d e = true \/ is_past now e = true)) ->
  succeeded r = false /\ res_db r = d /\ res_session r = session.
Proof.
  intros Hr Hbad.
  destruct (is_student_logged_in session) eqn:Hin.
  - destruct Hbad as [Hget | (e & Hget & Hwhy)].
    + destruct (register_event_not_found now event_id session d Hin Hget)
        as [Hlocal Hroutes].
      destruct Hr as [-> | ->]; [rewrite Hlocal|rewrite Hroutes];
        by vm_compute.
    + destruct (is_full d e) eqn:Hfull.
      * destruct (register_event_full now event_id session d Hin e Hget Hfull)
          as [Hlocal Hroutes].
        destruct Hr as [-> | ->]; [rewrite Hlocal|rewrite Hroutes];
          by vm_compute.
      * destruct Hwhy as [?|Hpast]; [done|].
        destruct (register_event_past now event_id session d Hin e Hget Hfull
                    Hpast) as [Hlocal Hroutes].
        destruct Hr as [-> | ->]; [rewrite Hlocal|rewrite Hroutes];
          by vm_compute.
  - destruct (register_event_anonymous now event_id session d Hin)
      as [Hlocal Hroutes].
    destruct Hr as [-> | ->]; [rewrite Hlocal|rewrite Hroutes];
      by vm_compute.
Qed.

(** routes.py and run_local.py differ in the wording and category of the
    messages only: they leave the same database and session. *)
Lemma register_event_same_effect now event_id session d :
  res_db (Routes.register_event now event_id session d)
  = res_db (RunLocal.register_event now event_id session d)
  /\ res_session (Routes.register_event now event_id session d)
     = res_session (RunLocal.register_event now event_id session d).
Proof.
  unfold Routes.register_event, RunLocal.register_event, reply.
  repeat case_match; simplify_eq; done.
Qed.

(** Either nothing is written, or every check passed and the row went in. *)
Lemma register_event_inv now event_id session d :
  let r := RunLocal.register_event now event_id session d in
  res_db r = d
  \/ exists event student,
      query_get Event.event_id (events d) event_id = Some event
      /\ is_full d event = false
      /\ is_past now event = false
      /\ get_current_student session d = Some student
      /\ add_registration now event_id (Student.student_id student) d
         = Some (res_db r).
Proof.
  handler_cases RunLocal.register_event; auto.
  right. eauto 10.
Qed.

Lemma register_event_capacity now event_id session d k e :
  query_get Event.event_id (events d) k = Some e ->
  within_capacity d e ->
  let d' := res_db (RunLocal.register_event now event_id session d) in
  events d' = events d /\ within_capacity d' e.
Proof.
  intros Hget Hcap d'. subst d'.
  destruct (register_event_inv now event_id session d)
    as [->|(ev & st & Hev & Hfull & _ & _ & Hadd)]; [done|].
  apply add_registration_Some in Hadd as [_ ->]. split; [done|].
  unfold within_capacity. rewrite current_participants_add. simpl.
  case_decide as Hid; [|unfold within_capacity in Hcap; lia].
  apply query_get_Some in Hget as Hk. destruct Hk as [Hk _].
  assert (ev = e) as -> by congruence.
  unfold is_full in Hfull. apply bool_decide_eq_false in Hfull. lia.
Qed.

Lemma run_cons serve c calls d :
  run serve (c :: calls) d
  = run serve calls
        (res_db (serve (call_now c) (call_session c) (call_request c) d)).
Proof. done. Qed.

Lemma run_registers_capacity `{Runtime} calls : forall d k e,
  Forall (fun c => is_register c = true) calls ->
  query_get Event.event_id (events d) k = Some e ->
  within_capacity d e ->
  query_get Event.event_id (events (run RunLocal.serve calls d)) k = Some e
  /\ within_capacity (run RunLocal.serve calls d) e.
Proof.
  induction calls as [|c calls IH]; intros d k e Hreg Hget Hcap; [done|].
  apply Forall_cons in Hreg as [Hc Hreg]. rewrite run_cons.
  destruct c as [now session [| |event_id| | | | | | |]]; try done. simpl.
  destruct (register_event_capacity now event_id session d k e Hget Hcap)
    as [Hev Hcap'].
  apply IH; [done| |done]. by rewrite Hev.
Qed.

Lemma run_routes_registers `{Runtime} calls : forall d,
  Forall (fun c => is_register c = true) calls ->
  run Routes.serve calls d = run RunLocal.serve calls d.
Proof.
  induction calls as [|c calls IH]; intros d Hreg; [done|].
  apply Forall_cons in Hreg as [Hc Hreg]. rewrite !run_cons.
  destruct c as [now session [| |event_id| | | | | | |]]; try done. simpl.
  destruct (register_event_same_effect now event_id session d) as [-> _].
  by apply IH.
Qed.

(** C1. For every event, after any sequence of register requests served
    from a state in which the event holds no more registrations than its
    capacity, the event is unchanged and [current_participants] is still at
    most [max_participants] (in run_local.py and in routes.py); and a
    logged-in request for an event with
    [current_participants >= max_participants] is refused with EventFull
    and writes nothing. *)
Theorem capacity_never_exceeded `{Runtime} :
  (forall (calls : list call) (d : database) (k : Z) (e : Event.t),
     Forall (fun c => is_register c = true) calls ->
     query_get Event.event_id (events d) k = Some e ->
     current_participants d e <= Event.max_participants e ->
     (query_get Event.event_id (events (run RunLocal.serve calls d)) k = Some e
      /\ current_participants (run RunLocal.serve calls d) e
         <= Event.max_participants e)
     /\ (query_get Event.event_id (events (run Routes.serve calls d)) k = Some e
         /\ current_participants (run Routes.serve calls d) e
            <= Event.max_participants e))
  /\ (forall (now event_id : Z) (session : session_t) (d : database)
        (e : Event.t),
        is_student_logged_in session = true ->
        query_get Event.event_id (events d) event_id = Some e ->
        current_participants d e >= Event.max_participants e ->
        (EventFull (RunLocal.register_event now event_id session d) = true
         /\ res_db (RunLocal.register_event now event_id session d) = d)
        /\ (EventFull (Routes.register_event now event_id session d) = true
            /\ res_db (Routes.register_event now event_id session d) = d)).
Proof.
  split.
  - intros calls d k e Hreg Hget Hcap.
    rewrite run_routes_registers by done.
    pose proof (run_registers_capacity calls d k e Hreg Hget Hcap). tauto.
  - intros now event_id session d e Hin Hget Hfull.
    assert (is_full d e = true) as Hfull'
      by (unfold is_full; by apply bool_decide_eq_true).
    destruct (register_event_full now event_id session d Hin e Hget Hfull')
      as [-> ->].
    by vm_compute.
Qed.

Lemma capacity_never_exceeded_witness :
  Forall (fun c => is_register c = true) rush
  /\ query_get Event.event_id (events campus) 1 = Some quiz
  /\ current_participants campus quiz <= Event.max_participants quiz
  /\ current_participants (run (@RunLocal.serve demo_runtime) rush campus) quiz
     <= Event.max_participants quiz.
Proof.
  assert (Forall (fun c => is_register c = true) rush) as Hreg
    by (repeat constructor).
  assert (query_get Event.event_id (events campus) 1 = Some quiz) as Hget
    by reflexivity.
  assert (current_participants campus quiz <= Event.max_participants quiz)
    as Hcap by (vm_compute; discriminate).
  repeat split; try assumption.
  exact (proj2 (proj1 (proj1 (@capacity_never_exceeded demo_runtime)
                         rush campus 1 quiz Hreg Hget Hcap))).
Defined.



(** C6. A register request for an event that is full, is past or does not
    exist fails (in run_local.py and in routes.py) and leaves the whole
    database, hence every Registration, Event and Student, and the session
    as they were. *)
Theorem register_refused_without_side_effects :
  forall (now event_id : Z) (session : session_t) (d : database) (r : result),
    r = RunLocal.register_event now event_id session d
    \/ r = Routes.register_event now event_id session d ->
    query_get Event.event_id (events d) event_id = None
    \/ (exists e,
          query_get Event.event_id (events d) event_id = Some e
          /\ (is_full d e = true \/ is_past now e = true)) ->
    succeeded r = false /\ res_db r = d /\ res_session r = session.
Proof.
  intros now event_id session d r. apply register_event_refused.
Qed.

Lemma register_refused_without_side_effects_witness :
  (exists e,
     query_get Event.event_id (events campus_quiz_full) 1 = Some e
     /\ (is_full campus_quiz_full e = true \/ is_past 100 e = true))
  /\ succeeded (RunLocal.register_event 100 1 (as_student bob)
                  campus_quiz_full) = false
  /\ res_db (RunLocal.register_event 100 1 (as_student bob) campus_quiz_full)
     = campus_quiz_full
  /\ res_session (RunLocal.register_event 100 1 (as_student bob)
                    campus_quiz_full) = as_student bob.
Proof.
  assert (exists e,
            query_get Event.event_id (events campus_quiz_full) 1 = Some e
            /\ (is_full campus_quiz_full e = true \/ is_past 100 e = true))
    as Hbad by (exists quiz; split; [reflexivity|left; reflexivity]).
  split; [exact Hbad|].
  exact (register_refused_without_side_effects 100 1 (as_student bob)
           campus_quiz_full _ (or_introl eq_refl) (or_intror Hbad)).
Defined.

(** ** What each handler writes *)

Section Effects.
Context `{Runtime}.

Lemma signup_registrations now method form session d :
  registrations (res_db (RunLocal.signup now method form session d))
  = registrations d
  /\ registrations (res_db (Routes.signup now method form session d))
     = registrations d.
Proof.
  split.
  - handler_cases RunLocal.signup.
    match goal with
    | Hadd : add_student _ _ _ _ _ _ _ = Some _ |- _ =>
        apply add_student_Some in Hadd; tauto
    end.
  - handler_cases Routes.signup.
    match goal with
    | Hadd : add_student _ _ _ _ _ _ _ = Some _ |- _ =>
        apply add_student_Some in Hadd; tauto
    end.
Qed.

Lemma login_db method form session d :
  res_db (RunLocal.login method form session d) = d
  /\ res_db (Routes.login method form session d) = d
  /\ res_db (RunLocal.admin_login method form session d) = d
  /\ res_db (Routes.admin_login method form session d) = d.
Proof.
  repeat split.
  - handler_cases RunLocal.login.
  - handler_cases Routes.login.
  - handler_cases RunLocal.admin_login.
  - handler_cases Routes.admin_login.
Qed.

Lemma add_event_registrations now method form session d :
  registrations (res_db (RunLocal.add_event now method form session d))
  = registrations d
  /\ registrations (res_db (Routes.add_event now method form session d))
     = registrations d.
Proof.
  split.
  - handler_cases RunLocal.add_event.
  - handler_cases Routes.add_event.
Qed.

Lemma edit_event_registrations event_id method form session d :
  registrations (res_db (RunLocal.edit_event event_id method form session d))
  = registrations d
  /\ registrations
       (res_db (Routes.edit_event event_id method form session d))
     = registrations d.
Proof.
  split.
  - handler_cases RunLocal.edit_event.
  - handler_cases Routes.edit_event.
Qed.
End Effects.

Lemma delete_event_inv event_id session d :
  (res_db (RunLocal.delete_event event_id session d) = d
   \/ exists e,
       query_get Event.event_id (events d) event_id = Some e
       /\ res_db (RunLocal.delete_event event_id session d)
          = delete_event_row e d)
  /\ res_db (Routes.delete_event event_id session d)
     = res_db (RunLocal.delete_event event_id session d).
Proof.
  split.
  - handler_cases RunLocal.delete_event; eauto.
  - unfold Routes.delete_event, RunLocal.delete_event, reply.
    repeat case_match; simplify_eq; done.
Qed.

Lemma unregister_event_inv event_id session d :
  res_db (RunLocal.unregister_event event_id session d) = d
  \/ exists student registration,
      get_current_student session d = Some student
      /\ first (registrations_by event_id (Student.student_id student)
                  (registrations d)) = Some registration
      /\ res_db (RunLocal.unregister_event event_id session d)
         = delete_registration registration d.
Proof. handler_cases RunLocal.unregister_event; eauto 10. Qed.

(** ** Uniqueness of the (event, student) pair *)

Lemma ledger_step_unique tbl tbl' :
  ledger_step tbl tbl' ->
  unique_registration tbl -> unique_registration tbl'.
Proof.
  intros [|r Hnew|P ?] Huniq event_id student_id.
  - apply Huniq.
  - unfold unique_registration, registrations_by in *.
    rewrite filter_app, length_app, filter_cons, filter_nil.
    case_decide as Hr; simpl.
    + destruct Hr as [<- <-]. rewrite Hnew. simpl. lia.
    + specialize (Huniq event_id student_id). lia.
  - unfold registrations_by.
    etrans; [apply length_filter_filter|apply Huniq].
Qed.

Lemma serve_ledger_step `{Runtime} now session req d :
  ledger_step (registrations d)
    (registrations (res_db (RunLocal.serve now session req d)))
  /\ ledger_step (registrations d)
       (registrations (res_db (Routes.serve now session req d))).
Proof.
  assert (forall event_id,
            ledger_step (registrations d)
              (registrations
                 (res_db (RunLocal.register_event now event_id session d))))
    as Hregister.
  { intros event_id.
    destruct (register_event_inv now event_id session d)
      as [->|(e & st & _ & _ & _ & _ & Hadd)]; [constructor|].
    apply add_registration_Some in Hadd as [Hnew ->]. simpl.
    by apply ledger_add. }
  assert (forall event_id,
            ledger_step (registrations d)
              (registrations
                 (res_db (RunLocal.delete_event event_id session d))))
    as Hdelete.
  { intros event_id.
    destruct (delete_event_inv event_id session d)
      as [[->|(e & _ & ->)] _]; [constructor|].
    simpl. apply ledger_delete; apply _. }
  destruct req as [method form|method form|event_id|event_id|
                   |method form|method form|event_id method form|event_id|];
    simpl.
  - destruct (signup_registrations now method form session d) as [-> ->].
    split; constructor.
  - destruct (login_db method form session d) as (-> & -> & _).
    split; constructor.
  - destruct (register_event_same_effect now event_id session d) as [-> _].
    split; apply Hregister.
  - split; [|constructor].
    destruct (unregister_event_inv event_id session d)
      as [->|(st & reg & _ & _ & ->)]; [constructor|].
    simpl. apply ledger_delete; apply _.
  - split; constructor.
  - destruct (login_db method form session d) as (_ & _ & -> & ->).
    split; constructor.
  - destruct (add_event_registrations now method form session d) as [-> ->].
    split; constructor.
  - destruct (edit_event_registrations event_id method form session d)
      as [-> ->].
    split; constructor.
  - destruct (delete_event_inv event_id session d) as [_ ->].
    split; apply Hdelete.
  - split; constructor.
Qed.

Lemma run_unique `{Runtime} calls : forall d,
  unique_registration (registrations d) ->
  unique_registration (registrations (run RunLocal.serve calls d))
  /\ unique_registration (registrations (run Routes.serve calls d)).
Proof.
  assert (forall serve,
            (forall now session req d,
               ledger_step (registrations d)
                 (registrations (res_db (serve now session req d)))) ->
            forall d,
              unique_registration (registrations d) ->
              unique_registration (registrations (run serve calls d)))
    as Hrun.
  { intros serve Hstep.
    induction calls as [|c calls IH]; intros d Huniq; [done|].
    rewrite run_cons. apply IH.
    eapply ledger_step_unique; [apply Hstep|done]. }
  intros d Huniq. split; apply Hrun; try done.
  - intros. apply serve_ledger_step.
  - intros. apply serve_ledger_step.
Qed.

(** C2. For every event and every student at most one Registration with
    that pair exists at any time: the table's uniqueness constraint rejects
    a second row for a pair; a register request by a student who already
    holds a Registration for the event never succeeds and writes nothing,
    and it is answered with AlreadyRegistered whenever the event exists, is
    not full and is not past (the checks that come first); and no sequence
    of requests (to run_local.py or to routes.py) leads from a database
    with at most one row per pair to one with two. *)
Theorem one_registration_per_pair `{Runtime} :
  (forall (now event_id student_id : Z) (d : database),
     registrations_by event_id student_id (registrations d) <> [] ->
     add_registration now event_id student_id d = None)
  /\ (forall (now event_id : Z) (session : session_t) (d : database)
        (student : Student.t) (r : result),
        get_current_student session d = Some student ->
        r = RunLocal.register_event now event_id session d
        \/ r = Routes.register_event now event_id session d ->
        registrations_by event_id (Student.student_id student)
          (registrations d) <> [] ->
        succeeded r = false /\ res_db r = d
        /\ (forall e,
              query_get Event.event_id (events d) event_id = Some e ->
              is_full d e = false -> is_past now e = false ->
              AlreadyRegistered r = true
              /\ res_response r = redirect "student_dashboard"))
  /\ (forall (calls : list call) (d : database),
        unique_registration (registrations d) ->
        unique_registration (registrations (run RunLocal.serve calls d))
        /\ unique_registration (registrations (run Routes.serve calls d))).
Proof.
  split; [|split].
  - intros. by apply add_registration_duplicate.
  - intros now event_id session d student r Hstudent Hr Hdup.
    pose proof (get_current_student_logged_in _ _ _ Hstudent) as Hin.
    destruct (query_get Event.event_id (events d) event_id) as [e|] eqn:Hget.
    + destruct (is_full d e) eqn:Hfull; [|destruct (is_past now e) eqn:Hpast].
      * destruct (register_event_refused now event_id session d r Hr)
          as (Hfail & Hdb & _); [right; exists e; auto|].
        do 2 (split; [done|]). intros e' [= <-] Hopen. congruence.
      * destruct (register_event_refused now event_id session d r Hr)
          as (Hfail & Hdb & _); [right; exists e; auto|].
        do 2 (split; [done|]). intros e' [= <-] _ Hfuture. congruence.
      * destruct (register_event_duplicate now event_id session d Hin e Hget
                    Hfull Hpast student Hstudent Hdup) as [Hlocal Hroutes].
        destruct Hr as [-> | ->]; [rewrite Hlocal|rewrite Hroutes];
          (split; [by vm_compute|]); (split; [done|]);
          intros e' _ _ _; by vm_compute.
    + destruct (register_event_refused now event_id session d r Hr)
        as (Hfail & Hdb & _); [by left|].
      do 2 (split; [done|]). by intros e' ?.
  - intros calls d. apply run_unique.
Qed.

Lemma one_registration_per_pair_witness :
  let d1 := res_db (RunLocal.register_event 100 2 (as_student alice)
                      campus) in
  let again := Routes.register_event 101 2 (as_student alice) d1 in
  unique_registration (registrations campus)
  /\ unique_registration
       (registrations (run (@RunLocal.serve demo_runtime) rush campus))
  /\ get_current_student (as_student alice) d1 = Some alice
  /\ registrations_by 2 (Student.student_id alice) (registrations d1) <> []
  /\ query_get Event.event_id (events d1) 2 = Some talk
  /\ is_full d1 talk = false /\ is_past 101 talk = false
  /\ AlreadyRegistered again = true
  /\ res_db again = d1.
Proof.
  intros d1 again.
  assert (unique_registration (registrations campus)) as Huniq
    by (intros event_id student_id; simpl; lia).
  assert (registrations_by 2 (Student.student_id alice) (registrations d1)
          <> []) as Hdup by (vm_compute; discriminate).
  split; [exact Huniq|].
  split; [exact (proj1 (proj2 (proj2 (@one_registration_per_pair
                                          demo_runtime))
                           rush campus Huniq))|].
  split; [reflexivity|]. split; [exact Hdup|]. split; [reflexivity|].
  split; [reflexivity|]. split; [reflexivity|].
  destruct (proj1 (proj2 (@one_registration_per_pair demo_runtime))
              101 2 (as_student alice) d1 alice again eq_refl
              (or_intror eq_refl) Hdup) as (_ & Hdb & Hanswer).
  split; [exact (proj1 (Hanswer talk eq_refl eq_refl eq_refl))|exact Hdb].
Defined.

(** ** Unregistering *)

Section UnregisterAnswers.
Variables (event_id : Z) (session : session_t) (d : database).
Variable student : Student.t.
Hypothesis Hstudent : get_current_student session d = Some student.

Lemma unregister_event_absent :
  registrations_by event_id (Student.student_id student) (registrations d)
  = [] ->
  RunLocal.unregister_event event_id session d
  = reply d session "error" "You are not registered for this event."
          (redirect "my_registrations").
Proof.
  intros Hnone. unfold RunLocal.unregister_event.
  by rewrite (get_current_student_logged_in _ _ _ Hstudent), Hstudent, Hnone.
Qed.

Lemma unregister_event_present registration e :
  first (registrations_by event_id (Student.student_id student)
           (registrations d)) = Some registration ->
  query_get Event.event_id (events d) event_id = Some e ->
  RunLocal.unregister_event event_id session d
  = reply (delete_registration registration d) session "success"
          ("Successfully unregistered from " +:+ Event.title e +:+ ".")
          (redirect "my_registrations").
Proof.
  intros Hreg Hget. unfold RunLocal.unregister_event.
  by rewrite (get_current_student_logged_in _ _ _ Hstudent), Hstudent,
    Hreg, Hget.
Qed.
End UnregisterAnswers.

Lemma unregistered_reply d session e r :
  Unregistered e
    (reply d session "success"
       ("Successfully unregistered from " +:+ Event.title e +:+ ".") r)
  = true.
Proof.
  unfold Unregistered, flashed, succeeded, reply. cbn [res_flashes].
  by rewrite !bool_decide_eq_true_2.
Qed.

(** Deleting by primary key removes the row itself and nothing else. *)
Lemma delete_registration_exact r d :
  r ∈ registrations d ->
  reg_id_key (registrations d) ->
  exists before after,
    registrations d = before ++ r :: after
    /\ registrations (delete_registration r d) = before ++ after.
Proof.
  intros Hin Hkey. apply list_elem_of_split in Hin as (before & after & Heq).
  exists before, after. split; [done|].
  unfold delete_registration, reg_id_key in *. simpl. rewrite Heq in *.
  rewrite fmap_app, fmap_cons in Hkey.
  apply NoDup_app in Hkey as (_ & Hbefore & Hafter).
  apply NoDup_cons in Hafter as [Hafter _].
  rewrite filter_app, filter_cons_False by (intros Hne; by apply Hne).
  rewrite !filter_all; [done| |].
  - apply Forall_forall. intros x Hx Hid. apply Hafter. rewrite <-Hid.
    by apply list_elem_of_fmap_2.
  - apply Forall_forall. intros x Hx Hid.
    apply (Hbefore (Registration.reg_id r)).
    + rewrite <-Hid. by apply list_elem_of_fmap_2.
    + apply elem_of_cons. by left.
Qed.

Lemma delete_registration_gone r d :
  r ∉ registrations (delete_registration r d).
Proof.
  unfold delete_registration. simpl. intros Hin.
  apply list_elem_of_filter in Hin as [Hne _]. by apply Hne.
Qed.

(** With one row per pair, deleting the row found for a pair leaves the
    pair unregistered. *)
Lemma delete_registration_pair event_id student_id r d :
  unique_registration (registrations d) ->
  first (registrations_by event_id student_id (registrations d)) = Some r ->
  registrations_by event_id student_id
    (registrations (delete_registration r d)) = [].
Proof.
  intros Huniq Hfirst. specialize (Huniq event_id student_id).
  unfold delete_registration, registrations_by, first in *. simpl.
  rewrite list_filter_filter.
  erewrite (list_filter_iff _
              (fun x => Registration.reg_id x <> Registration.reg_id r
                        /\ (Registration.event_id x = event_id
                            /\ Registration.student_id x = student_id)))
    by (intros x; tauto).
  rewrite <-list_filter_filter.
  destruct (filter _ (registrations d)) as [|r' [|r'' rest]] eqn:Hpair;
    simpl in *; simplify_eq; [|lia].
  by rewrite filter_cons_False, filter_nil by (intros Hne; by apply Hne).
Qed.



(** C10. [unregister_event] (run_local.py) reads neither the clock nor the
    capacity: for every student holding a Registration for an event,
    whatever the instant [now] and however many seats are taken, so also
    when [is_past] or [is_full] holds, it reports success and the
    Registration is gone; with one row per pair the student is then no
    longer registered for the event. *)
Theorem unregister_ignores_date_and_capacity :
  forall (now event_id : Z) (session : session_t) (d : database)
    (student : Student.t) (registration : Registration.t) (e : Event.t)
    (past full : bool),
    get_current_student session d = Some student ->
    first (registrations_by event_id (Student.student_id student)
             (registrations d)) = Some registration ->
    query_get Event.event_id (events d) event_id = Some e ->
    is_past now e = past ->
    is_full d e = full ->
    let r := RunLocal.unregister_event event_id session d in
    Unregistered e r = true
    /\ (registration ∉ registrations (res_db r))
    /\ (unique_registration (registrations d) ->
        registrations_by event_id (Student.student_id student)
          (registrations (res_db r)) = []).
Proof.
  intros now event_id session d student registration e past full
    Hstudent Hreg Hget _ _ r. subst r.
  rewrite (unregister_event_present event_id session d student Hstudent
             registration e Hreg Hget).
  split; [apply unregistered_reply|]. split.
  - apply delete_registration_gone.
  - intros Huniq. by apply delete_registration_pair.
Qed.

Lemma unregister_ignores_date_and_capacity_witness :
  get_current_student (as_student alice) campus_quiz_full = Some alice
  /\ first (registrations_by 1 (Student.student_id alice)
              (registrations campus_quiz_full))
     = Some (Registration.mk 1 1 1 500)
  /\ query_get Event.event_id (events campus_quiz_full) 1 = Some quiz
  /\ is_past 2000 quiz = true
  /\ is_full campus_quiz_full quiz = true
  /\ Unregistered quiz
       (RunLocal.unregister_event 1 (as_student alice) campus_quiz_full)
     = true.
Proof.
  assert (get_current_student (as_student alice) campus_quiz_full
          = Some alice) as Hstudent by reflexivity.
  assert (first (registrations_by 1 (Student.student_id alice)
                   (registrations campus_quiz_full))
          = Some (Registration.mk 1 1 1 500)) as Hreg by reflexivity.
  assert (query_get Event.event_id (events campus_quiz_full) 1 = Some quiz)
    as Hget by reflexivity.
  assert (is_past 2000 quiz = true) as Hpast by reflexivity.
  assert (is_full campus_quiz_full quiz = true) as Hfull by reflexivity.
  do 5 (split; [assumption|]).
  exact (proj1 (unregister_ignores_date_and_capacity 2000 1
                  (as_student alice) campus_quiz_full alice _ quiz true true
                  Hstudent Hreg Hget Hpast Hfull)).
Defined.

(** ** Deleting *)

Lemma delete_event_found event_id session d e :
  is_admin_logged_in session = true ->
  query_get Event.event_id (events d) event_id = Some e ->
  RunLocal.delete_event event_id session d
  = reply (delete_event_row e d) session "success"
          ("Event " +:+ dq +:+ Event.title e +:+ dq
             +:+ " deleted successfully!")
          (redirect "admin_dashboard")
  /\ Routes.delete_event event_id session d
     = reply (delete_event_row e d) session "success"
             ("Event " +:+ dq +:+ Event.title e +:+ dq
                +:+ " deleted successfully!")
             (redirect "admin_dashboard").
Proof.
  intros Hin Hget. unfold RunLocal.delete_event, Routes.delete_event.
  by rewrite Hin, Hget.
Qed.

Lemma query_get_filter_out {A} (pk : A -> Z) (tbl : list A) (id : Z) :
  query_get pk (filter (fun x => pk x <> id) tbl) id = None.
Proof.
  unfold query_get, first.
  destruct (filter _ (filter _ tbl)) as [|x rest] eqn:Hrows; [done|].
  assert (x ∈ filter (fun row => pk row = id)
                (filter (fun x => pk x <> id) tbl)) as Hx
    by (rewrite Hrows; apply elem_of_cons; by left).
  apply list_elem_of_filter in Hx as [Hid Hx].
  apply list_elem_of_filter in Hx as [Hne _]. done.
Qed.

(** C8. Deleting an Event (the [delete_event] route of run_local.py and of
    routes.py, for a logged-in admin) deletes the Event and every
    Registration whose [event_id] refers to it and keeps the other
    Registrations; deleting a Student through the unit of work deletes
    every Registration whose [student_id] refers to it. After either
    deletion no Registration referring to the deleted record remains. *)
Theorem delete_cascades_to_registrations :
  (forall (event_id : Z) (session : session_t) (d : database) (e : Event.t)
      (r : result),
      is_admin_logged_in session = true ->
      query_get Event.event_id (events d) event_id = Some e ->
      r = RunLocal.delete_event event_id session d
      \/ r = Routes.delete_event event_id session d ->
      succeeded r = true
      /\ query_get Event.event_id (events (res_db r)) event_id = None
      /\ event_registrations (res_db r) e = []
      /\ (forall x, x ∈ registrations (res_db r) <->
                    x ∈ registrations d
                    /\ Registration.event_id x <> Event.event_id e))
  /\ (forall (s : Student.t) (d : database),
        query_get Student.student_id (students (delete_student_row s d))
          (Student.student_id s) = None
        /\ student_registrations (delete_student_row s d) s = []
        /\ (forall x, x ∈ registrations (delete_student_row s d) <->
                      x ∈ registrations d
                      /\ Registration.student_id x <> Student.student_id s)).
Proof.
  split.
  - intros event_id session d e r Hin Hget Hr.
    destruct (delete_event_found event_id session d e Hin Hget)
      as [Hlocal Hroutes].
    assert (res_db r = delete_event_row e d /\ succeeded r = true)
      as [-> ->]
      by (destruct Hr as [-> | ->]; [rewrite Hlocal|rewrite Hroutes]; done).
    apply query_get_Some in Hget as [<- _].
    split; [done|]. split; [apply query_get_filter_out|]. split.
    + unfold event_registrations, delete_event_row. simpl.
      rewrite list_filter_filter. apply elem_of_nil_inv. intros x Hx.
      apply list_elem_of_filter in Hx as [[? ?] _]. done.
    + intros x. unfold delete_event_row. simpl.
      rewrite list_elem_of_filter. tauto.
  - intros s d. split; [apply query_get_filter_out|]. split.
    + unfold student_registrations, delete_student_row. simpl.
      rewrite list_filter_filter. apply elem_of_nil_inv. intros x Hx.
      apply list_elem_of_filter in Hx as [[? ?] _]. done.
    + intros x. unfold delete_student_row. simpl.
      rewrite list_elem_of_filter. tauto.
Qed.

Lemma delete_cascades_to_registrations_witness :
  is_admin_logged_in (as_admin root) = true
  /\ query_get Event.event_id (events campus_talk_full) 2 = Some talk
  /\ event_registrations
       (res_db (Routes.delete_event 2 (as_admin root) campus_talk_full)) talk
     = [].
Proof.
  assert (is_admin_logged_in (as_admin root) = true) as Hin by reflexivity.
  assert (query_get Event.event_id (events campus_talk_full) 2 = Some talk)
    as Hget by reflexivity.
  do 2 (split; [assumption|]).
  exact (proj1 (proj2 (proj2
           (proj1 delete_cascades_to_registrations 2 (as_admin root)
              campus_talk_full talk _ Hin Hget (or_intror eq_refl))))).
Defined.

(** ** Event administration *)

Lemma query_get_update e' d id e :
  query_get Event.event_id (events d) id = Some e ->
  Event.event_id e' = Event.event_id e ->
  query_get Event.event_id (events (event_updated e' d)) id = Some e'.
Proof.
  intros Hget Hid. pose proof (query_get_Some _ _ _ _ Hget) as [Hkey _].
  unfold query_get, first, event_updated in *. simpl.
  induction (events d) as [|a l IH]; [done|].
  rewrite fmap_cons. rewrite filter_cons in Hget.
  destruct (decide (Event.event_id a = id)) as [Ha|Ha].
  - rewrite decide_True by congruence.
    rewrite filter_cons_True by congruence. done.
  - rewrite decide_False by congruence.
    rewrite filter_cons_False by done. by apply IH.
Qed.

Section EventAdministration.
Context `{Runtime}.

(** run_local.py refuses a capacity below 1 before it writes. *)
Lemma add_event_nonpositive_refused now method form session d m :
  int (str (form !! "max_participants")) = Some m ->
  m < 1 ->
  succeeded (RunLocal.add_event now method form session d) = false
  /\ res_db (RunLocal.add_event now method form session d) = d.
Proof.
  intros Hint Hm. handler_cases RunLocal.add_event.
  match goal with
  | Hge : bool_decide (_ < 1) = false |- _ =>
      apply bool_decide_eq_false in Hge; lia
  end.
Qed.

(** run_local.py refuses a capacity below the registration count before
    it writes. *)
Lemma edit_event_below_count_refused event_id method form session d e m :
  query_get Event.event_id (events d) event_id = Some e ->
  int (str (form !! "max_participants")) = Some m ->
  m < current_participants d e ->
  succeeded (RunLocal.edit_event event_id method form session d) = false
  /\ res_db (RunLocal.edit_event event_id method form session d) = d.
Proof.
  intros Hget Hint Hm. handler_cases RunLocal.edit_event.
  match goal with
  | Hge : bool_decide (_ < current_participants _ _) = false |- _ =>
      apply bool_decide_eq_false in Hge; lia
  end.
Qed.

(** routes.py stores whatever capacity [int] returns and the column
    holds. *)
Lemma routes_add_event_stores now form session d t m :
  is_admin_logged_in session = true ->
  all [form !! "title"; form !! "description"; form !! "date";
       form !! "venue"; form !! "department"; form !! "max_participants"]
  = true ->
  fromisoformat (replace "T" " " (str (form !! "date"))) = Some t ->
  int (str (form !! "max_participants")) = Some m ->
  fits_integer m = true ->
  Routes.add_event now POST form session d
  = reply (event_added now (str (form !! "title"))
             (str (form !! "description")) t (str (form !! "venue"))
             (str (form !! "department")) m d)
          session "success" "Event added successfully!"
          (redirect "admin_dashboard").
Proof.
  intros Hin Hall Hdate Hint Hfits.
  unfold Routes.add_event, add_event_row.
  by rewrite Hin, Hall, Hdate, Hint, Hfits.
Qed.

Lemma routes_edit_event_stores event_id form session d e t m :
  is_admin_logged_in session = true ->
  query_get Event.event_id (events d) event_id = Some e ->
  all [form !! "title"; form !! "description"; form !! "date";
       form !! "venue"; form !! "department"; form !! "max_participants"]
  = true ->
  fromisoformat (replace "T" " " (str (form !! "date"))) = Some t ->
  int (str (form !! "max_participants")) = Some m ->
  fits_integer m = true ->
  Routes.edit_event event_id POST form session d
  = reply (event_updated
             (Event.mk (Event.event_id e) (str (form !! "title"))
                (str (form !! "description")) t (str (form !! "venue"))
                (str (form !! "department")) m (Event.created_at e)) d)
          session "success" "Event updated successfully!"
          (redirect "admin_dashboard").
Proof.
  intros Hin Hget Hall Hdate Hint Hfits.
  unfold Routes.edit_event, update_event_row.
  rewrite Hin, Hget, Hall, Hdate, Hint. simpl. by rewrite Hfits.
Qed.
End EventAdministration.

(** C4, on routes.py. The [edit_event] route of routes.py has no check of
    the capacity against the registration count (run_local.py has it, see
    [edit_event_below_count_refused]): a logged-in admin who submits a
    complete form whose capacity is below the event's registration count
    gets a success, and the stored event then has fewer seats than
    registrations. The capacity is one the [Integer] column holds, as every
    capacity a form can usefully carry is; for any other the commit raises
    and nothing is stored. *)
Theorem routes_edit_event_accepts_capacity_below_count `{Runtime} :
  forall (event_id : Z) (form : form_t) (session : session_t) (d : database)
    (e : Event.t) (t m : Z),
    is_admin_logged_in session = true ->
    query_get Event.event_id (events d) event_id = Some e ->
    all [form !! "title"; form !! "description"; form !! "date";
         form !! "venue"; form !! "department"; form !! "max_participants"]
    = true ->
    fromisoformat (replace "T" " " (str (form !! "date"))) = Some t ->
    int (str (form !! "max_participants")) = Some m ->
    fits_integer m = true ->
    m < current_participants d e ->
    let r := Routes.edit_event event_id POST form session d in
    let e' := Event.mk (Event.event_id e) (str (form !! "title"))
                (str (form !! "description")) t (str (form !! "venue"))
                (str (form !! "department")) m (Event.created_at e) in
    succeeded r = true
    /\ query_get Event.event_id (events (res_db r)) event_id = Some e'
    /\ Event.max_participants e' < current_participants (res_db r) e'.
Proof.
  intros event_id form session d e t m Hin Hget Hall Hdate Hint Hfits Hm r
    e'.
  subst r.
  rewrite (routes_edit_event_stores event_id form session d e t m Hin Hget
             Hall Hdate Hint Hfits).
  fold e'. split; [done|]. split.
  - by apply (query_get_update e' d event_id e Hget).
  - done.
Qed.

Lemma routes_edit_event_accepts_capacity_below_count_witness :
  let form := event_form "Paper Presentation" "2030-01-01T10:00" "1" in
  let r := @Routes.edit_event demo_runtime 2 POST form (as_admin root)
             campus_talk_full in
  is_admin_logged_in (as_admin root) = true
  /\ query_get Event.event_id (events campus_talk_full) 2 = Some talk
  /\ @fromisoformat demo_runtime (replace "T" " " (str (form !! "date")))
     = Some 1087477080
  /\ @int demo_runtime (str (form !! "max_participants")) = Some 1
  /\ fits_integer 1 = true
  /\ 1 < current_participants campus_talk_full talk
  /\ succeeded r = true
  /\ query_get Event.event_id (events (res_db r)) 2
     = Some (Event.mk 2 "Paper Presentation" "MCQs" 1087477080
               "Main Auditorium" "General" 1 0).
Proof.
  intros form r.
  assert (is_admin_logged_in (as_admin root) = true) as Hin by reflexivity.
  assert (query_get Event.event_id (events campus_talk_full) 2 = Some talk)
    as Hget by reflexivity.
  assert (all [form !! "title"; form !! "description"; form !! "date";
               form !! "venue"; form !! "department";
               form !! "max_participants"] = true) as Hall
    by (vm_compute; reflexivity).
  assert (@fromisoformat demo_runtime (replace "T" " " (str (form !! "date")))
          = Some 1087477080) as Hdate by (vm_compute; reflexivity).
  assert (@int demo_runtime (str (form !! "max_participants")) = Some 1)
    as Hint by (vm_compute; reflexivity).
  assert (fits_integer 1 = true) as Hfits by (vm_compute; reflexivity).
  assert (1 < current_participants campus_talk_full talk) as Hm
    by (vm_compute; reflexivity).
  do 6 (split; [assumption|]).
  destruct (@routes_edit_event_accepts_capacity_below_count demo_runtime 2
              form (as_admin root) campus_talk_full talk 1087477080 1
              Hin Hget Hall Hdate Hint Hfits Hm) as (Hok & Hstored & _).
  split; [exact Hok|exact Hstored].
Defined.

(** C7, on routes.py. The [add_event] route of routes.py has no check of
    the capacity (run_local.py has it, see [add_event_nonpositive_refused]):
    a logged-in admin who submits a complete form whose capacity parses to
    an integer below 1 gets a success, and an Event with that capacity is
    added. The capacity is one the [Integer] column holds; for any other the
    commit raises and nothing is added. *)
Theorem routes_add_event_accepts_nonpositive_capacity `{Runtime} :
  forall (now : Z) (form : form_t) (session : session_t) (d : database)
    (t m : Z),
    is_admin_logged_in session = true ->
    all [form !! "title"; form !! "description"; form !! "date";
         form !! "venue"; form !! "department"; form !! "max_participants"]
    = true ->
    fromisoformat (replace "T" " " (str (form !! "date"))) = Some t ->
    int (str (form !! "max_participants")) = Some m ->
    fits_integer m = true ->
    m < 1 ->
    let r := Routes.add_event now POST form session d in
    succeeded r = true
    /\ events (res_db r)
       = events d
           ++ [Event.mk (next_id (Event.event_id <$> events d))
                 (str (form !! "title")) (str (form !! "description")) t
                 (str (form !! "venue")) (str (form !! "department")) m now].
Proof.
  intros now form session d t m Hin Hall Hdate Hint Hfits Hm r. subst r.
  by rewrite (routes_add_event_stores now form session d t m Hin Hall Hdate
                Hint Hfits).
Qed.

Lemma routes_add_event_accepts_nonpositive_capacity_witness :
  let form := event_form "Hackathon" "2030-01-01T10:00" "0" in
  let r := @Routes.add_event demo_runtime 100 POST form (as_admin root)
             campus in
  is_admin_logged_in (as_admin root) = true
  /\ @fromisoformat demo_runtime (replace "T" " " (str (form !! "date")))
     = Some 1087477080
  /\ @int demo_runtime (str (form !! "max_participants")) = Some 0
  /\ fits_integer 0 = true
  /\ 0 < 1
  /\ succeeded r = true
  /\ events (res_db r)
     = [quiz; talk;
        Event.mk 3 "Hackathon" "MCQs" 1087477080 "Main Auditorium"
                 "General" 0 100].
Proof.
  intros form r.
  assert (is_admin_logged_in (as_admin root) = true) as Hin by reflexivity.
  assert (all [form !! "title"; form !! "description"; form !! "date";
               form !! "venue"; form !! "department";
               form !! "max_participants"] = true) as Hall
    by (vm_compute; reflexivity).
  assert (@fromisoformat demo_runtime (replace "T" " " (str (form !! "date")))
          = Some 1087477080) as Hdate by (vm_compute; reflexivity).
  assert (@int demo_runtime (str (form !! "max_participants")) = Some 0)
    as Hint by (vm_compute; reflexivity).
  assert (fits_integer 0 = true) as Hfits by (vm_compute; reflexivity).
  assert (0 < 1) as Hm by reflexivity.
  do 5 (split; [assumption|]).
  exact (@routes_add_event_accepts_nonpositive_capacity demo_runtime 100
           form (as_admin root) campus 1087477080 0 Hin Hall Hdate Hint Hfits
           Hm).
Defined.

(** ** Sessions *)

(** C9 as stated fails: in a browser logged in as a student and as the
    admin, the student logout removes the admin id and the admin logout
    removes the student id. *)
Lemma logout_keeps_other_slot_counterexample :
  ~ (res_session (Routes.logout as_both campus) !! "admin_id"
     = as_both !! "admin_id")
  /\ ~ (res_session (Routes.admin_logout as_both campus) !! "student_id"
        = as_both !! "student_id")
  /\ ~ (res_session (RunLocal.logout as_both campus) !! "admin_id"
        = as_both !! "admin_id")
  /\ ~ (res_session (RunLocal.admin_logout as_both campus) !! "student_id"
        = as_both !! "student_id").
Proof. repeat split; vm_compute; discriminate. Qed.

(** C9, amended. The student and the admin identity are held under
    separate session keys, and a login as one role leaves the other role's
    id as it was; but [logout] and [admin_logout] (in run_local.py and in
    routes.py) clear the whole session: after either, the session holds
    neither a student id nor an admin id. *)
Theorem logout_clears_both_slots `{Runtime} :
  (forall (session : session_t) (d : database) (r : result),
     r = RunLocal.logout session d \/ r = RunLocal.admin_logout session d
     \/ r = Routes.logout session d \/ r = Routes.admin_logout session d ->
     res_session r !! "student_id" = None
     /\ res_session r !! "admin_id" = None
     /\ is_student_logged_in (res_session r) = false
     /\ is_admin_logged_in (res_session r) = false
     /\ res_db r = d)
  /\ (forall (method : http_method) (form : form_t) (session : session_t)
        (d : database) (r : result),
        r = RunLocal.login method form session d
        \/ r = Routes.login method form session d ->
        res_session r !! "admin_id" = session !! "admin_id")
  /\ (forall (method : http_method) (form : form_t) (session : session_t)
        (d : database) (r : result),
        r = RunLocal.admin_login method form session d
        \/ r = Routes.admin_login method form session d ->
        res_session r !! "student_id" = session !! "student_id").
Proof.
  split; [|split].
  - intros session d r [-> | [-> | [-> | ->]]]; done.
  - intros method form session d r [-> | ->].
    + handler_cases RunLocal.login. by rewrite !lookup_insert_ne.
    + handler_cases Routes.login. by rewrite !lookup_insert_ne.
  - intros method form session d r [-> | ->].
    + handler_cases RunLocal.admin_login. by rewrite !lookup_insert_ne.
    + handler_cases Routes.admin_login. by rewrite !lookup_insert_ne.
Qed.

Lemma logout_clears_both_slots_witness :
  is_student_logged_in as_both = true
  /\ is_admin_logged_in as_both = true
  /\ res_session (Routes.logout as_both campus) !! "admin_id" = None
  /\ is_admin_logged_in (res_session (Routes.logout as_both campus)) = false.
Proof.
  do 2 (split; [reflexivity|]).
  destruct (proj1 (@logout_clears_both_slots demo_runtime) as_both campus
              (Routes.logout as_both campus)
              (or_intror (or_intror (or_introl eq_refl))))
    as (_ & Hslot & _ & Hadmin & _).
  split; [exact Hslot|exact Hadmin].
Defined.


(** ** Well-formed databases

    The hypotheses of the statements about [unregister_event] (the event of
    a registration exists, [reg_id] is a key) hold in every database the
    application reaches from a well-formed one. *)

Lemma query_get_elem_of {A} (pk : A -> Z) (tbl : list A) (id : Z) :
  id ∈ pk <$> tbl -> is_Some (query_get pk tbl id).
Proof.
  intros Hid. apply list_elem_of_fmap in Hid as (x & -> & Hx).
  unfold query_get, first.
  destruct (filter _ tbl) as [|y rest] eqn:Hrows; [|by eexists].
  assert (x ∈ filter (fun row => pk row = pk x) tbl) as Hin
    by (by apply list_elem_of_filter).
  rewrite Hrows in Hin. by apply elem_of_nil in Hin.
Qed.

Lemma event_updated_ids e d :
  Event.event_id <$> events (event_updated e d)
  = Event.event_id <$> events d.
Proof.
  unfold event_updated. simpl. rewrite <-list_fmap_compose.
  apply list_fmap_ext. intros i x _. simpl. by case_decide.
Qed.

Lemma well_formed_add_registration now event_id student_id d d' e :
  query_get Event.event_id (events d) event_id = Some e ->
  add_registration now event_id student_id d = Some d' ->
  well_formed d -> well_formed d'.
Proof.
  intros Hget Hadd [Hkey Href].
  apply add_registration_Some in Hadd as [_ ->].
  apply query_get_Some in Hget as [<- He].
  split; unfold reg_id_key, referential in *; simpl.
  - rewrite fmap_app. apply NoDup_app. split; [done|]. split.
    + intros k Hk Hnew. apply list_elem_of_singleton in Hnew.
      apply next_id_fresh in Hk. simpl in Hnew. lia.
    + apply NoDup_singleton.
  - intros r Hr. apply elem_of_app in Hr as [Hr|Hr]; [by apply Href|].
    apply list_elem_of_singleton in Hr as ->. simpl.
    by apply list_elem_of_fmap_2.
Qed.

Lemma well_formed_filter (P : Registration.t -> Prop)
    `{!forall x, Decision (P x)} d :
  well_formed d ->
  well_formed (mkdb (students d) (admins d) (events d)
                 (filter P (registrations d))).
Proof.
  intros [Hkey Href]. split; unfold reg_id_key, referential in *; simpl.
  - eapply sublist_NoDup; [exact Hkey|].
    apply fmap_sublist, sublist_filter.
  - intros r Hr. apply list_elem_of_filter in Hr as [_ Hr]. by apply Href.
Qed.

Lemma well_formed_delete_event_row e d :
  well_formed d -> well_formed (delete_event_row e d).
Proof.
  intros [Hkey Href]. split; unfold reg_id_key, referential in *; simpl.
  - eapply sublist_NoDup; [exact Hkey|].
    apply fmap_sublist, sublist_filter.
  - intros r Hr. apply list_elem_of_filter in Hr as [Hne Hr].
    apply Href in Hr. apply list_elem_of_fmap in Hr as (x & Hid & Hx).
    apply list_elem_of_fmap. exists x. split; [done|].
    apply list_elem_of_filter. split; [congruence|done].
Qed.

Lemma well_formed_events d d' :
  registrations d' = registrations d ->
  (forall k, k ∈ Event.event_id <$> events d ->
             k ∈ Event.event_id <$> events d') ->
  well_formed d -> well_formed d'.
Proof.
  intros Hregs Hids [Hkey Href].
  split; unfold reg_id_key, referential in *; rewrite Hregs; [done|].
  intros r Hr. by apply Hids, Href.
Qed.

Lemma serve_well_formed `{Runtime} now session req d :
  well_formed d ->
  well_formed (res_db (RunLocal.serve now session req d))
  /\ well_formed (res_db (Routes.serve now session req d)).
Proof.
  intros Hwf.
  assert (forall event_id,
            well_formed
              (res_db (RunLocal.register_event now event_id session d)))
    as Hregister.
  { intros event_id.
    destruct (register_event_inv now event_id session d)
      as [->|(e & st & Hget & _ & _ & _ & Hadd)]; [done|].
    by eapply well_formed_add_registration. }
  assert (forall event_id,
            well_formed (res_db (RunLocal.delete_event event_id session d)))
    as Hdelete.
  { intros event_id.
    destruct (delete_event_inv event_id session d)
      as [[->|(e & _ & ->)] _]; [done|].
    by apply well_formed_delete_event_row. }
  destruct req as [method form|method form|event_id|event_id|
                   |method form|method form|event_id method form|event_id|];
    simpl.
  - split.
    + handler_cases RunLocal.signup.
      match goal with
      | Hadd : add_student _ _ _ _ _ _ _ = Some _ |- _ =>
          apply add_student_Some in Hadd as (_ & Hev & Hregs)
      end.
      apply (well_formed_events d); [done| |done]. by rewrite Hev.
    + handler_cases Routes.signup.
      match goal with
      | Hadd : add_student _ _ _ _ _ _ _ = Some _ |- _ =>
          apply add_student_Some in Hadd as (_ & Hev & Hregs)
      end.
      apply (well_formed_events d); [done| |done]. by rewrite Hev.
  - by destruct (login_db method form session d) as (-> & -> & _).
  - destruct (register_event_same_effect now event_id session d) as [-> _].
    split; apply Hregister.
  - split; [|done].
    destruct (unregister_event_inv event_id session d)
      as [->|(st & reg & _ & _ & ->)]; [done|].
    by apply well_formed_filter.
  - done.
  - by destruct (login_db method form session d) as (_ & _ & -> & ->).
  - split.
    + handler_cases RunLocal.add_event.
      apply (well_formed_events d); [reflexivity| |done].
      intros k Hk. unfold event_added. simpl. rewrite fmap_app.
      apply elem_of_app. by left.
    + handler_cases Routes.add_event.
      apply (well_formed_events d); [reflexivity| |done].
      intros k Hk. unfold event_added. simpl. rewrite fmap_app.
      apply elem_of_app. by left.
  - split.
    + handler_cases RunLocal.edit_event.
      apply (well_formed_events d); [reflexivity| |done].
      intros k Hk. by rewrite event_updated_ids.
    + handler_cases Routes.edit_event.
      apply (well_formed_events d); [reflexivity| |done].
      intros k Hk. by rewrite event_updated_ids.
  - destruct (delete_event_inv event_id session d) as [_ ->].
    split; apply Hdelete.
  - done.
Qed.

Lemma run_well_formed `{Runtime} calls : forall d,
  well_formed d ->
  well_formed (run RunLocal.serve calls d)
  /\ well_formed (run Routes.serve calls d).
Proof.
  assert (forall serve,
            (forall now session req d,
               well_formed d ->
               well_formed (res_db (serve now session req d))) ->
            forall d, well_formed d -> well_formed (run serve calls d))
    as Hrun.
  { intros serve Hstep.
    induction calls as [|c calls IH]; intros d Hwf; [done|].
    rewrite run_cons. by apply IH, Hstep. }
  intros d Hwf. split; apply Hrun; try done.
  - intros. by apply serve_well_formed.
  - intros. by apply serve_well_formed.
Qed.

(** In a well-formed database the event of a registration is found. *)
Lemma well_formed_event_found d r :
  well_formed d -> r ∈ registrations d ->
  is_Some (query_get Event.event_id (events d) (Registration.event_id r)).
Proof. intros [_ Href] Hr. by apply query_get_elem_of, Href. Qed.

(** ** The example of the specification

    An event of capacity 1: Alice registers and succeeds, the event then
    counts one participant and is full; Bob registers and gets EventFull. *)
Example capacity_one :
  let first_call := RunLocal.register_event 100 1 (as_student alice) campus in
  let second_call :=
    RunLocal.register_event 101 1 (as_student bob) (res_db first_call) in
  Registered quiz first_call = true
  /\ current_participants (res_db first_call) quiz = 1
  /\ is_full (res_db first_call) quiz = true
  /\ EventFull second_call = true
  /\ res_db second_call = res_db first_call.
Proof. by vm_compute. Qed.

(** * More of the application *)

(** ** Signing up and logging in *)

Lemma found_first_filter {A B} `{EqDecision B} (f : A -> B) (v : B)
    (l : list A) :
  found (first (filter (fun x => f x = v) l)) = bool_decide (v ∈ f <$> l).
Proof.
  unfold first. destruct (filter _ l) as [|x rest] eqn:Hrows; simpl.
  - symmetry. apply bool_decide_eq_false. intros Hin.
    apply list_elem_of_fmap in Hin as (x & -> & Hx).
    assert (x ∈ filter (fun y => f y = f x) l) as Hin
      by (by apply list_elem_of_filter).
    rewrite Hrows in Hin. by apply elem_of_nil in Hin.
  - symmetry. apply bool_decide_eq_true.
    assert (x ∈ filter (fun y => f y = v) l) as Hin
      by (rewrite Hrows; apply elem_of_cons; by left).
    apply list_elem_of_filter in Hin as [<- Hx].
    by apply list_elem_of_fmap_2.
Qed.

Lemma add_student_new now name email roll dept pw d :
  email ∉ Student.email <$> students d ->
  roll ∉ Student.roll_number <$> students d ->
  add_student now name email roll dept pw d
  = Some (mkdb (students d
                  ++ [Student.mk (next_id (Student.student_id <$> students d))
                        name email roll dept pw now])
               (admins d) (events d) (registrations d)).
Proof.
  intros Hemail Hroll. unfold add_student.
  by rewrite !decide_False.
Qed.

Section SignupAnswers.
Context `{Runtime}.
Variables (now : Z) (form : form_t) (session : session_t) (d : database).

Lemma signup_accepted :
  signup_accepts form d ->
  RunLocal.signup now POST form session d
  = reply (signup_adds now form d) session "success"
          "Registration successful! Please login." (redirect "login")
  /\ Routes.signup now POST form session d
     = reply (signup_adds now form d) session "success"
             "Registration successful! Please log in." (redirect "login").
Proof.
  intros (Hall & Hsame & Hemail & Hroll).
  unfold RunLocal.signup, Routes.signup.
  rewrite Hall, (bool_decide_eq_false_2 _ (fun Hne => Hne Hsame)).
  rewrite !found_first_filter.
  rewrite (bool_decide_eq_false_2 _ Hemail), (bool_decide_eq_false_2 _ Hroll).
  simpl. by rewrite (add_student_new _ _ _ _ _ _ _ Hemail Hroll).
Qed.

Lemma signup_refused method r :
  r = RunLocal.signup now method form session d
  \/ r = Routes.signup now method form session d ->
  method = GET \/ ~ signup_accepts form d ->
  succeeded r = false /\ res_db r = d /\ res_session r = session.
Proof.
  intros Hr Hbad.
  assert (method = POST -> signup_accepts form d -> False) as Hno
    by (intros ->; destruct Hbad; [done|tauto]).
  assert (forall b, negb b = false -> b = true) as Hnegb
    by (by intros []).
  destruct Hr as [-> | ->].
  - handler_cases RunLocal.signup.
    + exfalso. apply Hno; [done|]. unfold signup_accepts.
      rewrite !found_first_filter in *.
      repeat match goal with
             | Hb : bool_decide _ = false |- _ =>
                 apply bool_decide_eq_false in Hb
             end.
      split; [by apply Hnegb|]. split; [|done].
      by destruct (decide (form !! "password" = form !! "confirm_password")).
  - handler_cases Routes.signup.
    + exfalso. apply Hno; [done|]. unfold signup_accepts.
      rewrite !found_first_filter in *.
      repeat match goal with
             | Hb : bool_decide _ = false |- _ =>
                 apply bool_decide_eq_false in Hb
             end.
      split; [by apply Hnegb|]. split; [|done].
      by destruct (decide (form !! "password" = form !! "confirm_password")).
Qed.
End SignupAnswers.

Lemma signup_accepts_dec form d :
  signup_accepts form d \/ ~ signup_accepts form d.
Proof.
  unfold signup_accepts.
  destruct (all [form !! "name"; form !! "email"; form !! "roll_number";
                 form !! "department"; form !! "password";
                 form !! "confirm_password"]);
    [|right; intros [? _]; done].
  destruct (decide (form !! "password" = form !! "confirm_password"));
    [|right; tauto].
  destruct (decide (str (form !! "email") ∈ Student.email <$> students d));
    [right; tauto|].
  destruct (decide (str (form !! "roll_number")
                    ∈ Student.roll_number <$> students d));
    [right; tauto|].
  left. tauto.
Qed.

(** X1. A sign-up (run_local.py and routes.py) goes through exactly when it
    is a POST whose six fields are all non-empty, whose two passwords agree
    and whose email and roll number are both new. It then appends one
    student, under a fresh key and with the hash of the password, and
    redirects to the login page; otherwise the database is left as it was.
    The session is never touched. *)
Theorem signup_goes_through_iff `{Runtime} :
  forall (now : Z) (method : http_method) (form : form_t)
    (session : session_t) (d : database) (r : result),
    r = RunLocal.signup now method form session d
    \/ r = Routes.signup now method form session d ->
    (succeeded r = true <-> method = POST /\ signup_accepts form d)
    /\ (succeeded r = true ->
        res_db r = signup_adds now form d
        /\ res_response r = redirect "login")
    /\ (succeeded r = false -> res_db r = d)
    /\ res_session r = session.
Proof.
  intros now method form session d r Hr.
  destruct method.
  - destruct (signup_refused now form session d GET r Hr)
      as (Hfail & Hdb & Hsession); [by left|].
    rewrite Hfail. split; [split; [done|by intros [? _]]|].
    split; [done|]. split; [done|done].
  - destruct (signup_accepts_dec form d) as [Hok | Hno].
    + destruct (signup_accepted now form session d Hok) as [Hlocal Hroutes].
      assert (succeeded r = true /\ res_db r = signup_adds now form d
              /\ res_response r = redirect "login"
              /\ res_session r = session) as (Hs & Hdb & Hresp & Hsession)
        by (destruct Hr as [-> | ->]; [rewrite Hlocal|rewrite Hroutes];
            done).
      rewrite Hs. split; [by split|]. split; [done|]. split; [done|done].
    + destruct (signup_refused now form session d POST r Hr)
        as (Hfail & Hdb & Hsession); [by right|].
      rewrite Hfail. split; [split; [done|by intros [_ ?]]|].
      split; [done|]. split; [done|done].
Qed.

Lemma signup_goes_through_iff_witness :
  let form := signup_form "Carol" "carol@college.edu" "R003" "s3cret"
                          "s3cret" in
  signup_accepts form campus
  /\ succeeded (@Routes.signup demo_runtime 100 POST form ∅ campus) = true.
Proof.
  intros form.
  assert (signup_accepts form campus) as Hok.
  { split; [reflexivity|]. split; [reflexivity|].
    split; apply (bool_decide_unpack _); vm_compute; exact I. }
  split; [exact Hok|].
  exact (proj2 (proj1 (@signup_goes_through_iff demo_runtime 100 POST form ∅
                         campus _ (or_intror eq_refl)))
               (conj eq_refl Hok)).
Defined.

Lemma query_get_key {A} (pk : A -> Z) (tbl : list A) (x : A) :
  NoDup (pk <$> tbl) -> x ∈ tbl -> query_get pk tbl (pk x) = Some x.
Proof.
  intros Hkey Hx. unfold query_get, first.
  induction tbl as [|y tbl IH]; [by apply elem_of_nil in Hx|].
  rewrite fmap_cons in Hkey. apply NoDup_cons in Hkey as [Hy Hkey].
  rewrite filter_cons. apply elem_of_cons in Hx as [->|Hx].
  - by rewrite decide_True.
  - rewrite decide_False; [by apply IH|].
    intros Heq. apply Hy. rewrite Heq. by apply list_elem_of_fmap_2.
Qed.

Section LoginAnswers.
Context `{Runtime}.
Variables (form : form_t) (session : session_t) (d : database).

Lemma login_accepted student :
  login_identifies form d = Some student ->
  RunLocal.login POST form session d
  = reply d (student_session student session) "success"
          ("Welcome back, " +:+ Student.name student +:+ "!")
          (redirect "student_dashboard")
  /\ Routes.login POST form session d
     = reply d (student_session student session) "success"
             ("Welcome back, " +:+ Student.name student +:+ "!")
             (redirect "student_dashboard").
Proof.
  unfold login_identifies, RunLocal.login, Routes.login. intros Hid.
  destruct (truthy (form !! "email")); [|done].
  destruct (truthy (form !! "password")); [|done]. simpl in *.
  destruct (first _) as [s|]; [|done].
  destruct (check_password_hash _ _); by simplify_eq.
Qed.

Lemma login_refused method r :
  r = RunLocal.login method form session d
  \/ r = Routes.login method form session d ->
  method = GET \/ login_identifies form d = None ->
  succeeded r = false /\ res_session r = session.
Proof.
  unfold login_identifies. intros Hr Hbad.
  destruct Hr as [-> | ->].
  - unfold RunLocal.login, reply. destruct method; [done|].
    destruct Hbad as [?|Hbad]; [done|].
    destruct (truthy (form !! "email")); [|done].
    destruct (truthy (form !! "password")); [|done]. simpl in *.
    destruct (first _) as [s|]; [|done].
    by destruct (check_password_hash _ _).
  - unfold Routes.login, reply. destruct method; [done|].
    destruct Hbad as [?|Hbad]; [done|].
    destruct (truthy (form !! "email")); [|done].
    destruct (truthy (form !! "password")); [|done]. simpl in *.
    destruct (first _) as [s|]; [|done].
    by destruct (check_password_hash _ _).
Qed.
End LoginAnswers.

Lemma student_session_identifies student session d :
  NoDup (Student.student_id <$> students d) ->
  student ∈ students d ->
  get_current_student (student_session student session) d = Some student.
Proof.
  intros Hkey Hin. unfold get_current_student, is_student_logged_in,
    student_session.
  rewrite lookup_insert_ne by done. rewrite lookup_insert_eq.
  rewrite bool_decide_eq_true_2 by (by eexists).
  by apply query_get_key.
Qed.

(** X2. A student log-in (run_local.py and routes.py) succeeds exactly when
    it is a POST with a non-empty email and password whose email belongs to
    a student and whose password passes [check_password_hash] against the
    hash of the first such student. The session then holds that student's
    id and name, and, the student ids being distinct, identifies that
    student on later requests; a refused log-in leaves the session as it
    was. Logging in never writes to the database. *)
Theorem login_succeeds_iff `{Runtime} :
  forall (method : http_method) (form : form_t) (session : session_t)
    (d : database) (r : result),
    r = RunLocal.login method form session d
    \/ r = Routes.login method form session d ->
    (succeeded r = true <->
     method = POST /\ is_Some (login_identifies form d))
    /\ (forall student,
          method = POST ->
          login_identifies form d = Some student ->
          res_session r = student_session student session
          /\ res_response r = redirect "student_dashboard"
          /\ (NoDup (Student.student_id <$> students d) ->
              get_current_student (res_session r) d = Some student))
    /\ (succeeded r = false -> res_session r = session)
    /\ res_db r = d.
Proof.
  intros method form session d r Hr.
  assert (res_db r = d) as Hdb
    by (destruct (login_db method form session d) as (Hl & Hr' & _);
        by destruct Hr as [-> | ->]).
  destruct method.
  - destruct (login_refused form session d GET r Hr) as [Hfail Hsession];
      [by left|].
    rewrite Hfail. split; [split; [done|by intros [? _]]|].
    split; [done|]. split; [done|done].
  - destruct (login_identifies form d) as [student|] eqn:Hid.
    + destruct (login_accepted form session d student Hid)
        as [Hlocal Hroutes].
      assert (succeeded r = true
              /\ res_session r = student_session student session
              /\ res_response r = redirect "student_dashboard")
        as (Hs & Hsession & Hresp)
        by (destruct Hr as [-> | ->]; [rewrite Hlocal|rewrite Hroutes];
            done).
      rewrite Hs. split; [by split|]. split; [|by split].
      intros student' _ [= <-]. split; [done|]. split; [done|].
      intros Hkey. rewrite Hsession.
      apply student_session_identifies; [done|].
      unfold login_identifies in Hid.
      destruct (truthy (form !! "email") && truthy (form !! "password"));
        [|done].
      destruct (first _) as [s|] eqn:Hfirst; [|done].
      destruct (check_password_hash _ _); [|done].
      simplify_eq. by apply first_filter_Some in Hfirst as [_ ?].
    + destruct (login_refused form session d POST r Hr)
        as [Hfail Hsession]; [by right|].
      rewrite Hfail. split; [split; [done|]|].
      * intros [_ [? ?]]. done.
      * split; [done|]. split; [done|done].
Qed.

Lemma login_succeeds_iff_witness :
  let form := login_form "email" "alice@college.edu" "pw" in
  let r := @RunLocal.login demo_runtime POST form ∅ campus in
  @login_identifies demo_runtime form campus = Some alice
  /\ NoDup (Student.student_id <$> students campus)
  /\ res_session r = student_session alice ∅
  /\ get_current_student (res_session r) campus = Some alice.
Proof.
  intros form r.
  assert (@login_identifies demo_runtime form campus = Some alice) as Hid
    by (vm_compute; reflexivity).
  assert (NoDup (Student.student_id <$> students campus)) as Hkey
    by (apply (bool_decide_unpack _); vm_compute; exact I).
  do 2 (split; [assumption|]).
  destruct (proj1 (proj2 (@login_succeeds_iff demo_runtime POST form ∅ campus
                            r (or_introl eq_refl)))
              alice eq_refl Hid) as (Hsession & _ & Hcurrent).
  split; [exact Hsession|exact (Hcurrent Hkey)].
Defined.

Lemma filter_not_elem {A B} `{EqDecision B} (f : A -> B) (v : B)
    (l : list A) :
  v ∉ f <$> l -> filter (fun x => f x = v) l = [].
Proof.
  intros Hv. apply elem_of_nil_inv. intros x Hx.
  apply list_elem_of_filter in Hx as [<- Hx].
  apply Hv. by apply list_elem_of_fmap_2.
Qed.

Lemma next_id_not_used (keys : list Z) : next_id keys ∉ keys.
Proof. intros Hin. apply next_id_fresh in Hin. lia. Qed.

Lemma all_truthy (vs : list (option string)) (v : option string) :
  all vs = true -> v ∈ vs -> truthy v = true.
Proof.
  unfold all. rewrite forallb_forall. intros Hall Hv.
  apply Hall. by apply list_elem_of_In.
Qed.

(** X3. A student who has just signed up can log in: when [check_password_hash]
    accepts every password against its own [generate_password_hash], a
    successful sign-up followed by a log-in with the same email and password
    (in either file) succeeds, and the session it leaves identifies the new
    student. *)
Theorem signup_then_login `{Runtime} :
  forall (now : Z) (form lform : form_t) (session session' : session_t)
    (d : database) (rs rl : result),
    (forall password,
       check_password_hash (generate_password_hash password) password = true) ->
    signup_accepts form d ->
    lform !! "email" = form !! "email" ->
    lform !! "password" = form !! "password" ->
    rs = RunLocal.signup now POST form session d
    \/ rs = Routes.signup now POST form session d ->
    rl = RunLocal.login POST lform session' (res_db rs)
    \/ rl = Routes.login POST lform session' (res_db rs) ->
    succeeded rl = true
    /\ exists student,
         get_current_student (res_session rl) (res_db rs) = Some student
         /\ student ∈ students (res_db rs)
         /\ Student.email student = str (form !! "email")
         /\ Student.name student = str (form !! "name")
         /\ Student.roll_number student = str (form !! "roll_number").
Proof.
  intros now form lform session session' d rs rl Hlaw Hok Hemail Hpw Hrs Hrl.
  destruct (signup_accepted now form session d Hok) as [Hlocal Hroutes].
  assert (res_db rs = signup_adds now form d) as Hdb
    by (destruct Hrs as [-> | ->]; [by rewrite Hlocal|by rewrite Hroutes]).
  rewrite Hdb in *. clear Hlocal Hroutes.
  destruct Hok as (Hall & _ & Hnew & _).
  set (student :=
         Student.mk (next_id (Student.student_id <$> students d))
           (str (form !! "name")) (str (form !! "email"))
           (str (form !! "roll_number")) (str (form !! "department"))
           (generate_password_hash (str (form !! "password"))) now).
  assert (login_identifies lform (signup_adds now form d) = Some student)
    as Hid.
  { unfold login_identifies, signup_adds. simpl. rewrite Hemail, Hpw.
    rewrite (all_truthy _ (form !! "email") Hall),
      (all_truthy _ (form !! "password") Hall)
      by (repeat (first [apply list_elem_of_here|apply list_elem_of_further])).
    simpl. rewrite filter_app, (filter_not_elem _ _ _ Hnew).
    rewrite filter_cons_True by done. simpl. by rewrite Hlaw. }
  destruct (login_accepted lform session' _ student Hid) as [Hl Hr].
  assert (succeeded rl = true
          /\ res_session rl = student_session student session')
    as [Hs ->]
    by (destruct Hrl as [-> | ->]; [rewrite Hl|rewrite Hr]; done).
  split; [done|]. exists student. split; [|split; [|done]].
  - unfold get_current_student, is_student_logged_in, student_session.
    rewrite lookup_insert_ne by done. rewrite lookup_insert_eq.
    rewrite bool_decide_eq_true_2 by (by eexists).
    unfold query_get, signup_adds. simpl.
    rewrite filter_app,
      (filter_not_elem _ _ _ (next_id_not_used _)).
    by rewrite filter_cons_True.
  - unfold signup_adds. simpl. apply elem_of_app. right.
    by apply list_elem_of_singleton.
Qed.

Lemma signup_then_login_witness :
  let form := signup_form "Carol" "carol@college.edu" "R003" "s3cret"
                          "s3cret" in
  let lform := login_form "email" "carol@college.edu" "s3cret" in
  let rs := @Routes.signup demo_runtime 100 POST form ∅ campus in
  (forall password,
     @check_password_hash demo_runtime
       (@generate_password_hash demo_runtime password) password = true)
  /\ signup_accepts form campus
  /\ succeeded (@Routes.login demo_runtime POST lform ∅ (res_db rs)) = true.
Proof.
  intros form lform rs.
  assert (forall password,
            @check_password_hash demo_runtime
              (@generate_password_hash demo_runtime password) password = true)
    as Hlaw by (intros password; simpl; by apply bool_decide_eq_true).
  assert (signup_accepts form campus) as Hok.
  { split; [reflexivity|]. split; [reflexivity|].
    split; apply (bool_decide_unpack _); vm_compute; exact I. }
  do 2 (split; [assumption|]).
  exact (proj1 (@signup_then_login demo_runtime 100 form lform ∅ ∅ campus
                  rs _ Hlaw Hok eq_refl eq_refl (or_intror eq_refl)
                  (or_intror eq_refl))).
Defined.

(** ** Seats *)

(** A registration that succeeded passed every check. *)
Lemma register_event_succeeded now event_id session d r :
  r = RunLocal.register_event now event_id session d
  \/ r = Routes.register_event now event_id session d ->
  succeeded r = true ->
  exists e student,
    query_get Event.event_id (events d) event_id = Some e
    /\ is_full d e = false
    /\ is_past now e = false
    /\ get_current_student session d = Some student
    /\ registrations_by event_id (Student.student_id student)
         (registrations d) = []
    /\ res_db r
       = mkdb (students d) (admins d) (events d)
           (registrations d
              ++ [Registration.mk
                    (next_id (Registration.reg_id <$> registrations d))
                    event_id (Student.student_id student) now]).
Proof.
  intros Hr Hok.
  destruct (is_student_logged_in session) eqn:Hin.
  2:{ destruct (register_event_anonymous now event_id session d Hin)
        as [Hl Hr'].
      destruct Hr as [-> | ->]; [rewrite Hl in Hok|rewrite Hr' in Hok];
        by vm_compute in Hok. }
  destruct (query_get Event.event_id (events d) event_id) as [e|] eqn:Hget.
  2:{ destruct (register_event_not_found now event_id session d Hin Hget)
        as [Hl Hr'].
      destruct Hr as [-> | ->]; [rewrite Hl in Hok|rewrite Hr' in Hok];
        by vm_compute in Hok. }
  destruct (is_full d e) eqn:Hfull.
  { destruct (register_event_full now event_id session d Hin e Hget Hfull)
      as [Hl Hr'].
    destruct Hr as [-> | ->]; [rewrite Hl in Hok|rewrite Hr' in Hok];
      by vm_compute in Hok. }
  destruct (is_past now e) eqn:Hpast.
  { destruct (register_event_past now event_id session d Hin e Hget Hfull
                Hpast) as [Hl Hr'].
    destruct Hr as [-> | ->]; [rewrite Hl in Hok|rewrite Hr' in Hok];
      by vm_compute in Hok. }
  destruct (get_current_student session d) as [student|] eqn:Hstudent.
  2:{ destruct Hr as [-> | ->];
        unfold RunLocal.register_event, Routes.register_event in Hok;
        rewrite Hin, Hget, Hfull, Hpast, Hstudent in Hok;
        by vm_compute in Hok. }
  destruct (registrations_by event_id (Student.student_id student)
              (registrations d)) as [|x rest] eqn:Hpair.
  2:{ destruct (register_event_duplicate now event_id session d Hin e Hget
                  Hfull Hpast student Hstudent) as [Hl Hr'];
        [by rewrite Hpair|].
      destruct Hr as [-> | ->]; [rewrite Hl in Hok|rewrite Hr' in Hok];
        by vm_compute in Hok. }
  destruct (register_event_fresh now event_id session d Hin e Hget
              Hfull Hpast student Hstudent Hpair) as [Hl Hr'].
  exists e, student. repeat (split; [done|]).
  destruct Hr as [-> | ->]; [by rewrite Hl|by rewrite Hr'].
Qed.

Lemma database_eta d :
  mkdb (students d) (admins d) (events d) (registrations d) = d.
Proof. by destruct d. Qed.

(** X4. Unregistering undoes registering (run_local.py): after a successful
    [register_event], the same student's [unregister_event] for the same
    event succeeds and leaves the database exactly as it was before the
    registration. *)
Theorem register_then_unregister :
  forall (now event_id : Z) (session : session_t) (d : database),
    succeeded (RunLocal.register_event now event_id session d) = true ->
    let d' := res_db (RunLocal.register_event now event_id session d) in
    succeeded (RunLocal.unregister_event event_id session d') = true
    /\ res_db (RunLocal.unregister_event event_id session d') = d.
Proof.
  intros now event_id session d Hok d'. subst d'.
  destruct (register_event_succeeded now event_id session d _
              (or_introl eq_refl) Hok)
    as (e & student & Hget & _ & _ & Hstudent & Hpair & ->).
  set (row := Registration.mk _ _ _ _).
  set (d' := mkdb _ _ _ _).
  assert (get_current_student session d' = Some student) as Hstudent'
    by done.
  assert (first (registrations_by event_id (Student.student_id student)
                   (registrations d')) = Some row) as Hrow.
  { unfold registrations_by, d' in *. simpl.
    rewrite filter_app, Hpair. by rewrite filter_cons_True. }
  rewrite (unregister_event_present event_id session d' student Hstudent'
             row e Hrow Hget).
  split; [done|]. simpl. unfold delete_registration, d'. simpl.
  rewrite filter_app, filter_cons_False by (intros Hne; by apply Hne).
  rewrite filter_nil, app_nil_r, filter_all; [apply database_eta|].
  apply Forall_forall. intros x Hx Heq.
  apply (next_id_not_used (Registration.reg_id <$> registrations d)).
  unfold row in Heq. simpl in Heq. rewrite <-Heq.
  by apply list_elem_of_fmap_2.
Qed.

Lemma register_then_unregister_witness :
  succeeded (RunLocal.register_event 100 2 (as_student bob) campus_quiz_full)
  = true
  /\ res_db (RunLocal.unregister_event 2 (as_student bob)
               (res_db (RunLocal.register_event 100 2 (as_student bob)
                          campus_quiz_full)))
     = campus_quiz_full.
Proof.
  assert (succeeded (RunLocal.register_event 100 2 (as_student bob)
                       campus_quiz_full) = true) as Hok
    by (vm_compute; reflexivity).
  split; [exact Hok|].
  exact (proj2 (register_then_unregister 100 2 (as_student bob)
                  campus_quiz_full Hok)).
Defined.

(** X5. A successful registration (run_local.py and routes.py) takes exactly
    one seat of the event asked for and none of any other event: the count
    of the event with that id grows by one, every other count stays. *)
Theorem register_takes_one_seat :
  forall (now event_id : Z) (session : session_t) (d : database)
    (r : result) (e : Event.t),
    r = RunLocal.register_event now event_id session d
    \/ r = Routes.register_event now event_id session d ->
    succeeded r = true ->
    current_participants (res_db r) e
    = current_participants d e
      + (if decide (Event.event_id e = event_id) then 1 else 0).
Proof.
  intros now event_id session d r e Hr Hok.
  destruct (register_event_succeeded now event_id session d r Hr Hok)
    as (_ & student & _ & _ & _ & _ & _ & ->).
  rewrite current_participants_add. simpl.
  destruct (decide (event_id = Event.event_id e)) as [->|Hne].
  - by rewrite decide_True.
  - by rewrite decide_False.
Qed.

Lemma register_takes_one_seat_witness :
  let r := Routes.register_event 100 2 (as_student bob) campus_quiz_full in
  succeeded r = true
  /\ current_participants (res_db r) talk = 1
  /\ current_participants (res_db r) quiz = 1.
Proof.
  intros r.
  assert (succeeded r = true) as Hok by (vm_compute; reflexivity).
  split; [exact Hok|]. split.
  - exact (register_takes_one_seat 100 2 (as_student bob) campus_quiz_full
             r talk (or_intror eq_refl) Hok).
  - exact (register_takes_one_seat 100 2 (as_student bob) campus_quiz_full
             r quiz (or_intror eq_refl) Hok).
Defined.

(** X6. Unregistering frees exactly one seat (run_local.py): when [reg_id]
    is a key, the event's count drops by one, so an event that was within
    its capacity, full included, is not full afterwards. *)
Theorem unregister_frees_one_seat :
  forall (event_id : Z) (session : session_t) (d : database)
    (student : Student.t) (registration : Registration.t) (e : Event.t),
    get_current_student session d = Some student ->
    first (registrations_by event_id (Student.student_id student)
             (registrations d)) = Some registration ->
    query_get Event.event_id (events d) event_id = Some e ->
    reg_id_key (registrations d) ->
    let d' := res_db (RunLocal.unregister_event event_id session d) in
    current_participants d' e = current_participants d e - 1
    /\ (within_capacity d e -> is_full d' e = false).
Proof.
  intros event_id session d student registration e Hstudent Hreg Hget Hkey
    d'. subst d'.
  rewrite (unregister_event_present event_id session d student Hstudent
             registration e Hreg Hget).
  apply first_filter_Some in Hreg as [[Hevent _] Hin].
  apply query_get_Some in Hget as [Hid _].
  destruct (delete_registration_exact registration d Hin Hkey)
    as (before & after & Hsplit & Hrest).
  assert (current_participants
            (delete_registration registration d) e
          = current_participants d e - 1) as Hcount.
  { unfold current_participants, event_registrations.
    rewrite Hrest, Hsplit.
    rewrite !filter_app, filter_cons_True by congruence.
    rewrite !length_app. simpl. lia. }
  simpl. split; [done|].
  unfold within_capacity, is_full. intros Hcap. rewrite Hcount.
  apply bool_decide_eq_false. lia.
Qed.

Lemma unregister_frees_one_seat_witness :
  let d' := res_db (RunLocal.unregister_event 1 (as_student alice)
                      campus_quiz_full) in
  is_full campus_quiz_full quiz = true
  /\ within_capacity campus_quiz_full quiz
  /\ current_participants d' quiz = current_participants campus_quiz_full quiz - 1
  /\ is_full d' quiz = false.
Proof.
  intros d'.
  assert (within_capacity campus_quiz_full quiz) as Hcap
    by (vm_compute; discriminate).
  assert (reg_id_key (registrations campus_quiz_full)) as Hkey
    by (unfold reg_id_key; simpl; apply NoDup_singleton).
  split; [reflexivity|]. split; [exact Hcap|].
  destruct (unregister_frees_one_seat 1 (as_student alice) campus_quiz_full
              alice (Registration.mk 1 1 1 500) quiz eq_refl eq_refl eq_refl
              Hkey) as [Hcount Hopen].
  split; [exact Hcount|exact (Hopen Hcap)].
Defined.

(** ** What a request may do to the database *)

Lemma is_admin_logged_in_negb session :
  negb (is_admin_logged_in session) = false ->
  is_admin_logged_in session = true.
Proof. by destruct (is_admin_logged_in session). Qed.

Lemma serve_transition `{Runtime} now session req d :
  transition true now session d (res_db (RunLocal.serve now session req d))
  /\ transition false now session d
       (res_db (Routes.serve now session req d)).
Proof.
  assert (forall checked event_id,
            transition checked now session d
              (res_db (RunLocal.register_event now event_id session d)))
    as Hregister.
  { intros checked event_id.
    destruct (register_event_inv now event_id session d)
      as [->|(e & st & Hget & Hfull & Hpast & Hst & Hadd)]; [constructor|].
    by eapply transition_register. }
  assert (forall checked event_id,
            transition checked now session d
              (res_db (RunLocal.delete_event event_id session d)))
    as Hdelete.
  { intros checked event_id. unfold RunLocal.delete_event, reply.
    destruct (negb (is_admin_logged_in session)) eqn:Hin; [constructor|].
    apply is_admin_logged_in_negb in Hin.
    destruct (query_get _ _ _) as [e|] eqn:Hget; [|constructor].
    simpl. by eapply transition_delete_event. }
  destruct req as [method form|method form|event_id|event_id|
                   |method form|method form|event_id method form|event_id|];
    simpl.
  - split.
    + handler_cases RunLocal.signup; try constructor.
      by eapply transition_signup.
    + handler_cases Routes.signup; try constructor.
      by eapply transition_signup.
  - destruct (login_db method form session d) as (-> & -> & _).
    split; constructor.
  - destruct (register_event_same_effect now event_id session d) as [-> _].
    split; apply Hregister.
  - split; [|constructor].
    destruct (unregister_event_inv event_id session d)
      as [->|(st & reg & Hst & Hreg & ->)]; [constructor|].
    by eapply transition_unregister.
  - split; constructor.
  - destruct (login_db method form session d) as (_ & _ & -> & ->).
    split; constructor.
  - split.
    + unfold RunLocal.add_event, reply, add_event_row.
      destruct (negb (is_admin_logged_in session)) eqn:Hin; [constructor|].
      apply is_admin_logged_in_negb in Hin.
      repeat case_match; simplify_eq; simpl; try apply transition_same.
      apply transition_add_event; [done|]. intros _.
      repeat match goal with
      | Hb : bool_decide _ = false |- _ => apply bool_decide_eq_false in Hb
      end. lia.
    + unfold Routes.add_event, reply, add_event_row.
      destruct (negb (is_admin_logged_in session)) eqn:Hin; [constructor|].
      apply is_admin_logged_in_negb in Hin.
      repeat case_match; simplify_eq; simpl; try apply transition_same.
      by apply transition_add_event.
  - split.
    + unfold RunLocal.edit_event, reply, update_event_row.
      destruct (negb (is_admin_logged_in session)) eqn:Hin; [constructor|].
      apply is_admin_logged_in_negb in Hin.
      destruct (query_get _ _ _) as [e|] eqn:Hget; [|constructor].
      repeat case_match; simplify_eq; simpl; try apply transition_same.
      eapply transition_edit_event; [done|exact Hget|].
      intros _.
      repeat match goal with
      | Hb : bool_decide _ = false |- _ => apply bool_decide_eq_false in Hb
      end. lia.
    + unfold Routes.edit_event, reply, update_event_row.
      destruct (negb (is_admin_logged_in session)) eqn:Hin; [constructor|].
      apply is_admin_logged_in_negb in Hin.
      destruct (query_get _ _ _) as [e|] eqn:Hget; [|constructor].
      repeat case_match; simplify_eq; simpl; try apply transition_same.
      by eapply transition_edit_event.
  - destruct (delete_event_inv event_id session d) as [_ ->].
    split; apply Hdelete.
  - split; constructor.
Qed.

Lemma run_invariant (serve : Z -> session_t -> request -> database -> result)
    (P : database -> Prop) :
  (forall now session req d, P d -> P (res_db (serve now session req d))) ->
  forall calls d, P d -> P (run serve calls d).
Proof.
  intros Hstep calls.
  induction calls as [|c calls IH]; intros d Hd; [done|].
  rewrite run_cons. by apply IH, Hstep.
Qed.

Lemma serve_transition_either `{Runtime} now session req d r :
  r = RunLocal.serve now session req d \/ r = Routes.serve now session req d ->
  exists checked, transition checked now session d (res_db r).
Proof.
  destruct (serve_transition now session req d) as [Hl Hr].
  intros [-> | ->]; eauto.
Qed.

Lemma add_student_inv now name email roll dept pw d d' :
  add_student now name email roll dept pw d = Some d' ->
  (email ∉ Student.email <$> students d)
  /\ (roll ∉ Student.roll_number <$> students d)
  /\ d' = mkdb (students d
                  ++ [Student.mk (next_id (Student.student_id <$> students d))
                        name email roll dept pw now])
               (admins d) (events d) (registrations d).
Proof.
  unfold add_student. intros Hadd. repeat case_decide; by simplify_eq.
Qed.

Lemma is_student_logged_in_false session d :
  is_student_logged_in session = false -> get_current_student session d = None.
Proof. unfold get_current_student. by intros ->. Qed.

(** X7. What a request can reach (run_local.py and routes.py): no route
    changes the admins table; students are only appended, never altered or
    deleted; the events table changes only for a session with [admin_id];
    and a session with neither [student_id] nor [admin_id] leaves the
    registrations as they are. *)
Theorem request_touches_only_its_tables `{Runtime} :
  forall (now : Z) (session : session_t) (req : request) (d : database)
    (r : result),
    r = RunLocal.serve now session req d
    \/ r = Routes.serve now session req d ->
    admins (res_db r) = admins d
    /\ students d `prefix_of` students (res_db r)
    /\ (is_admin_logged_in session = false ->
        events (res_db r) = events d)
    /\ (is_student_logged_in session = false ->
        is_admin_logged_in session = false ->
        registrations (res_db r) = registrations d).
Proof.
  intros now session req d r Hr.
  destruct (serve_transition_either now session req d r Hr) as [c Ht].
  destruct Ht as [|n e ro de pw d' Hadd|k e st d' _ _ _ Hst Hadd
                  |k st reg Hst _| | |]; simpl.
  - done.
  - apply add_student_inv in Hadd as (_ & _ & ->). simpl.
    split; [done|]. split; [by apply prefix_app_r|done].
  - apply add_registration_Some in Hadd as [_ ->]. simpl.
    do 3 (split; [done|]). intros Hout.
    by rewrite (is_student_logged_in_false _ d Hout) in Hst.
  - do 3 (split; [done|]). intros Hout.
    by rewrite (is_student_logged_in_false _ d Hout) in Hst.
  - do 2 (split; [done|]). split; congruence.
  - do 2 (split; [done|]). split; congruence.
  - do 2 (split; [done|]). split; congruence.
Qed.

Lemma request_touches_only_its_tables_witness :
  let r := @Routes.serve demo_runtime 100 ∅ (RegisterEvent 2)
             campus_quiz_full in
  admins (res_db r) = admins campus_quiz_full
  /\ events (res_db r) = events campus_quiz_full
  /\ registrations (res_db r) = registrations campus_quiz_full.
Proof.
  intros r.
  destruct (@request_touches_only_its_tables demo_runtime 100 ∅
              (RegisterEvent 2) campus_quiz_full r (or_intror eq_refl))
    as (Hadmins & _ & Hevents & Hregs).
  split; [exact Hadmins|].
  split; [exact (Hevents eq_refl)|exact (Hregs eq_refl eq_refl)].
Defined.

Lemma transition_keys checked now session d d' :
  transition checked now session d d' ->
  students_unique (students d) /\ event_id_key (events d) ->
  students_unique (students d') /\ event_id_key (events d').
Proof.
  intros Ht [(Hid & Hemail & Hroll) Hev].
  unfold students_unique, event_id_key in *.
  destruct Ht as [|n e ro de pw d' Hadd|k e st d' _ _ _ _ Hadd
                  |k st reg _ _| | |]; simpl.
  - done.
  - apply add_student_inv in Hadd as (Hnew & Hnew' & ->). simpl.
    split; [|done]. rewrite !fmap_app. simpl.
    split; [|split]; apply NoDup_app; (split; [done|]);
      (split; [|apply NoDup_singleton]); intros x Hx Hx';
      apply list_elem_of_singleton in Hx'; subst x; try done.
    by apply next_id_not_used in Hx.
  - apply add_registration_Some in Hadd as [_ ->]. done.
  - done.
  - split; [done|]. rewrite fmap_app. apply NoDup_app. split; [done|].
    split; [|apply NoDup_singleton]. intros x Hx Hx'.
    apply list_elem_of_singleton in Hx'. subst x. simpl in Hx.
    by apply next_id_not_used in Hx.
  - split; [done|]. rewrite <-list_fmap_compose.
    replace (_ <$> events d) with (Event.event_id <$> events d); [done|].
    apply list_fmap_ext. intros i x _. simpl. by case_decide.
  - split; [done|]. eapply sublist_NoDup; [exact Hev|].
    apply fmap_sublist, sublist_filter.
Qed.

(** X8. The unique columns stay unique (run_local.py and routes.py): from a
    database in which [student_id], [email] and [roll_number] each identify
    a student, [event_id] an event and [reg_id] a registration, and every
    registration refers to an event, every sequence of requests leads to a
    database with the same properties. The checks of [signup] are what keeps
    the commit from raising on [email] and [roll_number]. *)
Theorem keys_stay_unique `{Runtime} :
  forall (calls : list call) (d : database) (d' : database),
    d' = run RunLocal.serve calls d \/ d' = run Routes.serve calls d ->
    students_unique (students d) ->
    event_id_key (events d) ->
    well_formed d ->
    students_unique (students d') /\ event_id_key (events d')
    /\ well_formed d'.
Proof.
  intros calls d d' Hd' Hst Hev Hwf.
  set (P := fun x : database =>
              (students_unique (students x) /\ event_id_key (events x))
              /\ well_formed x).
  assert (P d') as [[? ?] ?]; [|done].
  destruct Hd' as [-> | ->]; apply run_invariant; try done.
  - intros now session req x [Hkeys Hx]. split.
    + eapply transition_keys; [|exact Hkeys].
      apply (serve_transition now session req x).
    + by apply serve_well_formed.
  - intros now session req x [Hkeys Hx]. split.
    + eapply transition_keys; [|exact Hkeys].
      apply (serve_transition now session req x).
    + by apply serve_well_formed.
Qed.

Lemma campus_quiz_full_keys :
  students_unique (students campus_quiz_full)
  /\ event_id_key (events campus_quiz_full)
  /\ well_formed campus_quiz_full.
Proof.
  split; [|split; [|split]].
  - split; [|split]; apply (bool_decide_unpack _); vm_compute; exact I.
  - apply (bool_decide_unpack _); vm_compute; exact I.
  - apply (bool_decide_unpack _); vm_compute; exact I.
  - intros r Hr. apply list_elem_of_singleton in Hr as ->.
    apply (bool_decide_unpack _); vm_compute; exact I.
Defined.

Lemma keys_stay_unique_witness :
  let calls := [mkcall 100 (as_student bob) (RegisterEvent 2);
                mkcall 101 (as_admin root) (DeleteEvent 1);
                mkcall 102 ∅
                  (Signup POST (signup_form "Carol" "carol@college.edu"
                                  "R003" "s3cret" "s3cret"))] in
  let d' := run (@Routes.serve demo_runtime) calls campus_quiz_full in
  students_unique (students d') /\ event_id_key (events d')
  /\ well_formed d'.
Proof.
  intros calls d'.
  destruct campus_quiz_full_keys as (Hst & Hev & Hwf).
  exact (@keys_stay_unique demo_runtime calls campus_quiz_full d'
           (or_intror eq_refl) Hst Hev Hwf).
Defined.

(** ** Capacities over every route of run_local.py *)

Lemma query_get_snoc {A} (pk : A -> Z) (tbl : list A) (x : A) (k : Z) :
  query_get pk (tbl ++ [x]) k
  = match query_get pk tbl k with
    | Some y => Some y
    | None => if decide (pk x = k) then Some x else None
    end.
Proof.
  unfold query_get, first. rewrite filter_app.
  destruct (filter _ tbl) as [|y rest]; simpl; [|done].
  rewrite filter_cons, filter_nil. by case_decide.
Qed.

Lemma query_get_update_row (e' : Event.t) (tbl : list Event.t) (k : Z) :
  query_get Event.event_id
    ((fun x => if decide (Event.event_id x = Event.event_id e')
               then e' else x) <$> tbl) k
  = (fun x => if decide (Event.event_id x = Event.event_id e')
              then e' else x) <$> query_get Event.event_id tbl k.
Proof.
  unfold query_get, first.
  induction tbl as [|a l IH]; [done|].
  rewrite fmap_cons, !filter_cons.
  repeat (case_decide; simpl); try done; congruence.
Qed.

Lemma query_get_filter_other {A} (pk : A -> Z) (tbl : list A) (id k : Z)
    (x : A) :
  query_get pk (filter (fun y => pk y <> id) tbl) k = Some x ->
  query_get pk tbl k = Some x.
Proof.
  unfold query_get, first.
  induction tbl as [|a l IH]; [done|].
  rewrite (filter_cons (fun y => pk y <> id)).
  destruct (decide (pk a = id)) as [Ha|Ha].
  - rewrite decide_False by (intros Hne; by apply Hne).
    rewrite (filter_cons (fun row => pk row = k)).
    intros Hget. pose proof Hget as Hfound.
    apply first_filter_Some in Hfound as [Hk Hx].
    apply list_elem_of_filter in Hx as [Hne _].
    rewrite decide_False by congruence. by apply IH.
  - rewrite decide_True by done.
    rewrite !filter_cons. case_decide; [done|apply IH].
Qed.

Lemma current_participants_filter (P : Registration.t -> Prop)
    `{!forall x, Decision (P x)} d tbl e :
  current_participants
    (mkdb (students d) (admins d) tbl (filter P (registrations d))) e
  <= current_participants d e.
Proof.
  unfold current_participants, event_registrations. simpl.
  apply inj_le, length_filter_filter.
Qed.

Lemma referential_unused d e :
  referential d ->
  (Event.event_id e ∉ Event.event_id <$> events d) ->
  current_participants d e = 0.
Proof.
  intros Href Hnew. unfold current_participants, event_registrations.
  rewrite (filter_not_elem Registration.event_id); [done|].
  intros Hin. apply list_elem_of_fmap in Hin as (r & Hid & Hr).
  apply Hnew. rewrite Hid. by apply Href.
Qed.

Lemma transition_within_capacity now session d d' :
  transition true now session d d' ->
  referential d -> all_within_capacity d -> all_within_capacity d'.
Proof.
  intros Ht Href Hcap.
  destruct Ht as [|n em ro de pw d' Hadd|k ev st d' Hget Hfull _ _ Hadd
                  |k st reg _ _
                  |t de da v dep m _ Hchk|k ev t de da v dep m _ Hget Hchk
                  |k ev _ Hget]; intros i e Hi.
  - by apply (Hcap i).
  - apply add_student_inv in Hadd as (_ & _ & ->). by apply (Hcap i).
  - apply add_registration_Some in Hadd as [_ ->]. simpl in Hi.
    unfold within_capacity. rewrite current_participants_add. simpl.
    specialize (Hcap i e Hi). unfold within_capacity in Hcap.
    case_decide as Hid; [|lia].
    apply query_get_Some in Hi as Hk. destruct Hk as [Hk _].
    assert (ev = e) as -> by congruence.
    unfold is_full in Hfull. apply bool_decide_eq_false in Hfull. lia.
  - simpl in Hi. specialize (Hcap i e Hi).
    unfold within_capacity, delete_registration in *.
    etrans; [apply current_participants_filter; apply _|done].
  - unfold event_added in Hi. simpl in Hi. rewrite query_get_snoc in Hi.
    destruct (query_get Event.event_id (events d) i) as [y|] eqn:Hy.
    + simplify_eq. by apply (Hcap i).
    + case_decide; [|done]. simplify_eq.
      unfold within_capacity. destruct (Hchk eq_refl) as [Hm _].
      assert (current_participants d
                (Event.mk (next_id (Event.event_id <$> events d)) t de da v
                   dep m now) = 0) as Hzero
        by (apply referential_unused; [done|apply next_id_not_used]).
      unfold current_participants, event_registrations, event_added in *.
      simpl in *. lia.
  - unfold event_updated in Hi. cbn [events] in Hi.
    rewrite query_get_update_row in Hi.
    destruct (query_get Event.event_id (events d) i) as [y|] eqn:Hy;
      [|done].
    simpl in Hi. case_decide as Hid; simplify_eq.
    + unfold within_capacity. destruct (Hchk eq_refl) as [_ Hm].
      unfold current_participants, event_registrations in *. simpl in *.
      done.
    + by apply (Hcap i).
  - unfold delete_event_row in Hi. simpl in Hi.
    apply query_get_filter_other in Hi. specialize (Hcap i e Hi).
    unfold within_capacity, delete_event_row in *.
    etrans; [apply current_participants_filter; apply _|done].
Qed.

(** X9. run_local.py keeps every event within its capacity, whatever the
    requests: from a well-formed database in which no event holds more
    registrations than [max_participants], every sequence of requests
    (register, unregister, add, edit and delete an event, sign up, log in
    and out, in any order and by any session) leads to a database with the
    same property. The checks of [register_event], [add_event] and
    [edit_event] are what it rests on. *)
Theorem run_local_keeps_every_event_within_capacity `{Runtime} :
  forall (calls : list call) (d : database),
    well_formed d ->
    all_within_capacity d ->
    all_within_capacity (run RunLocal.serve calls d).
Proof.
  intros calls d Hwf Hcap.
  set (P := fun x : database => well_formed x /\ all_within_capacity x).
  assert (P (run RunLocal.serve calls d)) as [_ ?]; [|done].
  apply run_invariant; [|done].
  intros now session req x [Hx Hc]. split.
  - by apply serve_well_formed.
  - eapply transition_within_capacity; [|apply Hx|exact Hc].
    apply (serve_transition now session req x).
Qed.

Lemma transition_capacities_positive now session d d' :
  transition true now session d d' ->
  capacities_positive (events d) -> capacities_positive (events d').
Proof.
  intros Ht Hpos.
  destruct Ht as [|n em ro de pw d' Hadd|k ev st d' _ _ _ _ Hadd
                  |k st reg _ _
                  |t de da v dep m _ Hchk|k ev t de da v dep m _ Hget Hchk
                  |k ev _ Hget]; intros e He.
  - by apply Hpos.
  - apply add_student_inv in Hadd as (_ & _ & ->). by apply Hpos.
  - apply add_registration_Some in Hadd as [_ ->]. by apply Hpos.
  - by apply Hpos.
  - unfold event_added in He. simpl in He.
    apply elem_of_app in He as [He|He]; [by apply Hpos|].
    apply list_elem_of_singleton in He as ->. simpl.
    by destruct (Hchk eq_refl).
  - unfold event_updated in He. simpl in He.
    apply list_elem_of_fmap in He as (x & -> & Hx).
    case_decide; [|by apply Hpos]. simpl. by destruct (Hchk eq_refl).
  - unfold delete_event_row in He. simpl in He.
    apply list_elem_of_filter in He as [_ He]. by apply Hpos.
Qed.

(** X10. run_local.py never stores an event without a seat: when every
    event has [max_participants >= 1], so has every event after any
    sequence of requests. *)
Theorem run_local_capacities_stay_positive `{Runtime} :
  forall (calls : list call) (d : database),
    capacities_positive (events d) ->
    capacities_positive (events (run RunLocal.serve calls d)).
Proof.
  intros calls d Hpos.
  apply (run_invariant RunLocal.serve
           (fun x => capacities_positive (events x))); [|done].
  intros now session req x Hx.
  eapply transition_capacities_positive; [|exact Hx].
  apply (serve_transition now session req x).
Qed.

Lemma campus_quiz_full_within_capacity :
  all_within_capacity campus_quiz_full
  /\ capacities_positive (events campus_quiz_full).
Proof.
  split.
  - intros k e Hget. apply query_get_Some in Hget as [_ He].
    apply elem_of_cons in He as [->|He]; [vm_compute; discriminate|].
    apply list_elem_of_singleton in He as ->. vm_compute; discriminate.
  - intros e He.
    apply elem_of_cons in He as [->|He]; [vm_compute; discriminate|].
    apply list_elem_of_singleton in He as ->. vm_compute; discriminate.
Defined.

Lemma run_local_keeps_every_event_within_capacity_witness :
  let calls :=
    [mkcall 100 (as_student bob) (RegisterEvent 1);
     mkcall 101 (as_admin root)
       (EditEvent 1 POST (event_form "Quiz" "2030-01-01T10:00" "0"));
     mkcall 102 (as_admin root)
       (AddEvent POST (event_form "Fair" "2030-01-01T10:00" "3"));
     mkcall 103 (as_student bob) (RegisterEvent 3)] in
  all_within_capacity (run (@RunLocal.serve demo_runtime) calls
                         campus_quiz_full).
Proof.
  intros calls.
  exact (@run_local_keeps_every_event_within_capacity demo_runtime calls
           campus_quiz_full (proj2 (proj2 campus_quiz_full_keys))
           (proj1 campus_quiz_full_within_capacity)).
Defined.

Lemma run_local_capacities_stay_positive_witness :
  let calls :=
    [mkcall 101 (as_admin root)
       (EditEvent 1 POST (event_form "Quiz" "2030-01-01T10:00" "0"));
     mkcall 102 (as_admin root)
       (AddEvent POST (event_form "Fair" "2030-01-01T10:00" "0"))] in
  capacities_positive
    (events (run (@RunLocal.serve demo_runtime) calls campus_quiz_full)).
Proof.
  intros calls.
  exact (@run_local_capacities_stay_positive demo_runtime calls
           campus_quiz_full (proj2 campus_quiz_full_within_capacity)).
Defined.

(** ** Sessions and the students they name *)

Lemma transition_people checked now session d d' :
  transition checked now session d d' ->
  students d `prefix_of` students d' /\ admins d' = admins d.
Proof.
  intros Ht.
  destruct Ht as [|n em ro de pw d' Hadd|k ev st d' _ _ _ _ Hadd
                  |k st reg _ _| | |]; simpl; try done.
  - apply add_student_inv in Hadd as (_ & _ & ->). simpl.
    split; [by apply prefix_app_r|done].
  - by apply add_registration_Some in Hadd as [_ ->].
Qed.

Lemma query_get_prefix {A} (pk : A -> Z) (tbl tbl' : list A) (k : Z) (x : A) :
  tbl `prefix_of` tbl' ->
  query_get pk tbl k = Some x -> query_get pk tbl' k = Some x.
Proof.
  intros [rest ->]. unfold query_get, first. rewrite filter_app.
  by destruct (filter _ tbl).
Qed.

(** X11. A session stays valid (run_local.py and routes.py): no sequence of
    requests, by whatever sessions, removes or changes the student or the
    admin a session names. [get_current_student] keeps returning the same
    student, so the [AttributeError] of a missing student is not reached
    through the routes themselves. *)
Theorem sessions_stay_valid `{Runtime} :
  forall (calls : list call) (d d' : database) (session : session_t),
    d' = run RunLocal.serve calls d \/ d' = run Routes.serve calls d ->
    (forall student,
       get_current_student session d = Some student ->
       get_current_student session d' = Some student)
    /\ get_current_admin session d' = get_current_admin session d.
Proof.
  intros calls d d' session Hd'.
  set (P := fun x : database =>
              students d `prefix_of` students x /\ admins x = admins d).
  assert (P d') as [Hst Had].
  { destruct Hd' as [-> | ->]; apply run_invariant; try done.
    - intros now s req x [Hp Ha].
      destruct (transition_people true now s x _
                  (proj1 (serve_transition now s req x))) as [Hp' Ha'].
      split; [by etrans|congruence].
    - intros now s req x [Hp Ha].
      destruct (transition_people false now s x _
                  (proj2 (serve_transition now s req x))) as [Hp' Ha'].
      split; [by etrans|congruence]. }
  split.
  - intros student. unfold get_current_student.
    destruct (is_student_logged_in session); [|done].
    destruct (session !! "student_id") as [[id|?]|]; try done.
    by apply query_get_prefix.
  - unfold get_current_admin. by rewrite Had.
Qed.

Lemma sessions_stay_valid_witness :
  let calls :=
    [mkcall 100 (as_student bob) (RegisterEvent 2);
     mkcall 101 (as_admin root) (DeleteEvent 1);
     mkcall 102 (as_student alice) Logout;
     mkcall 103 ∅
       (Signup POST (signup_form "Carol" "carol@college.edu" "R003"
                       "s3cret" "s3cret"))] in
  get_current_student (as_student alice)
    (run (@RunLocal.serve demo_runtime) calls campus_quiz_full)
  = Some alice.
Proof.
  intros calls.
  exact (proj1 (@sessions_stay_valid demo_runtime calls campus_quiz_full _
                  (as_student alice) (or_introl eq_refl)) alice eq_refl).
Defined.

(** X12. A session whose student is gone (a [student_id] that
    [Student.query.get] does not find). run_local.py's pages clear the
    session and send the visitor to the log-in page; routes.py's pages, and
    [unregister_event], raise [AttributeError]. [register_event] of both
    files never writes for such a session: it still answers 404, EventFull
    or EventExpired first, and raises on an open event. *)
Theorem stale_student_session :
  forall (now event_id : Z) (session : session_t) (d : database),
    is_student_logged_in session = true ->
    get_current_student session d = None ->
    let expired :=
      mkview (session_clear session)
             [("error", "Session expired. Please login again.")]
             (page_redirect "login") in
    (RunLocalPages.student_dashboard now session d = expired
     /\ RunLocalPages.my_registrations session d = expired)
    /\ (view_page (RoutesPages.student_dashboard now session d)
        = page_unhandled "AttributeError"
        /\ view_page (RoutesPages.my_registrations session d)
           = page_unhandled "AttributeError")
    /\ RunLocal.unregister_event event_id session d
       = mkres d session [] (unhandled "AttributeError")
    /\ (forall r,
          r = RunLocal.register_event now event_id session d
          \/ r = Routes.register_event now event_id session d ->
          res_db r = d
          /\ res_session r = session
          /\ (forall e,
                query_get Event.event_id (events d) event_id = Some e ->
                is_full d e = false -> is_past now e = false ->
                res_response r = unhandled "AttributeError")).
Proof.
  intros now event_id session d Hin Hgone expired. subst expired.
  split; [|split; [|split]].
  - unfold RunLocalPages.student_dashboard, RunLocalPages.my_registrations.
    by rewrite Hin, Hgone.
  - unfold RoutesPages.student_dashboard, RoutesPages.my_registrations.
    by rewrite Hin, Hgone.
  - unfold RunLocal.unregister_event. by rewrite Hin, Hgone.
  - intros r Hr. split; [|split].
    + destruct (register_event_inv now event_id session d)
        as [Hsame|(e & st & _ & _ & _ & Hst & _)]; [|congruence].
      destruct Hr as [-> | ->]; [done|].
      by rewrite (proj1 (register_event_same_effect now event_id session d)).
    + destruct Hr as [-> | ->].
      * handler_cases RunLocal.register_event.
      * handler_cases Routes.register_event.
    + intros e Hget Hfull Hpast.
      destruct Hr as [-> | ->];
        unfold RunLocal.register_event, Routes.register_event;
        by rewrite Hin, Hget, Hfull, Hpast, Hgone.
Qed.

Lemma stale_student_session_witness :
  let gone : session_t := {[ "student_id" := VInt 7 ]} in
  view_session (RunLocalPages.student_dashboard 100 gone campus) = ∅
  /\ view_page (RoutesPages.student_dashboard 100 gone campus)
     = page_unhandled "AttributeError"
  /\ res_response (Routes.register_event 100 2 gone campus)
     = unhandled "AttributeError".
Proof.
  intros gone.
  destruct (stale_student_session 100 2 gone campus eq_refl eq_refl)
    as ([Hdash _] & [Hroutes _] & _ & Hreg).
  split; [by rewrite Hdash|]. split; [exact Hroutes|].
  exact (proj2 (proj2 (Hreg _ (or_intror eq_refl))) talk eq_refl eq_refl
           eq_refl).
Defined.

(** ** The pages *)

Lemma order_by_sorted {A} (column : A -> Z) (rows : list A) :
  StronglySorted (fun x y => column x <= column y) (order_by column rows).
Proof.
  unfold order_by.
  apply (@StronglySorted_merge_sort A (fun x y => column x <= column y)).
  - intros x y z. lia.
  - intros x y. lia.
Qed.

Lemma order_by_desc_sorted {A} (column : A -> Z) (rows : list A) :
  StronglySorted (fun x y => column y <= column x)
    (order_by_desc column rows).
Proof.
  unfold order_by_desc.
  apply (@StronglySorted_merge_sort A (fun x y => column y <= column x)).
  - intros x y z. lia.
  - intros x y. lia.
Qed.

Lemma order_by_Permutation {A} (column : A -> Z) (rows : list A) :
  order_by column rows ≡ₚ rows.
Proof. apply merge_sort_Permutation. Qed.

Lemma order_by_desc_Permutation {A} (column : A -> Z) (rows : list A) :
  order_by_desc column rows ≡ₚ rows.
Proof. apply merge_sort_Permutation. Qed.

Lemma upcoming_elem_of now d e :
  e ∈ upcoming now d <-> e ∈ events d /\ now < Event.date e.
Proof.
  unfold upcoming. rewrite order_by_Permutation, list_elem_of_filter.
  split; intros [? ?]; split; try done; lia.
Qed.

(** X13. The public list of events ([index] of run_local.py and routes.py,
    for a visitor who is not logged in as a student) shows exactly the
    events whose date is after the current instant, each as often as the
    table holds it, in ascending order of date; none of them would be
    refused as past by [register_event] at that instant. A logged-in
    student is redirected to the dashboard instead. Neither case flashes a
    message or touches the session. *)
Theorem index_lists_upcoming_events :
  forall (now : Z) (session : session_t) (d : database) (v : view),
    v = RunLocalPages.index now session d
    \/ v = RoutesPages.index now session d ->
    view_session v = session /\ view_flashes v = []
    /\ (is_student_logged_in session = true ->
        view_page v = page_redirect "student_dashboard")
    /\ (is_student_logged_in session = false ->
        exists listed,
          view_page v = index_html listed
          /\ listed ≡ₚ filter (fun e => Event.date e > now) (events d)
          /\ StronglySorted (fun x y => Event.date x <= Event.date y) listed
          /\ (forall e, e ∈ listed <-> e ∈ events d /\ now < Event.date e)
          /\ (forall e, e ∈ listed -> is_past now e = false)).
Proof.
  intros now session d v Hv.
  assert (v = RunLocalPages.index now session d) as -> by (by destruct Hv).
  unfold RunLocalPages.index.
  destruct (is_student_logged_in session); simpl.
  - do 2 (split; [done|]). split; done.
  - do 2 (split; [done|]). split; [done|]. intros _.
    exists (upcoming now d). split; [done|].
    split; [apply order_by_Permutation|].
    split; [apply order_by_sorted|].
    split; [apply upcoming_elem_of|].
    intros e He. apply upcoming_elem_of in He as [_ He].
    unfold is_past. apply bool_decide_eq_false. lia.
Qed.

Lemma index_lists_upcoming_events_witness :
  view_page (RoutesPages.index 100 ∅ campus) = index_html [quiz; talk]
  /\ view_page (RoutesPages.index 1000 ∅ campus) = index_html [].
Proof.
  split.
  - destruct (index_lists_upcoming_events 100 ∅ campus _
                (or_intror eq_refl)) as (_ & _ & _ & Hlist).
    destruct (Hlist eq_refl) as (listed & Hpage & _).
    rewrite Hpage. vm_compute in Hpage. by injection Hpage as <-.
  - destruct (index_lists_upcoming_events 1000 ∅ campus _
                (or_intror eq_refl)) as (_ & _ & _ & Hlist).
    destruct (Hlist eq_refl) as (listed & Hpage & _).
    rewrite Hpage. vm_compute in Hpage. by injection Hpage as <-.
Defined.



(** X15. The dashboard shows what [register_event] did (run_local.py and
    routes.py): after a successful registration, the student dashboard of
    the same session, whenever it is opened, is rendered for the same
    student and carries the event's id among [registered_event_ids]; the
    events it offers are the upcoming ones. *)
Theorem dashboard_shows_new_registration :
  forall (now later event_id : Z) (session : session_t) (d : database)
    (r : result) (v : view),
    (r = RunLocal.register_event now event_id session d
     /\ v = RunLocalPages.student_dashboard later session (res_db r))
    \/ (r = Routes.register_event now event_id session d
        /\ v = RoutesPages.student_dashboard later session (res_db r)) ->
    succeeded r = true ->
    exists student registered_event_ids,
      get_current_student session d = Some student
      /\ v = mkview session []
               (student_dashboard_html student (upcoming later d)
                  registered_event_ids)
      /\ event_id ∈ registered_event_ids.
Proof.
  intros now later event_id session d r v Hrv Hok.
  assert (r = RunLocal.register_event now event_id session d
          \/ r = Routes.register_event now event_id session d) as Hr
    by (destruct Hrv as [[? _]|[? _]]; auto).
  destruct (register_event_succeeded now event_id session d r Hr Hok)
    as (e & student & _ & _ & _ & Hstudent & _ & Hdb).
  pose proof (get_current_student_logged_in _ _ _ Hstudent) as Hin.
  assert (get_current_student session (res_db r) = Some student) as Hstill
    by (by rewrite Hdb).
  exists student,
    (Registration.event_id <$> student_registrations (res_db r) student).
  split; [done|]. split.
  - destruct Hrv as [[_ ->]|[_ ->]];
      unfold RunLocalPages.student_dashboard, RoutesPages.student_dashboard;
      rewrite Hin, Hstill; simpl; by rewrite Hdb.
  - rewrite Hdb. unfold student_registrations. simpl.
    rewrite filter_app, fmap_app, filter_cons_True by done.
    apply elem_of_app. right. simpl. apply elem_of_cons. by left.
Qed.

Lemma dashboard_shows_new_registration_witness :
  let r := Routes.register_event 100 2 (as_student bob) campus_quiz_full in
  succeeded r = true
  /\ view_page (RoutesPages.student_dashboard 200 (as_student bob) (res_db r))
     = student_dashboard_html bob [quiz; talk] [2].
Proof.
  intros r.
  assert (succeeded r = true) as Hok by (vm_compute; reflexivity).
  split; [exact Hok|].
  destruct (dashboard_shows_new_registration 100 200 2 (as_student bob)
              campus_quiz_full r _ (or_intror (conj eq_refl eq_refl)) Hok)
    as (student & ids & _ & Hview & _).
  rewrite Hview. vm_compute in Hview. by injection Hview as <- <-.
Defined.

(** X16. After a successful [unregister_event] (run_local.py), in a
    database with one registration for each pair, the dashboard of the
    same session no longer carries the event's id among
    [registered_event_ids], and [register_event] no longer answers
    AlreadyRegistered for it. *)
Theorem dashboard_drops_cancelled_registration :
  forall (now event_id : Z) (session : session_t) (d : database),
    unique_registration (registrations d) ->
    succeeded (RunLocal.unregister_event event_id session d) = true ->
    let d' := res_db (RunLocal.unregister_event event_id session d) in
    (exists student registered_event_ids,
       RunLocalPages.student_dashboard now session d'
       = mkview session []
           (student_dashboard_html student (upcoming now d)
              registered_event_ids)
       /\ (event_id ∉ registered_event_ids))
    /\ AlreadyRegistered (RunLocal.register_event now event_id session d')
       = false.
Proof.
  intros now event_id session d Huniq Hok d'. subst d'.
  destruct (is_student_logged_in session) eqn:Hin.
  2:{ unfold RunLocal.unregister_event in Hok. rewrite Hin in Hok.
      by vm_compute in Hok. }
  destruct (get_current_student session d) as [student|] eqn:Hstudent.
  2:{ unfold RunLocal.unregister_event in Hok.
      rewrite Hin, Hstudent in Hok. by vm_compute in Hok. }
  destruct (registrations_by event_id (Student.student_id student)
              (registrations d)) as [|reg rest] eqn:Hrows.
  { rewrite (unregister_event_absent event_id session d student Hstudent
               Hrows) in Hok. by vm_compute in Hok. }
  assert (first (registrations_by event_id (Student.student_id student)
                   (registrations d)) = Some reg) as Hreg
    by (by rewrite Hrows).
  clear Hrows.
  pose proof (delete_registration_pair _ _ _ _ Huniq Hreg) as Hgone.
  assert (res_db (RunLocal.unregister_event event_id session d)
          = delete_registration reg d) as ->.
  { destruct (unregister_event_inv event_id session d)
      as [Hsame|(st & reg' & Hst & Hreg' & ->)]; [|congruence].
    unfold RunLocal.unregister_event, reply in *.
    rewrite Hin, Hstudent, Hreg in *. simpl in *.
    by destruct (query_get Event.event_id (events d) event_id). }
  assert (get_current_student session (delete_registration reg d)
          = Some student) as Hstill by done.
  split.
  - exists student,
      (Registration.event_id
         <$> student_registrations (delete_registration reg d) student).
    split.
    + unfold RunLocalPages.student_dashboard. by rewrite Hin, Hstill.
    + intros Hlisted.
      apply list_elem_of_fmap in Hlisted as (x & Hid & Hx).
      apply list_elem_of_filter in Hx as [Hsid Hx].
      assert (x ∈ registrations_by event_id (Student.student_id student)
                    (registrations (delete_registration reg d))) as Hpair
        by (by apply list_elem_of_filter).
      rewrite Hgone in Hpair. by apply elem_of_nil in Hpair.
  - unfold RunLocal.register_event, reply.
    rewrite Hin, Hstill, Hgone. simpl.
    repeat case_match; by vm_compute.
Qed.

Lemma campus_quiz_full_unique :
  unique_registration (registrations campus_quiz_full).
Proof.
  intros event_id student_id. unfold registrations_by. simpl.
  rewrite filter_cons, filter_nil. case_decide; simpl; lia.
Defined.

Lemma dashboard_drops_cancelled_registration_witness :
  let d' := res_db (RunLocal.unregister_event 1 (as_student alice)
                      campus_quiz_full) in
  succeeded (RunLocal.unregister_event 1 (as_student alice) campus_quiz_full)
  = true
  /\ view_page (RunLocalPages.student_dashboard 100 (as_student alice) d')
     = student_dashboard_html alice [quiz; talk] []
  /\ AlreadyRegistered (RunLocal.register_event 100 1 (as_student alice) d')
     = false.
Proof.
  intros d'.
  assert (succeeded (RunLocal.unregister_event 1 (as_student alice)
                       campus_quiz_full) = true) as Hok
    by (vm_compute; reflexivity).
  split; [exact Hok|].
  destruct (dashboard_drops_cancelled_registration 100 1 (as_student alice)
              campus_quiz_full campus_quiz_full_unique Hok)
    as [(student & ids & Hview & _) Hnot].
  split; [|exact Hnot].
  fold d' in Hview. rewrite Hview. vm_compute in Hview.
  by injection Hview as <- <-.
Defined.

(** X17. The page of a student's registrations ([my_registrations] of
    run_local.py and routes.py, for a session that names a student) lists
    exactly the registrations of that student, the newest first; each row
    belongs to the student, and the events of the rows are the
    [registered_event_ids] of the dashboard, up to order. *)
Theorem my_registrations_lists_own_rows :
  forall (now : Z) (session : session_t) (d : database) (student : Student.t)
    (v : view),
    v = RunLocalPages.my_registrations session d
    \/ v = RoutesPages.my_registrations session d ->
    get_current_student session d = Some student ->
    exists listed,
      v = mkview session [] (my_registrations_html listed student)
      /\ listed ≡ₚ student_registrations d student
      /\ StronglySorted
           (fun x y => Registration.timestamp y <= Registration.timestamp x)
           listed
      /\ (forall x, x ∈ listed <->
                    x ∈ registrations d
                    /\ Registration.student_id x = Student.student_id student)
      /\ view_page (RunLocalPages.student_dashboard now session d)
         = student_dashboard_html student (upcoming now d)
             (Registration.event_id <$> student_registrations d student)
      /\ Registration.event_id <$> listed
         ≡ₚ Registration.event_id <$> student_registrations d student.
Proof.
  intros now session d student v Hv Hstudent.
  pose proof (get_current_student_logged_in _ _ _ Hstudent) as Hin.
  eexists. split; [|split; [|split; [|split; [|split]]]].
  - destruct Hv as [-> | ->];
      unfold RunLocalPages.my_registrations, RoutesPages.my_registrations;
      by rewrite Hin, Hstudent.
  - apply order_by_desc_Permutation.
  - apply order_by_desc_sorted.
  - intros x. rewrite order_by_desc_Permutation, list_elem_of_filter. tauto.
  - unfold RunLocalPages.student_dashboard. by rewrite Hin, Hstudent.
  - apply fmap_Permutation, order_by_desc_Permutation.
Qed.

Lemma my_registrations_lists_own_rows_witness :
  view_page (RoutesPages.my_registrations (as_student alice) campus_quiz_full)
  = my_registrations_html [Registration.mk 1 1 1 500] alice.
Proof.
  destruct (my_registrations_lists_own_rows 100 (as_student alice)
              campus_quiz_full alice _ (or_intror eq_refl) eq_refl)
    as (listed & Hview & _).
  rewrite Hview. vm_compute in Hview. by injection Hview as <-.
Defined.

(** X18. The admin dashboard of run_local.py, for a session that names an
    admin: the events are all the events of the table in ascending order
    of date; [total_events], [total_students] and [total_registrations]
    are the sizes of the tables; [upcoming_events] counts the events the
    public list shows at that instant and never exceeds [total_events]. A
    session whose admin is gone is cleared and sent to the admin log-in.
    The dashboard of routes.py lists all the events in descending order of
    date, without looking the admin up. *)
Theorem admin_dashboard_statistics :
  forall (now : Z) (session : session_t) (d : database),
    is_admin_logged_in session = true ->
    (get_current_admin session d = None ->
     RunLocalPages.admin_dashboard now session d
     = mkview (session_clear session)
              [("error", "Session expired. Please login again.")]
              (page_redirect "admin_login"))
    /\ (forall admin,
          get_current_admin session d = Some admin ->
          exists listed stats,
            RunLocalPages.admin_dashboard now session d
            = mkview session []
                (admin_dashboard_html listed (Some admin) (Some stats))
            /\ listed ≡ₚ events d
            /\ StronglySorted (fun x y => Event.date x <= Event.date y)
                 listed
            /\ total_events stats = Z.of_nat (length (events d))
            /\ total_students stats = Z.of_nat (length (students d))
            /\ total_registrations stats
               = Z.of_nat (length (registrations d))
            /\ upcoming_events stats = Z.of_nat (length (upcoming now d))
            /\ 0 <= upcoming_events stats <= total_events stats)
    /\ (exists listed,
          RoutesPages.admin_dashboard session d
          = mkview session [] (admin_dashboard_html listed None None)
          /\ listed ≡ₚ events d
          /\ StronglySorted (fun x y => Event.date y <= Event.date x)
               listed).
Proof.
  intros now session d Hin.
  unfold RunLocalPages.admin_dashboard, RoutesPages.admin_dashboard.
  rewrite Hin. simpl. split; [by intros ->|]. split.
  2:{ eexists. split; [done|].
      split; [apply order_by_desc_Permutation|apply order_by_desc_sorted]. }
  intros admin ->. do 2 eexists. split; [done|]. simpl.
  assert (length (filter (fun e => Event.date e > now)
                    (order_by Event.date (events d)))
          = length (upcoming now d)) as Hup.
  { unfold upcoming. by rewrite !order_by_Permutation. }
  split; [apply order_by_Permutation|].
  split; [apply order_by_sorted|].
  split; [by rewrite order_by_Permutation|].
  do 2 (split; [done|]). split; [by rewrite Hup|].
  split; [lia|]. apply inj_le.
  etrans; [apply length_filter|]. by rewrite order_by_Permutation.
Qed.

Lemma admin_dashboard_statistics_witness :
  let gone : session_t := {[ "admin_id" := VInt 9 ]} in
  view_page (RunLocalPages.admin_dashboard 100 (as_admin root)
               campus_quiz_full)
  = admin_dashboard_html [quiz; talk] (Some root)
      (Some (mkstats 2 2 1 2))
  /\ view_session (RunLocalPages.admin_dashboard 100 gone campus_quiz_full)
     = ∅.
Proof.
  intros gone.
  destruct (admin_dashboard_statistics 100 (as_admin root) campus_quiz_full
              eq_refl) as (_ & Hstats & _).
  destruct (Hstats root eq_refl) as (listed & stats & Hview & _).
  split.
  - rewrite Hview. vm_compute in Hview. by injection Hview as <- <-.
  - assert (is_admin_logged_in gone = true) as Hin by reflexivity.
    destruct (admin_dashboard_statistics 100 gone campus_quiz_full Hin)
      as (Hgone & _).
    by rewrite (Hgone eq_refl).
Defined.

(** ** Start-up *)

Lemma add_admin_new now username password_hash d :
  username ∉ Admin.username <$> admins d ->
  add_admin now username password_hash d
  = Some (mkdb (students d)
            (admins d
               ++ [Admin.mk (next_id (Admin.admin_id <$> admins d))
                     username password_hash now])
            (events d) (registrations d)).
Proof. intros Hnew. unfold add_admin. by rewrite decide_False. Qed.

Lemma default_admin_cases `{Runtime} now d :
  ("admin" ∈ Admin.username <$> admins d
   /\ create_default_admin now d = Some d)
  \/ (("admin" ∉ Admin.username <$> admins d)
      /\ create_default_admin now d
         = Some (mkdb (students d)
                   (admins d
                      ++ [Admin.mk (next_id (Admin.admin_id <$> admins d))
                            "admin" (generate_password_hash "admin123")
                            now])
                   (events d) (registrations d))).
Proof.
  unfold create_default_admin.
  rewrite (found_first_filter Admin.username "admin").
  destruct (decide ("admin" ∈ Admin.username <$> admins d)) as [Hin|Hnew].
  - left. by rewrite bool_decide_eq_true_2.
  - right. rewrite bool_decide_eq_false_2 by done. simpl.
    by rewrite add_admin_new.
Qed.

Lemma create_default_admin_Some `{Runtime} now d :
  exists d1,
    create_default_admin now d = Some d1
    /\ "admin" ∈ Admin.username <$> admins d1
    /\ admins d `prefix_of` admins d1
    /\ students d1 = students d /\ events d1 = events d
    /\ registrations d1 = registrations d.
Proof.
  destruct (default_admin_cases now d) as [[Hin ->]|[Hnew ->]];
    eexists; (split; [done|]); simpl.
  - done.
  - split; [|split; [by apply prefix_app_r|done]].
    rewrite fmap_app. apply elem_of_app. right. simpl.
    apply elem_of_cons. by left.
Qed.

(** X19. Creating the default admin at start-up (app.py) never raises and
    is idempotent: it leaves a database that has an admin named [admin],
    keeps every admin that was there, touches no other table, keeps the
    user names distinct when they were, and doing it again changes
    nothing. *)
Theorem create_default_admin_idempotent `{Runtime} :
  forall (now : Z) (d : database),
    exists d',
      create_default_admin now d = Some d'
      /\ "admin" ∈ Admin.username <$> admins d'
      /\ admins d `prefix_of` admins d'
      /\ students d' = students d /\ events d' = events d
      /\ registrations d' = registrations d
      /\ (NoDup (Admin.username <$> admins d) ->
          NoDup (Admin.username <$> admins d'))
      /\ (forall later, create_default_admin later d' = Some d').
Proof.
  intros now d.
  destruct (default_admin_cases now d) as [[Hin ->]|[Hnew ->]];
    eexists; (split; [done|]).
  - split; [done|]. split; [done|]. do 4 (split; [done|]).
    intros later. by destruct (default_admin_cases later d) as [[_ ?]|[? _]].
  - simpl. split; [|split; [by apply prefix_app_r|]].
    { rewrite fmap_app. apply elem_of_app. right. simpl.
      apply elem_of_cons. by left. }
    do 3 (split; [done|]). split.
    + intros Hkey. rewrite fmap_app. apply NoDup_app. split; [done|].
      split; [|apply NoDup_singleton]. intros x Hx Hx'.
      apply list_elem_of_singleton in Hx'. by subst x.
    + intros later.
      match goal with
      | |- create_default_admin later ?x = _ =>
          destruct (default_admin_cases later x) as [[_ ?]|[Hno _]]; [done|]
      end.
      exfalso. apply Hno. simpl. rewrite fmap_app. apply elem_of_app. right.
      simpl. apply elem_of_cons. by left.
Qed.

Lemma events_foldl_add_event_data now data : forall d,
  students (foldl (add_event_data now) d data) = students d
  /\ admins (foldl (add_event_data now) d data) = admins d
  /\ registrations (foldl (add_event_data now) d data) = registrations d
  /\ length (events (foldl (add_event_data now) d data))
     = (length (events d) + length data)%nat
  /\ events d `prefix_of` events (foldl (add_event_data now) d data)
  /\ (event_id_key (events d) ->
      event_id_key (events (foldl (add_event_data now) d data)))
  /\ (forall e, e ∈ events (foldl (add_event_data now) d data) ->
                e ∈ events d
                \/ Event.max_participants e
                   ∈ data_max_participants <$> data).
Proof.
  induction data as [|x data IH]; intros d; simpl.
  - do 3 (split; [done|]). split; [lia|]. split; [done|]. split; [done|].
    intros e He. by left.
  - destruct (IH (add_event_data now d x))
      as (Hst & Had & Hregs & Hlen & Hpre & Hkey & Hcap).
    unfold add_event_data, event_added in *. simpl in *.
    do 3 (split; [done|]). rewrite length_app in Hlen. simpl in Hlen.
    split; [lia|]. split; [|split].
    + etrans; [|exact Hpre]. by apply prefix_app_r.
    + intros Hd. apply Hkey. unfold event_id_key in *.
      rewrite fmap_app. apply NoDup_app. split; [done|].
      split; [|apply NoDup_singleton]. intros k Hk Hk'.
      apply list_elem_of_singleton in Hk'. subst k. simpl in Hk.
      by apply next_id_not_used in Hk.
    + intros e He. destruct (Hcap e He) as [Hold|Hnew].
      * apply elem_of_app in Hold as [Hold|Hold]; [by left|].
        apply list_elem_of_singleton in Hold as ->. right. simpl.
        apply elem_of_cons. by left.
      * right. apply elem_of_cons. by right.
Qed.

(** The capacities of the sample events fit the column: the one commit of
    [initialize_sample_data] goes through. *)
Lemma events_data_fit datetime :
  forallb (fun e => fits_integer (data_max_participants e))
          (events_data datetime) = true.
Proof. reflexivity. Qed.

(** X20. Loading the sample data at start-up (run_local.py). When the
    events table is not empty nothing is written, not even the default
    admin. When it is empty, the result has the ten competition events,
    each with 50 seats and a key of its own, an admin named [admin], and
    the students and registrations it had. In both cases a second call
    changes nothing. *)
Theorem initialize_sample_data_once `{Runtime} :
  forall (datetime : Z -> Z -> Z -> Z -> Z -> Z) (now later : Z)
    (d : database),
    let d' := initialize_sample_data datetime now d in
    (events d <> [] -> d' = d)
    /\ (events d = [] ->
        length (events d') = 10%nat
        /\ event_id_key (events d')
        /\ (forall e, e ∈ events d' -> Event.max_participants e = 50)
        /\ "admin" ∈ Admin.username <$> admins d'
        /\ admins d `prefix_of` admins d'
        /\ students d' = students d
        /\ registrations d' = registrations d)
    /\ initialize_sample_data datetime later d' = d'.
Proof.
  intros datetime now later d d'.
  assert (forall t x, events x <> [] ->
                      initialize_sample_data datetime t x = x) as Hskip.
  { intros t x Hx. unfold initialize_sample_data.
    rewrite bool_decide_eq_true_2; [done|].
    destruct (events x); [done|]. simpl. lia. }
  assert (events d = [] ->
          length (events d') = 10%nat
          /\ event_id_key (events d')
          /\ (forall e, e ∈ events d' -> Event.max_participants e = 50)
          /\ "admin" ∈ Admin.username <$> admins d'
          /\ admins d `prefix_of` admins d'
          /\ students d' = students d
          /\ registrations d' = registrations d) as Hfresh.
  { intros Hev. subst d'. unfold initialize_sample_data.
    rewrite bool_decide_eq_false_2 by (rewrite Hev; simpl; lia).
    fold (create_default_admin now d). rewrite events_data_fit.
    destruct (create_default_admin_Some now d)
      as (d1 & -> & Hadmin & Hpre & Hst & Hev1 & Hregs).
    destruct (events_foldl_add_event_data now (events_data datetime) d1)
      as (Hst' & Had' & Hregs' & Hlen & _ & Hkey & Hcap).
    rewrite Hev1, Hev in *. simpl in Hlen.
    split; [done|]. split; [apply Hkey, NoDup_nil_2|]. split.
    - intros e He. destruct (Hcap e He) as [Hold|Hnew].
      + by apply elem_of_nil in Hold.
      + simpl in Hnew.
        repeat (apply elem_of_cons in Hnew as [->|Hnew]; [done|]).
        by apply elem_of_nil in Hnew.
    - rewrite Had', Hst', Hregs'. done. }
  split; [by apply Hskip|]. split; [done|].
  destruct (events d) as [|e rest] eqn:Hev.
  - apply Hskip. destruct (Hfresh eq_refl) as (Hlen & _).
    intros Hnil. by rewrite Hnil in Hlen.
  - subst d'. rewrite (Hskip now d) by (by rewrite Hev).
    apply Hskip. by rewrite Hev.
Qed.

Lemma initialize_sample_data_once_witness :
  let d' := @initialize_sample_data demo_runtime demo_datetime 100 empty_db in
  length (events d') = 10%nat
  /\ Admin.username <$> admins d' = ["admin"]
  /\ @initialize_sample_data demo_runtime demo_datetime 200 d' = d'.
Proof.
  intros d'.
  destruct (@initialize_sample_data_once demo_runtime demo_datetime 100 200
              empty_db) as (_ & Hfresh & Hagain).
  split; [exact (proj1 (Hfresh eq_refl))|].
  split; [reflexivity|exact Hagain].
Defined.

Lemma admin_session_identifies admin session tbl d :
  admins d = tbl ++ [admin] ->
  (Admin.admin_id admin ∉ Admin.admin_id <$> tbl) ->
  get_current_admin
    (<["admin_username" := VStr (Admin.username admin)]>
       (<["admin_id" := VInt (Admin.admin_id admin)]> session)) d
  = Some admin.
Proof.
  intros Hd Hnew. unfold get_current_admin, is_admin_logged_in.
  rewrite lookup_insert_ne by done. rewrite lookup_insert_eq.
  rewrite bool_decide_eq_true_2 by (by eexists).
  rewrite Hd, query_get_snoc. unfold query_get.
  rewrite (filter_not_elem Admin.admin_id) by done. simpl.
  by rewrite decide_True.
Qed.

Lemma admin_login_last `{Runtime} form session tbl admin d r :
  r = RunLocal.admin_login POST form session d
  \/ r = Routes.admin_login POST form session d ->
  admins d = tbl ++ [admin] ->
  (Admin.username admin ∉ Admin.username <$> tbl) ->
  form !! "username" = Some (Admin.username admin) ->
  Admin.username admin <> EmptyString ->
  truthy (form !! "password") = true ->
  check_password_hash (Admin.password_hash admin) (str (form !! "password"))
  = true ->
  succeeded r = true
  /\ res_db r = d
  /\ res_session r
     = <["admin_username" := VStr (Admin.username admin)]>
         (<["admin_id" := VInt (Admin.admin_id admin)]> session)
  /\ res_response r = redirect "admin_dashboard".
Proof.
  intros Hr Hd Hnew Huser Hname Hpw Hcheck.
  assert (first (filter (fun a => Admin.username a
                                  = str (form !! "username")) (admins d))
          = Some admin) as Hfirst.
  { rewrite Hd, Huser, filter_app. simpl.
    rewrite (filter_not_elem Admin.username) by done.
    by rewrite filter_cons_True. }
  assert (truthy (form !! "username") = true) as Htruthy.
  { rewrite Huser. simpl. by rewrite bool_decide_eq_false_2. }
  destruct Hr as [-> | ->];
    unfold RunLocal.admin_login, Routes.admin_login, reply;
    rewrite Htruthy, Hpw, Hfirst, Hcheck; simpl;
    (split; [|done]);
    unfold succeeded; cbn [res_flashes];
    by rewrite bool_decide_eq_true_2.
Qed.

(** X21. The default admin can log in after a first start-up: when
    [check_password_hash] accepts every password against its own
    [generate_password_hash] and no admin is named [admin] yet, then after
    [create_default_admin] (app.py), and after [initialize_sample_data]
    (run_local.py) on an empty events table, an [admin_login] with user name
    [admin] and password [admin123] succeeds and leaves a session that
    identifies an admin named [admin]. *)
Theorem default_admin_can_log_in `{Runtime} :
  forall (datetime : Z -> Z -> Z -> Z -> Z -> Z) (now : Z) (form : form_t)
    (session : session_t) (d d' : database) (r : result),
    (forall password,
       check_password_hash (generate_password_hash password) password = true) ->
    ("admin" ∉ Admin.username <$> admins d) ->
    form !! "username" = Some "admin" ->
    form !! "password" = Some "admin123" ->
    (create_default_admin now d = Some d'
     /\ r = Routes.admin_login POST form session d')
    \/ (events d = [] /\ d' = initialize_sample_data datetime now d
        /\ r = RunLocal.admin_login POST form session d') ->
    succeeded r = true
    /\ res_response r = redirect "admin_dashboard"
    /\ exists admin,
        get_current_admin (res_session r) d' = Some admin
        /\ Admin.username admin = "admin".
Proof.
  intros datetime now form session d d' r Hlaw Hnew Huser Hpw Hcase.
  set (admin := Admin.mk (next_id (Admin.admin_id <$> admins d)) "admin"
                  (generate_password_hash "admin123") now).
  assert (admins d' = admins d ++ [admin]) as Hadmins.
  { destruct (default_admin_cases now d) as [[Hin _]|[_ Hcreate]]; [done|].
    destruct Hcase as [[Hd' _]|(Hev & -> & _)].
    - rewrite Hcreate in Hd'. by simplify_eq.
    - unfold initialize_sample_data.
      rewrite bool_decide_eq_false_2 by (rewrite Hev; simpl; lia).
      fold (create_default_admin now d).
      rewrite Hcreate, events_data_fit.
      by rewrite (proj1 (proj2 (events_foldl_add_event_data now
                                  (events_data datetime) _))). }
  assert (r = RunLocal.admin_login POST form session d'
          \/ r = Routes.admin_login POST form session d') as Hr
    by (destruct Hcase as [[_ ?]|(_ & _ & ?)]; auto).
  destruct (admin_login_last form session (admins d) admin d' r Hr Hadmins)
    as (Hok & _ & Hsession & Hresp); try done.
  { by rewrite Hpw. }
  { rewrite Hpw. apply Hlaw. }
  split; [done|]. split; [done|]. exists admin. split; [|done].
  rewrite Hsession.
  apply (admin_session_identifies admin session (admins d)); [done|].
  apply next_id_not_used.
Qed.

Lemma default_admin_can_log_in_witness :
  let d' := @initialize_sample_data demo_runtime demo_datetime 100 empty_db in
  let form := login_form "username" "admin" "admin123" in
  succeeded (@RunLocal.admin_login demo_runtime POST form ∅ d') = true.
Proof.
  intros d' form.
  assert (forall password,
            @check_password_hash demo_runtime
              (@generate_password_hash demo_runtime password) password = true)
    as Hlaw by (intros password; simpl; by apply bool_decide_eq_true).
  assert ("admin" ∉ Admin.username <$> admins empty_db) as Hnew
    by (simpl; apply not_elem_of_nil).
  exact (proj1 (@default_admin_can_log_in demo_runtime demo_datetime 100 form
                  ∅ empty_db d' _ Hlaw Hnew eq_refl eq_refl
                  (or_intror (conj eq_refl (conj eq_refl eq_refl))))).
Defined.

(** ** The admin's log-in and the event forms *)

Section AdminLoginAnswers.
Context `{Runtime}.
Variables (form : form_t) (session : session_t) (d : database).

Lemma admin_login_accepted admin r :
  r = RunLocal.admin_login POST form session d
  \/ r = Routes.admin_login POST form session d ->
  admin_login_identifies form d = Some admin ->
  succeeded r = true
  /\ res_session r = admin_session admin session
  /\ res_response r = redirect "admin_dashboard".
Proof.
  unfold admin_login_identifies. intros Hr Hid.
  destruct (truthy (form !! "username")) eqn:Hu; [|done].
  destruct (truthy (form !! "password")) eqn:Hp; [|done]. simpl in Hid.
  destruct (first _) as [a|] eqn:Hfirst; [|done].
  destruct (check_password_hash _ _) eqn:Hcheck; [|done]. simplify_eq.
  destruct Hr as [-> | ->];
    unfold RunLocal.admin_login, Routes.admin_login, reply;
    rewrite Hu, Hp, Hfirst, Hcheck; simpl;
    (split; [|done]);
    unfold succeeded; cbn [res_flashes];
    by rewrite bool_decide_eq_true_2.
Qed.

Lemma admin_login_refused method r :
  r = RunLocal.admin_login method form session d
  \/ r = Routes.admin_login method form session d ->
  method = GET \/ admin_login_identifies form d = None ->
  succeeded r = false /\ res_session r = session.
Proof.
  unfold admin_login_identifies. intros Hr Hbad.
  destruct Hr as [-> | ->].
  - unfold RunLocal.admin_login, reply. destruct method; [done|].
    destruct Hbad as [?|Hbad]; [done|].
    destruct (truthy (form !! "username")); [|done].
    destruct (truthy (form !! "password")); [|done]. simpl in *.
    destruct (first _) as [s|]; [|done].
    by destruct (check_password_hash _ _).
  - unfold Routes.admin_login, reply. destruct method; [done|].
    destruct Hbad as [?|Hbad]; [done|].
    destruct (truthy (form !! "username")); [|done].
    destruct (truthy (form !! "password")); [|done]. simpl in *.
    destruct (first _) as [s|]; [|done].
    by destruct (check_password_hash _ _).
Qed.
End AdminLoginAnswers.

(** X22. An admin log-in (run_local.py and routes.py) succeeds exactly when
    it is a POST with a non-empty user name and password whose user name
    belongs to an admin and whose password passes [check_password_hash]
    against the hash of the first such admin. The session then holds that
    admin's id and user name and, the admin ids being distinct, identifies
    that admin; any student the session named stays logged in. A refused
    log-in leaves the session as it was, and no log-in writes to the
    database. *)
Theorem admin_login_succeeds_iff `{Runtime} :
  forall (method : http_method) (form : form_t) (session : session_t)
    (d : database) (r : result),
    r = RunLocal.admin_login method form session d
    \/ r = Routes.admin_login method form session d ->
    (succeeded r = true <->
     method = POST /\ is_Some (admin_login_identifies form d))
    /\ (forall admin,
          method = POST ->
          admin_login_identifies form d = Some admin ->
          res_session r = admin_session admin session
          /\ res_response r = redirect "admin_dashboard"
          /\ is_admin_logged_in (res_session r) = true
          /\ get_current_student (res_session r) d
             = get_current_student session d
          /\ (NoDup (Admin.admin_id <$> admins d) ->
              get_current_admin (res_session r) d = Some admin))
    /\ (succeeded r = false -> res_session r = session)
    /\ res_db r = d.
Proof.
  intros method form session d r Hr.
  assert (res_db r = d) as Hdb
    by (destruct (login_db method form session d) as (_ & _ & Hl & Hr');
        by destruct Hr as [-> | ->]).
  destruct method.
  - destruct (admin_login_refused form session d GET r Hr)
      as [Hfail Hsession]; [by left|].
    rewrite Hfail. split; [split; [done|by intros [? _]]|].
    split; [done|]. split; [done|done].
  - destruct (admin_login_identifies form d) as [admin|] eqn:Hid.
    + destruct (admin_login_accepted form session d admin r Hr Hid)
        as (Hs & Hsession & Hresp).
      rewrite Hs. split; [by split|]. split; [|by split].
      intros admin' _ [= <-]. split; [done|]. split; [done|].
      rewrite Hsession. unfold admin_session.
      split; [|split].
      * unfold is_admin_logged_in.
        rewrite lookup_insert_ne by done. rewrite lookup_insert_eq.
        by apply bool_decide_eq_true_2.
      * unfold get_current_student, is_student_logged_in.
        by rewrite !lookup_insert_ne by done.
      * intros Hkey. unfold get_current_admin, is_admin_logged_in.
        rewrite lookup_insert_ne by done. rewrite lookup_insert_eq.
        rewrite bool_decide_eq_true_2 by (by eexists).
        apply query_get_key; [done|].
        unfold admin_login_identifies in Hid.
        destruct (truthy (form !! "username")
                  && truthy (form !! "password")); [|done].
        destruct (first _) as [s|] eqn:Hfirst; [|done].
        destruct (check_password_hash _ _); [|done].
        simplify_eq. by apply first_filter_Some in Hfirst as [_ ?].
    + destruct (admin_login_refused form session d POST r Hr)
        as [Hfail Hsession]; [by right|].
      rewrite Hfail. split; [split; [done|]|].
      * intros [_ [? ?]]. done.
      * split; [done|]. split; [done|done].
Qed.

Lemma admin_login_succeeds_iff_witness :
  let form := login_form "username" "admin" "admin123" in
  let r := @Routes.admin_login demo_runtime POST form (as_student alice)
             campus in
  @admin_login_identifies demo_runtime form campus = Some root
  /\ succeeded r = true
  /\ get_current_admin (res_session r) campus = Some root
  /\ get_current_student (res_session r) campus = Some alice.
Proof.
  intros form r.
  assert (@admin_login_identifies demo_runtime form campus = Some root)
    as Hid by (vm_compute; reflexivity).
  assert (NoDup (Admin.admin_id <$> admins campus)) as Hkey
    by (apply (bool_decide_unpack _); vm_compute; exact I).
  destruct (@admin_login_succeeds_iff demo_runtime POST form
              (as_student alice) campus r (or_intror eq_refl))
    as (Hiff & Hthen & _).
  destruct (Hthen root eq_refl Hid) as (_ & _ & _ & Hstudent & Hadmin).
  split; [exact Hid|].
  split; [exact (proj2 Hiff (conj eq_refl (ex_intro _ root Hid)))|].
  split; [exact (Hadmin Hkey)|]. rewrite Hstudent. reflexivity.
Defined.

Section EventFormAnswers.
Context `{Runtime}.
Variables (now : Z) (form : form_t) (session : session_t) (d : database).

Lemma run_local_add_event_accepted t m :
  is_admin_logged_in session = true ->
  complete form = true ->
  strptime (str (form !! "date")) "%Y-%m-%dT%H:%M" = Some t ->
  int (str (form !! "max_participants")) = Some m ->
  1 <= m -> now < t -> fits_integer m = true ->
  succeeded (RunLocal.add_event now POST form session d) = true
  /\ res_db (RunLocal.add_event now POST form session d)
     = event_added now (str (form !! "title"))
         (str (form !! "description")) t (str (form !! "venue"))
         (str (form !! "department")) m d.
Proof.
  unfold complete. intros Hin Hall Hdate Hint Hm Ht Hfits.
  unfold RunLocal.add_event, reply, add_event_row.
  rewrite Hin, Hall, Hdate, Hint. simpl.
  rewrite !bool_decide_eq_false_2 by lia. rewrite Hfits. split; [|done].
  unfold succeeded. cbn [res_flashes]. by rewrite bool_decide_eq_true_2.
Qed.

Lemma run_local_add_event_inv method :
  let r := RunLocal.add_event now method form session d in
  res_session r = session
  /\ ((succeeded r = false /\ res_db r = d)
      \/ (is_admin_logged_in session = true /\ method = POST
          /\ complete form = true
          /\ exists t m,
              strptime (str (form !! "date")) "%Y-%m-%dT%H:%M" = Some t
              /\ int (str (form !! "max_participants")) = Some m
              /\ 1 <= m /\ now < t /\ fits_integer m = true)).
Proof.
  unfold complete. cbv zeta. split; [handler_cases RunLocal.add_event|].
  unfold RunLocal.add_event, reply, add_event_row.
  destruct (is_admin_logged_in session); cbn [negb]; [|by left].
  destruct method; [by left|].
  match goal with
  | |- context [negb (all ?l)] => destruct (all l); cbn [negb]; [|by left]
  end.
  destruct (strptime _ _) as [t|]; [|by left].
  destruct (int _) as [m|]; [|by left].
  case_bool_decide; [by left|]. case_bool_decide; [by left|].
  destruct (fits_integer m) eqn:Hfits; [|by left].
  right. do 3 (split; [done|]). exists t, m. repeat split; try done; lia.
Qed.

End EventFormAnswers.



Section EditEventAnswers.
Context `{Runtime}.
Variables (event_id : Z) (form : form_t) (session : session_t)
  (d : database).

Lemma run_local_edit_event_accepted e t m :
  is_admin_logged_in session = true ->
  query_get Event.event_id (events d) event_id = Some e ->
  complete form = true ->
  strptime (str (form !! "date")) "%Y-%m-%dT%H:%M" = Some t ->
  int (str (form !! "max_participants")) = Some m ->
  1 <= m -> current_participants d e <= m -> fits_integer m = true ->
  succeeded (RunLocal.edit_event event_id POST form session d) = true
  /\ res_db (RunLocal.edit_event event_id POST form session d)
     = event_updated
         (event_of_form form (Event.event_id e) t m (Event.created_at e)) d.
Proof.
  unfold complete. intros Hin Hget Hall Hdate Hint Hm Hcount Hfits.
  unfold RunLocal.edit_event, reply, update_event_row.
  rewrite Hin, Hget, Hall, Hdate, Hint. simpl.
  rewrite !bool_decide_eq_false_2 by lia. rewrite Hfits. split; [|done].
  unfold succeeded. cbn [res_flashes]. by rewrite bool_decide_eq_true_2.
Qed.

Lemma edit_event_inv method r :
  r = RunLocal.edit_event event_id method form session d
  \/ r = Routes.edit_event event_id method form session d ->
  res_session r = session
  /\ ((succeeded r = false /\ res_db r = d)
      \/ (succeeded r = true
          /\ exists e t m,
              query_get Event.event_id (events d) event_id = Some e
              /\ res_db r
                 = event_updated
                     (event_of_form form (Event.event_id e) t m
                        (Event.created_at e)) d)).
Proof.
  intros [-> | ->].
  - split; [handler_cases RunLocal.edit_event|].
    unfold RunLocal.edit_event, reply, update_event_row.
    destruct (is_admin_logged_in session); cbn [negb]; [|by left].
    destruct (query_get _ _ _) as [e|]; [|by left].
    destruct method; [by left|].
    match goal with
    | |- context [negb (all ?l)] => destruct (all l); cbn [negb]; [|by left]
    end.
    destruct (strptime _ _) as [t|]; [|by left].
    destruct (int _) as [m|]; [|by left].
    case_bool_decide; [by left|]. case_bool_decide; [by left|].
    cbn [Event.max_participants].
    destruct (fits_integer m); [|by left].
    right. split; [|by exists e, t, m].
    unfold succeeded. cbn [res_flashes]. by rewrite bool_decide_eq_true_2.
  - split; [handler_cases Routes.edit_event|].
    unfold Routes.edit_event, reply, update_event_row.
    destruct (is_admin_logged_in session); cbn [negb]; [|by left].
    destruct (query_get _ _ _) as [e|]; [|by left].
    destruct method; [by left|].
    match goal with
    | |- context [negb (all ?l)] => destruct (all l); cbn [negb]; [|by left]
    end.
    destruct (fromisoformat _) as [t|]; [|by left].
    destruct (int _) as [m|]; [|by left].
    cbn [Event.max_participants].
    destruct (fits_integer m); [|by left].
    right. split; [done|by exists e, t, m].
Qed.
End EditEventAnswers.

Lemma current_participants_events d tbl e :
  current_participants
    (mkdb (students d) (admins d) tbl (registrations d)) e
  = current_participants d e.
Proof. done. Qed.

(** X24. Editing an event (run_local.py and routes.py) rewrites one row and
    nothing else: a refused edit writes nothing; an accepted one replaces
    the event found for the id by an event with the same key and creation
    time and the fields of the form, keeps every other event, the number
    and order of the events, the students, the admins and the
    registrations, so the event counts the participants it had. The
    session stays as it is. *)
Theorem edit_event_rewrites_one_event `{Runtime} :
  forall (event_id : Z) (method : http_method) (form : form_t)
    (session : session_t) (d : database) (r : result),
    r = RunLocal.edit_event event_id method form session d
    \/ r = Routes.edit_event event_id method form session d ->
    res_session r = session
    /\ (succeeded r = false -> res_db r = d)
    /\ (succeeded r = true ->
        exists e e',
          query_get Event.event_id (events d) event_id = Some e
          /\ query_get Event.event_id (events (res_db r)) event_id = Some e'
          /\ Event.event_id e' = event_id
          /\ Event.created_at e' = Event.created_at e
          /\ Event.title e' = str (form !! "title")
          /\ (forall k, k <> event_id ->
                query_get Event.event_id (events (res_db r)) k
                = query_get Event.event_id (events d) k)
          /\ Event.event_id <$> events (res_db r)
             = Event.event_id <$> events d
          /\ students (res_db r) = students d
          /\ admins (res_db r) = admins d
          /\ registrations (res_db r) = registrations d
          /\ current_participants (res_db r) e'
             = current_participants d e).
Proof.
  intros event_id method form session d r Hr.
  destruct (edit_event_inv event_id form session d method r Hr)
    as [Hs [[Hno Hd]|(Hok & e & t & m & Hget & Hd)]].
  - split; [done|]. split; [done|]. congruence.
  - split; [done|]. split; [congruence|]. intros _.
    pose proof (query_get_Some _ _ _ _ Hget) as [Hid _].
    set (e' := event_of_form form (Event.event_id e) t m
                 (Event.created_at e)) in *.
    exists e, e'. rewrite Hd. split; [done|].
    split; [by apply (query_get_update e' d event_id e)|].
    do 3 (split; [done|]).
    split; [|split; [apply event_updated_ids|]].
    + intros k Hk. unfold event_updated. cbn [events].
      rewrite query_get_update_row.
      destruct (query_get Event.event_id (events d) k) as [x|] eqn:Hx;
        [|done].
      apply query_get_Some in Hx as [Hxid _]. simpl.
      rewrite decide_False; [done|]. simpl. congruence.
    + do 3 (split; [done|]).
      unfold current_participants, event_registrations. simpl.
      by rewrite Hid.
Qed.

Lemma edit_event_rewrites_one_event_witness :
  let form := event_form "Quiz night" "2030-01-01T10:00" "5" in
  let r := @Routes.edit_event demo_runtime 1 POST form (as_admin root)
             campus_quiz_full in
  succeeded r = true
  /\ query_get Event.event_id (events (res_db r)) 2 = Some talk
  /\ registrations (res_db r) = registrations campus_quiz_full.
Proof.
  intros form r.
  assert (succeeded r = true) as Hok by (vm_compute; reflexivity).
  destruct (@edit_event_rewrites_one_event demo_runtime 1 POST form
              (as_admin root) campus_quiz_full r (or_intror eq_refl))
    as (_ & _ & Hthen).
  destruct (Hthen Hok) as (e & e' & _ & _ & _ & _ & _ & Hother & _ & _ & _
                           & Hregs & _).
  split; [exact Hok|]. split; [|exact Hregs].
  rewrite (Hother 2); [reflexivity|lia].
Defined.

(** X25. run_local.py checks the date of an event when it is added, not
    when it is edited: a complete form with a valid capacity, one that
    fits the [Integer] column, and a date before the current instant is
    refused by [add_event] and accepted by [edit_event], which leaves an
    event that is past; when it still has a free seat, [register_event]
    answers EventExpired for it. *)
Theorem run_local_edit_event_accepts_past_date `{Runtime} :
  forall (now event_id : Z) (form : form_t) (session : session_t)
    (d : database) (e : Event.t) (t m : Z),
    is_admin_logged_in session = true ->
    query_get Event.event_id (events d) event_id = Some e ->
    complete form = true ->
    strptime (str (form !! "date")) "%Y-%m-%dT%H:%M" = Some t ->
    int (str (form !! "max_participants")) = Some m ->
    1 <= m -> current_participants d e <= m ->
    fits_integer m = true ->
    t < now ->
    let added := RunLocal.add_event now POST form session d in
    let edited := RunLocal.edit_event event_id POST form session d in
    (succeeded added = false /\ res_db added = d)
    /\ succeeded edited = true
    /\ exists e',
        query_get Event.event_id (events (res_db edited)) event_id = Some e'
        /\ Event.date e' = t
        /\ is_past now e' = true
        /\ (current_participants d e < m ->
            forall student_session,
              is_student_logged_in student_session = true ->
              EventExpired (RunLocal.register_event now event_id
                              student_session (res_db edited)) = true).
Proof.
  intros now event_id form session d e t m Hin Hget Hall Hdate Hint Hm
    Hcount Hfits Ht added edited. subst added edited.
  split.
  - destruct (run_local_add_event_inv now form session d POST)
      as [_ [?|(_ & _ & _ & t' & m' & Hdate' & _ & _ & Ht' & _)]]; [done|].
    rewrite Hdate in Hdate'. simplify_eq. lia.
  - destruct (run_local_edit_event_accepted event_id form session d e t m)
      as [Hok ->]; try done.
    split; [done|].
    set (e' := event_of_form form (Event.event_id e) t m
                 (Event.created_at e)).
    assert (query_get Event.event_id (events (event_updated e' d))
              event_id = Some e') as Hget'
      by (by apply (query_get_update e' d event_id e)).
    assert (is_past now e' = true) as Hpast
      by (unfold is_past; apply bool_decide_eq_true; simpl; lia).
    exists e'. do 3 (split; [done|]).
    intros Hfree s Hs.
    assert (is_full (event_updated e' d) e' = false) as Hfull.
    { unfold is_full. apply bool_decide_eq_false.
      unfold current_participants, event_registrations in *. simpl in *.
      lia. }
    destruct (register_event_past now event_id s (event_updated e' d) Hs
                e' Hget' Hfull Hpast) as [-> _].
    by vm_compute.
Qed.

Lemma run_local_edit_event_accepts_past_date_witness :
  let form := event_form "Quiz" "2020-01-01T10:00" "5" in
  let edited := @RunLocal.edit_event demo_runtime 1 POST form (as_admin root)
                  campus_quiz_full in
  succeeded (@RunLocal.add_event demo_runtime 2000000000 POST form
               (as_admin root) campus_quiz_full) = false
  /\ succeeded edited = true
  /\ EventExpired (RunLocal.register_event 2000000000 1 (as_student bob)
                     (res_db edited)) = true.
Proof.
  intros form edited.
  assert (@strptime demo_runtime (str (form !! "date")) "%Y-%m-%dT%H:%M"
          = Some 1082120280) as Hdate by (vm_compute; reflexivity).
  destruct (@run_local_edit_event_accepts_past_date demo_runtime 2000000000
              1 form (as_admin root) campus_quiz_full quiz 1082120280 5
              eq_refl eq_refl eq_refl Hdate eq_refl)
    as ([Hadd _] & Hedit & e' & _ & _ & _ & Hexpired);
    [lia|vm_compute; discriminate|vm_compute; reflexivity|lia|].
  split; [exact Hadd|]. split; [exact Hedit|].
  apply Hexpired; [vm_compute; reflexivity|reflexivity].
Defined.

Lemma query_get_None {A} (pk : A -> Z) (tbl : list A) (k : Z) :
  k ∉ pk <$> tbl -> query_get pk tbl k = None.
Proof.
  intros Hk. unfold query_get. by rewrite (filter_not_elem pk).
Qed.

(** X26. An event added through run_local.py is open for registration:
    after an [add_event] whose form passes the checks and whose capacity
    fits the [Integer] column, in a database whose registrations all refer
    to events, the new event is found under its key with no
    participant, and a [register_event] for it by a session that names a
    student, at any instant up to the event's date, succeeds and gives the
    event its first participant. *)
Theorem run_local_added_event_is_open `{Runtime} :
  forall (now later : Z) (form : form_t) (session student_session : session_t)
    (d : database) (student : Student.t) (t m : Z),
    is_admin_logged_in session = true ->
    complete form = true ->
    strptime (str (form !! "date")) "%Y-%m-%dT%H:%M" = Some t ->
    int (str (form !! "max_participants")) = Some m ->
    1 <= m -> now < t -> later <= t ->
    fits_integer m = true ->
    referential d ->
    get_current_student student_session d = Some student ->
    let d1 := res_db (RunLocal.add_event now POST form session d) in
    let e := event_of_form form (next_id (Event.event_id <$> events d)) t m
               now in
    let r := RunLocal.register_event later (Event.event_id e)
               student_session d1 in
    query_get Event.event_id (events d1) (Event.event_id e) = Some e
    /\ current_participants d1 e = 0
    /\ Registered e r = true
    /\ current_participants (res_db r) e = 1.
Proof.
  intros now later form session s d student t m Hin Hall Hdate Hint Hm Ht
    Hlater Hfits Href Hstudent d1 e r.
  assert (d1 = mkdb (students d) (admins d) (events d ++ [e])
                 (registrations d)) as Hd1.
  { subst d1.
    by destruct (run_local_add_event_accepted now form session d t m)
      as [_ ->]. }
  assert (query_get Event.event_id (events d1) (Event.event_id e) = Some e)
    as Hget.
  { rewrite Hd1. cbn [events]. rewrite query_get_snoc.
    rewrite query_get_None by apply next_id_not_used.
    by rewrite decide_True. }
  assert (current_participants d e = 0) as Hzero
    by (apply referential_unused; [done|apply next_id_not_used]).
  assert (current_participants d1 e = 0) as Hzero1
    by (by rewrite Hd1, current_participants_events).
  assert (is_full d1 e = false) as Hfull.
  { unfold is_full. rewrite Hzero1. apply bool_decide_eq_false. simpl. lia. }
  assert (is_past later e = false) as Hpast
    by (unfold is_past; apply bool_decide_eq_false; simpl; lia).
  assert (get_current_student s d1 = Some student) as Hstudent1
    by (by rewrite Hd1).
  assert (registrations_by (Event.event_id e) (Student.student_id student)
            (registrations d1) = []) as Hnone.
  { rewrite Hd1. cbn [registrations]. apply elem_of_nil_inv. intros x Hx.
    apply list_elem_of_filter in Hx as [[Hid _] Hx].
    apply (next_id_not_used (Event.event_id <$> events d)).
    apply Href in Hx. by rewrite Hid in Hx. }
  pose proof (get_current_student_logged_in _ _ _ Hstudent1) as Hs.
  destruct (register_event_fresh later (Event.event_id e) s d1 Hs e Hget
              Hfull Hpast student Hstudent1 Hnone) as [Hr _].
  split; [done|]. split; [done|]. subst r. rewrite Hr. split.
  - unfold Registered, flashed, succeeded, reply. cbn [res_flashes].
    by rewrite !bool_decide_eq_true_2 by reflexivity.
  - unfold reply. cbn [res_db]. rewrite current_participants_add. simpl.
    rewrite decide_True by done. lia.
Qed.

Lemma run_local_added_event_is_open_witness :
  let form := event_form "Fair" "2030-01-01T10:00" "3" in
  let d1 := res_db (@RunLocal.add_event demo_runtime 100 POST form
                      (as_admin root) campus_quiz_full) in
  let r := RunLocal.register_event 200 3 (as_student bob) d1 in
  referential campus_quiz_full
  /\ succeeded r = true
  /\ length (registrations (res_db r)) = 2%nat.
Proof.
  intros form d1 r.
  pose proof (proj2 (proj2 (proj2 campus_quiz_full_keys))) as Href.
  assert (@strptime demo_runtime (str (form !! "date")) "%Y-%m-%dT%H:%M"
          = Some 1087477080) as Hdate by (vm_compute; reflexivity).
  destruct (@run_local_added_event_is_open demo_runtime 100 200 form
              (as_admin root) (as_student bob) campus_quiz_full bob
              1087477080 3 eq_refl eq_refl Hdate eq_refl)
    as (_ & _ & Hreg & _);
    [lia|lia|lia|vm_compute; reflexivity|exact Href|reflexivity|].
  split; [exact Href|].
  split; [|reflexivity].
  apply andb_prop in Hreg as [_ Hok]. exact Hok.
Defined.
